(** * TradeMaster: a shallow embedding of the analytics core

    JavaScript numbers are modelled as exact rationals [Q]; [Math.floor]
    is [Qfloor], [Math.abs] is [Qabs].  Strings are Stdlib strings. *)

From Stdlib Require Import QArith Qround Qabs Qminmax ZArith Lia List String Ascii
  Bool Permutation Sorted.
Import ListNotations.

Open Scope Q_scope.

(** Strict comparison on [Q] as a boolean, [a < b] of JavaScript. *)
Definition Qltb (a b : Q) : bool := negb (Qle_bool b a).

(* ================================================================== *)
(** ** Position Sizing Calculator (src/components/PositionCalculator.tsx) *)
(* ================================================================== *)

Module PositionCalculator.

(** The instruments: the keys of [INDICES_LOT_SIZES], the only values the
    instrument buttons can set. *)
Inductive instrument := NIFTY | BANKNIFTY | FINNIFTY | MIDCPNIFTY | SENSEX | EQUITY.

Definition INDICES_LOT_SIZES (i : instrument) : Q :=
  match i with
  | NIFTY => 75
  | BANKNIFTY => 15
  | FINNIFTY => 25
  | MIDCPNIFTY => 50
  | SENSEX => 10
  | EQUITY => 1
  end.

Record results_t := mkResults {
  riskAmount : Q;
  slPoints : Q;
  qty : Q;
  lots : Q;
  totalValue : Q
}.

(** The body of the [results] memo. *)
Definition results (capital riskPercent entryPrice stopLoss : Q)
    (instr : instrument) : results_t :=
  let riskAmount := capital * riskPercent / 100 in
  if Qltb 0 entryPrice && Qltb 0 stopLoss then
    let slPoints := Qabs (entryPrice - stopLoss) in
    if Qltb 0 slPoints then
      let qty0 := inject_Z (Qfloor (riskAmount / slPoints)) in
      let lotSize := INDICES_LOT_SIZES instr in
      let '(lots, qty) :=
        if Qltb 1 lotSize then
          let lots := inject_Z (Qfloor (qty0 / lotSize)) in (lots, lots * lotSize)
        else (qty0, qty0) in
      mkResults riskAmount slPoints qty lots (qty * entryPrice)
    else mkResults riskAmount slPoints 0 0 0
  else mkResults riskAmount 0 0 0 0.

End PositionCalculator.

(* ================================================================== *)
(** ** Data model (src/unnamed/part_001, the types module) *)
(* ================================================================== *)

Inductive TradeType := LONG | SHORT.
Inductive TradeStatus := OPEN | CLOSED | PENDING.

Definition TradeStatus_eqb (a b : TradeStatus) : bool :=
  match a, b with
  | OPEN, OPEN | CLOSED, CLOSED | PENDING, PENDING => true
  | _, _ => false
  end.

(** [Trade]; an optional field [x?: T] is an [option T] ([None] is
    [undefined]). *)
Record Trade := mkTrade {
  id : string;
  symbol : string;
  type : TradeType;
  status : TradeStatus;
  entryDate : string;
  expiryDate : option string;
  entryPrice : Q;
  exitPrice : option Q;
  quantity : Q;
  stopLoss : option Q;
  takeProfit : option Q;
  pnl : option Q;
  setup : string;
  notes : string;
  tags : list string
}.

Record DailyNote := mkDailyNote {
  date : string;
  content : string;
  mood : option string
}.

Record DashboardStats := mkStats {
  totalTrades : Z;
  winRate : Q;
  netPnL : Q;
  avgWin : Q;
  avgLoss : Q;
  profitFactor : Q;
  maxWinStreak : Z;
  currentStreak : Z
}.

(** [t.pnl || 0] *)
Definition pnl_or0 (t : Trade) : Q :=
  match pnl t with Some p => p | None => 0 end.

Definition is_closed (t : Trade) : bool := TradeStatus_eqb (status t) CLOSED.

(** [t.pnl !== undefined] *)
Definition has_pnl (t : Trade) : bool :=
  match pnl t with Some _ => true | None => false end.

(** [arr.reduce((acc, t) => acc + (t.pnl || 0), 0)] *)
Definition sum_pnl (l : list Trade) : Q :=
  fold_left (fun acc t => acc + pnl_or0 t) l 0.

(** [String(n)] for an integer [n]. *)
Fixpoint digits_aux (fuel : nat) (n : Z) (acc : string) : string :=
  match fuel with
  | O => acc
  | S f =>
      let acc' := String (ascii_of_nat (48 + Z.to_nat (Z.modulo n 10))) acc in
      if (n <? 10)%Z then acc' else digits_aux f (n / 10)%Z acc'
  end.

Definition Z_to_string (z : Z) : string :=
  if (z <? 0)%Z
  then String "-" (digits_aux (S (Z.to_nat (Z.log2 (- z)))) (- z) EmptyString)
  else digits_aux (S (Z.to_nat (Z.log2 z))) z EmptyString.

(** [s.padStart(2, '0')] *)
Definition padStart2 (s : string) : string :=
  match String.length s with
  | O => "00"
  | 1%nat => String "0" s
  | _ => s
  end.

(** [a.localeCompare(b)]: on the strings compared here (record
    identifiers and [YYYY-MM] keys) collation is taken as code-unit
    order. *)
Definition localeCompare (a b : string) : Z :=
  match String.compare a b with Lt => -1 | Eq => 0 | Gt => 1 end.

(** [Array.prototype.sort] with a comparator: a stable sort; an element
    goes after every element already placed that it does not precede. *)
Fixpoint insert_by {A} (cmp : A -> A -> Z) (x : A) (l : list A) : list A :=
  match l with
  | [] => [x]
  | y :: ys => if (cmp x y <? 0)%Z then x :: y :: ys else y :: insert_by cmp x ys
  end.

Definition sort_by {A} (cmp : A -> A -> Z) (l : list A) : list A :=
  fold_left (fun acc x => insert_by cmp x acc) l [].

(* ================================================================== *)
(** ** Dashboard analytics (src/components/Dashboard.tsx) *)
(* ================================================================== *)

Module Dashboard.

Section Analytics.

(** The services of the JavaScript runtime the dashboard relies on, which
    depend on the time zone and locale of the browser:
    - [getTime s] is [new Date(s).getTime()];
    - [yearMonth s] is [(d.getFullYear(), d.getMonth())] for [d = new Date(s)];
    - [monthLabel y m] is [new Date(y, m).toLocaleString('default',
      { month: 'short', year: '2-digit' })];
    - [shortDate s] is [new Date(s).toLocaleDateString(undefined,
      { month: 'short', day: 'numeric' })]. *)
Variable getTime : string -> Z.
Variable yearMonth : string -> Z * Z.
Variable monthLabel : Z -> Z -> string.
Variable shortDate : string -> string.

(** Comparator of the [stats] memo: entry time, then identifier. *)
Definition stats_cmp (a b : Trade) : Z :=
  let dateDiff := (getTime (entryDate a) - getTime (entryDate b))%Z in
  if negb (dateDiff =? 0)%Z then dateDiff else localeCompare (id a) (id b).

(** The streak loop state: [(currentWinStreakCounter, maxWinStreak,
    currentStreak)]. *)
Definition streak_step (st : Z * Z * Z) (trade : Trade) : Z * Z * Z :=
  let '(counter, maxWin, cur) := st in
  let p := pnl_or0 trade in
  if Qltb 0 p then
    let counter' := (counter + 1)%Z in
    (counter', Z.max maxWin counter', if (0 <=? cur)%Z then (cur + 1)%Z else 1%Z)
  else
    (0%Z, maxWin, if (cur <=? 0)%Z then (cur - 1)%Z else (-1)%Z).

Definition closedTrades_of (trades : list Trade) : list Trade :=
  sort_by stats_cmp (filter (fun t => is_closed t && has_pnl t) trades).

Definition stats (trades : list Trade) : DashboardStats :=
  let closedTrades := closedTrades_of trades in
  let totalTrades := Z.of_nat (List.length closedTrades) in
  let wins := filter (fun t => Qltb 0 (pnl_or0 t)) closedTrades in
  let losses := filter (fun t => Qle_bool (pnl_or0 t) 0) closedTrades in
  let totalWinPnl := sum_pnl wins in
  let totalLossPnl := Qabs (sum_pnl losses) in
  let netPnL := totalWinPnl - totalLossPnl in
  let nw := inject_Z (Z.of_nat (List.length wins)) in
  let nl := inject_Z (Z.of_nat (List.length losses)) in
  let winRate := if (0 <? totalTrades)%Z then (nw / inject_Z totalTrades) * 100 else 0 in
  let avgWin := if Qltb 0 nw then totalWinPnl / nw else 0 in
  let avgLoss := if Qltb 0 nl then totalLossPnl / nl else 0 in
  let profitFactor :=
    if Qltb 0 totalLossPnl then totalWinPnl / totalLossPnl
    else if Qltb 0 totalWinPnl then 999 else 0 in
  let '(_, maxWinStreak, currentStreak) :=
    fold_left streak_step closedTrades (0%Z, 0%Z, 0%Z) in
  mkStats totalTrades winRate netPnL avgWin avgLoss profitFactor
    maxWinStreak currentStreak.

(** ** Equity curve *)

Record EquityPoint := mkPoint { pdate : string; equity : Q; ppnl : option Q }.

Definition equity_cmp (a b : Trade) : Z :=
  (getTime (entryDate a) - getTime (entryDate b))%Z.

(** [sortedTrades.map(...)] with [runningBalance] threaded through. *)
Fixpoint equity_scan (runningBalance : Q) (l : list Trade) : list EquityPoint :=
  match l with
  | [] => []
  | t :: rest =>
      let rb := runningBalance + pnl_or0 t in
      mkPoint (shortDate (entryDate t)) rb (pnl t) :: equity_scan rb rest
  end.

Definition equity_sorted (trades : list Trade) : list Trade :=
  sort_by equity_cmp (filter is_closed trades).

Definition equityCurveData (trades : list Trade) : list EquityPoint :=
  equity_scan 0 (equity_sorted trades).

(** ** Monthly aggregation *)

(** [`${date.getFullYear()}-${String(date.getMonth() + 1).padStart(2, '0')}`] *)
Definition month_key (s : string) : string :=
  let '(y, m) := yearMonth s in
  (Z_to_string y ++ "-" ++ padStart2 (Z_to_string (m + 1)))%string.

(** The object [data] as its list of entries in insertion order;
    [data[key] = (data[key] || 0) + v]. *)
Fixpoint obj_add (key : string) (v : Q) (data : list (string * Q)) : list (string * Q) :=
  match data with
  | [] => [(key, 0 + v)]
  | (k, x) :: rest =>
      if String.eqb k key then (k, x + v) :: rest else (k, x) :: obj_add key v rest
  end.

Definition monthly_data (trades : list Trade) : list (string * Q) :=
  fold_left (fun data t => obj_add (month_key (entryDate t)) (pnl_or0 t) data)
    (filter is_closed trades) [].

(** [Object.entries(data).sort(([keyA], [keyB]) => keyA.localeCompare(keyB))] *)
Definition monthly_entries (trades : list Trade) : list (string * Q) :=
  sort_by (fun a b => localeCompare (fst a) (fst b)) (monthly_data trades).

(** [key.split('-')] *)
Fixpoint split_dash_aux (s : string) (cur : string) : list string :=
  match s with
  | EmptyString => [cur]
  | String c rest =>
      if Ascii.eqb c "-" then cur :: split_dash_aux rest EmptyString
      else split_dash_aux rest (cur ++ String c EmptyString)
  end.

Definition split_dash (s : string) : list string := split_dash_aux s EmptyString.

(** [parseInt(s)] on an unsigned decimal: its leading digits, or NaN
    ([None]) when there are none. *)
Fixpoint parse_digits (s : string) (acc : option Z) : option Z :=
  match s with
  | EmptyString => acc
  | String c rest =>
      let n := nat_of_ascii c in
      if (48 <=? n)%nat && (n <=? 57)%nat then
        let d := Z.of_nat (n - 48) in
        parse_digits rest (Some (match acc with Some a => a * 10 + d | None => d end)%Z)
      else acc
  end.

Definition parseInt (s : string) : option Z := parse_digits s None.

Record MonthPoint := mkMonthPoint { name : string; mpnl : Q }.

Definition monthlyChartData (trades : list Trade) : list MonthPoint :=
  map (fun '(key, p) =>
         let parts := split_dash key in
         let year := parseInt (nth 0 parts EmptyString) in
         let month := parseInt (nth 1 parts EmptyString) in
         let label :=
           match year, month with
           | Some y, Some m => monthLabel y (m - 1)
           | _, _ => "Invalid Date"%string
           end in
         mkMonthPoint label p)
    (monthly_entries trades).

End Analytics.

(** ** Calendar *)

(** [new Date(y, ...)] reads a year in 0..99 as 1900 + y. *)
Definition date_year (y : Z) : Z := if (0 <=? y)%Z && (y <=? 99)%Z then (1900 + y)%Z else y.

Definition is_leap (y : Z) : bool :=
  (Z.eqb (Z.modulo y 4) 0 && negb (Z.eqb (Z.modulo y 100) 0)) || Z.eqb (Z.modulo y 400) 0.

(** [new Date(year, month + 1, 0).getDate()], for [month] in 0..11. *)
Definition daysInMonth (year month : Z) : Z :=
  match month with
  | 1%Z => if is_leap (date_year year) then 29 else 28
  | 3%Z | 5%Z | 8%Z | 10%Z => 30
  | _ => 31
  end%Z.

(** [new Date(year, month, 1).getDay()] (0 = Sunday), proleptic
    Gregorian calendar. *)
Definition firstDayOfWeek (year month : Z) : Z :=
  let y := date_year year in
  let y' := if (month <? 2)%Z then (y - 1)%Z else y in
  let t := nth (Z.to_nat month) [0; 3; 2; 5; 0; 3; 5; 1; 4; 6; 2; 4]%Z 0%Z in
  Z.modulo (y' + y' / 4 - y' / 100 + y' / 400 + t + 1) 7.

Record DayCell := mkDayCell {
  day : Z;
  dateStr : string;
  dpnl : Q;
  hasTrades : bool;
  hasNote : bool
}.

Definition dateStr_of (year month i : Z) : string :=
  (Z_to_string year ++ "-" ++ padStart2 (Z_to_string (month + 1)) ++ "-"
     ++ padStart2 (Z_to_string i))%string.

(** [trades.filter(t => t.entryDate.startsWith(dateStr) && t.status === CLOSED)] *)
Definition dayTrades (trades : list Trade) (ds : string) : list Trade :=
  filter (fun t => String.prefix ds (entryDate t) && is_closed t) trades.

Definition day_cell (trades : list Trade) (dailyNotes : list DailyNote)
    (year month i : Z) : DayCell :=
  let ds := dateStr_of year month i in
  let dt := dayTrades trades ds in
  let dailyPnl := sum_pnl dt in
  let hasTr := (0 <? Z.of_nat (List.length dt))%Z in
  let note := find (fun n => String.eqb (date n) ds) dailyNotes in
  let hasN := match note with Some _ => true | None => false end in
  mkDayCell i ds dailyPnl hasTr hasN.

(** The days [1..n] of the month. *)
Definition day_numbers (n : Z) : list Z :=
  map (fun k => Z.of_nat k + 1)%Z (seq 0 (Z.to_nat n)).

(** [calendarData.days]: the leading blank cells ([None]) then one cell
    per day of the month. *)
Definition calendarDays (trades : list Trade) (dailyNotes : list DailyNote)
    (year month : Z) : list (option DayCell) :=
  repeat None (Z.to_nat (firstDayOfWeek year month)) ++
  map (fun i => Some (day_cell trades dailyNotes year month i))
    (day_numbers (daysInMonth year month)).

End Dashboard.

(* ================================================================== *)
(** ** Trade form P&L (src/components/TradeForm.tsx, [handleChange]) *)
(* ================================================================== *)

Module TradeForm.

(** [Number(x.toFixed(2))]: the nearest multiple of 1/100, ties away
    from zero. *)
Definition toFixed2 (x : Q) : Q :=
  let a := Qabs x in
  let n := Qfloor (a * 100 + (1 # 2)) in
  if Qltb x 0 then - (inject_Z n / 100) else inject_Z n / 100.

(** The part of [formData] that [handleChange] reads and writes. *)
Record FormData := mkForm {
  f_type : TradeType;
  f_entryPrice : option Q;
  f_exitPrice : option Q;
  f_quantity : option Q;
  f_pnl : option Q
}.

(** The initial [formData] of a new trade. *)
Definition initialForm : FormData := mkForm LONG None None None None.

(** The other inputs wired to [handleChange] ([name="symbol"],
    [entryDate], [expiryDate], [status], [stopLoss], [takeProfit],
    [setup], [notes]): they write fields outside [FormData]. *)
Inductive OtherField :=
  | FSymbol | FEntryDate | FExpiryDate | FStatus
  | FStopLoss | FTakeProfit | FSetup | FNotes.

(** A change event: the field named by [e.target.name] with its parsed
    value ([None] for the empty string). [handleChange] also handles the
    name ['type'], although no input of the form carries that name (the
    side buttons call [setFormData] directly, see [setSide]). *)
Inductive FormEvent :=
  | SetEntryPrice (v : option Q)
  | SetExitPrice (v : option Q)
  | SetQuantity (v : option Q)
  | SetType (v : TradeType)
  | SetPnl (v : option Q)
  | SetOther (f : OtherField).

Definition handleChange (prev : FormData) (e : FormEvent) : FormData :=
  let updated :=
    match e with
    | SetEntryPrice v => mkForm (f_type prev) v (f_exitPrice prev) (f_quantity prev) (f_pnl prev)
    | SetExitPrice v => mkForm (f_type prev) (f_entryPrice prev) v (f_quantity prev) (f_pnl prev)
    | SetQuantity v => mkForm (f_type prev) (f_entryPrice prev) (f_exitPrice prev) v (f_pnl prev)
    | SetType v => mkForm v (f_entryPrice prev) (f_exitPrice prev) (f_quantity prev) (f_pnl prev)
    | SetPnl v => mkForm (f_type prev) (f_entryPrice prev) (f_exitPrice prev) (f_quantity prev) v
    | SetOther _ => prev
    end in
  match e with
  | SetPnl _ | SetOther _ => updated
  | _ =>
      match f_entryPrice updated, f_exitPrice updated, f_quantity updated with
      | Some entry, Some exit, Some q =>
          let diff := exit - entry in
          let calculatedPnl :=
            match f_type updated with LONG => diff * q | SHORT => - diff * q end in
          mkForm (f_type updated) (f_entryPrice updated) (f_exitPrice updated)
            (f_quantity updated) (Some (toFixed2 calculatedPnl))
      | _, _, _ => updated
      end
  end.


(** [clearPnL]: [setFormData(prev => ({ ...prev, pnl: undefined }))]. *)
Definition clearPnL (prev : FormData) : FormData :=
  mkForm (f_type prev) (f_entryPrice prev) (f_exitPrice prev) (f_quantity prev) None.

End TradeForm.

(* ================================================================== *)
(** ** Asynchronous results and errors *)
(* ================================================================== *)

Inductive JSError := mkJSError (message : string).

(** The settled state of a promise. *)
Inductive Promise (A : Type) :=
  | Resolved (a : A)
  | Rejected (e : JSError).
Arguments Resolved {A} a.
Arguments Rejected {A} e.

(** Code between [try] and [catch]: a computation that may throw. *)
Definition Result (A : Type) : Type := JSError + A.

Definition ret {A} (a : A) : Result A := inr a.
Definition bind {A B} (m : Result A) (k : A -> Result B) : Result B :=
  match m with inl e => inl e | inr a => k a end.
Notation "x <- m ;; k" := (bind m (fun x => k)) (at level 61, m at next level, right associativity).

(** [await p] inside an [async] function. *)
Definition await {A} (p : Promise A) : Result A :=
  match p with Resolved a => inr a | Rejected e => inl e end.

(* ================================================================== *)
(** ** AI Coach Adapter (src/unnamed/part_000, first file) *)
(* ================================================================== *)

Module GeminiService.

(** A [GenerateContentResponse]: only its [text] getter is read. *)
Record GenerateResponse := mkResponse { text : option string }.

Section Coach.

(** [`${x}`] for a number. *)
Variable numberToString : Q -> string.

(** [`${v || 'N/A'}`] for an optional number. *)
Definition or_na (v : option Q) : string :=
  match v with
  | Some x => if Qeq_bool x 0 then "N/A" else numberToString x
  | None => "N/A"
  end.

Definition type_str (t : TradeType) : string :=
  match t with LONG => "LONG" | SHORT => "SHORT" end.

(** The prompt template, reduced to the trade fields it interpolates. *)
Definition prompt (trade : Trade) : string :=
  ("Trade Details: Symbol: " ++ symbol trade ++
   " Type: " ++ type_str (type trade) ++
   " Entry: " ++ numberToString (entryPrice trade) ++
   " Exit: " ++ or_na (exitPrice trade) ++
   " P&L: " ++ or_na (pnl trade) ++
   " Strategy: " ++ setup trade ++
   " Trader's Notes: " ++ notes trade)%string.

Definition analysis_fallback : string := "Could not generate analysis.".
Definition connection_error : string :=
  "Error connecting to AI Coach. Please check your API key or try again later.".

(** [analyzeTradeWithAI]: [getAIClient] may throw ([client]); the model
    call [generateContent] settles its promise in any way. *)
Definition analyzeTradeWithAI (client : Result unit)
    (generateContent : string -> Promise GenerateResponse) (trade : Trade)
    : Promise string :=
  let body :=
    _ <- client ;;
    response <- await (generateContent (prompt trade)) ;;
    ret (match text response with
         | Some s => if String.eqb s "" then analysis_fallback else s
         | None => analysis_fallback
         end) in
  match body with
  | inr s => Resolved s
  | inl _ => Resolved connection_error
  end.

End Coach.

End GeminiService.

(* ================================================================== *)
(** ** Trade Store client (src/unnamed/part_000, second and third files) *)
(* ================================================================== *)

Module SupabaseService.

(** A row of the [trades] table as the client receives it: [numeric]
    columns arrive as numbers, [text] columns as strings, SQL NULL as
    [None]. *)
Record TradeRow := mkRow {
  r_id : string;
  r_symbol : string;
  r_type : string;
  r_status : string;
  r_entry_date : string;
  r_expiry_date : option string;
  r_entry_price : option Q;
  r_exit_price : option Q;
  r_quantity : option Q;
  r_stop_loss : option Q;
  r_take_profit : option Q;
  r_pnl : option Q;
  r_setup : option string;
  r_notes : option string;
  r_tags : option (list string)
}.

(** The object built for each row; [type] and [status] are cast, not
    checked, so they keep the stored string. [expiryDate] keeps SQL NULL. *)
Record FetchedTrade := mkFetched {
  ft_id : string;
  ft_symbol : string;
  ft_type : string;
  ft_status : string;
  ft_entryDate : string;
  ft_expiryDate : option string;
  ft_entryPrice : Q;
  ft_exitPrice : option Q;
  ft_quantity : Q;
  ft_stopLoss : option Q;
  ft_takeProfit : option Q;
  ft_pnl : option Q;
  ft_setup : string;
  ft_notes : string;
  ft_tags : list string
}.

(** [Number(v)] on a numeric column: [Number(null)] is 0. *)
Definition Number (v : option Q) : Q := match v with Some q => q | None => 0 end.

(** [v ? Number(v) : undefined]: 0 and NULL are falsy. *)
Definition truthy_number (v : option Q) : option Q :=
  match v with Some q => if Qeq_bool q 0 then None else Some q | None => None end.

(** [v !== null ? Number(v) : undefined] *)
Definition nonnull_number (v : option Q) : option Q :=
  match v with Some q => Some q | None => None end.

(** [v || ''] on a text column. *)
Definition or_empty (v : option string) : string :=
  match v with Some s => s | None => EmptyString end.

(** The row mapping of the first [fetchTrades] (the file importing
    ['../types.ts']). *)
Definition map_row_v1 (t : TradeRow) : FetchedTrade :=
  mkFetched (r_id t) (r_symbol t) (r_type t) (r_status t) (r_entry_date t)
    (r_expiry_date t) (Number (r_entry_price t)) (truthy_number (r_exit_price t))
    (Number (r_quantity t)) (truthy_number (r_stop_loss t))
    (truthy_number (r_take_profit t)) (nonnull_number (r_pnl t))
    (or_empty (r_setup t)) (or_empty (r_notes t))
    (match r_tags t with Some l => l | None => [] end).

(** The row mapping of the second [fetchTrades] (the file importing
    ['../types']). *)
Definition map_row_v2 (t : TradeRow) : FetchedTrade :=
  mkFetched (r_id t) (r_symbol t) (r_type t) (r_status t) (r_entry_date t)
    (r_expiry_date t) (Number (r_entry_price t)) (truthy_number (r_exit_price t))
    (Number (r_quantity t)) (truthy_number (r_stop_loss t))
    (truthy_number (r_take_profit t)) (truthy_number (r_pnl t))
    (or_empty (r_setup t)) (or_empty (r_notes t))
    (match r_tags t with Some l => l | None => [] end).

(** [fetchTrades] given the query's [{ data, error }]. *)
Definition fetchTrades (map_row : TradeRow -> FetchedTrade)
    (data : list TradeRow) (error : option JSError) : Promise (list FetchedTrade) :=
  match error with
  | Some e => Rejected e
  | None => Resolved (map map_row data)
  end.

Definition fetchTrades_v1 := fetchTrades map_row_v1.
Definition fetchTrades_v2 := fetchTrades map_row_v2.

End SupabaseService.

(* ================================================================== *)
(** ** Auxiliary definitions for the statements *)
(* ================================================================== *)

(** A list sum written right to left, to reason about [reduce]. *)
Definition qsum {A} (f : A -> Q) (l : list A) : Q :=
  fold_right (fun x acc => f x + acc) 0 l.

(** The total won and the total lost of the [stats] memo. *)
Definition totalWinPnl (getTime : string -> Z) (trades : list Trade) : Q :=
  sum_pnl (filter (fun t => Qltb 0 (pnl_or0 t)) (Dashboard.closedTrades_of getTime trades)).

Definition totalLossPnl (getTime : string -> Z) (trades : list Trade) : Q :=
  Qabs (sum_pnl (filter (fun t => Qle_bool (pnl_or0 t) 0)
                        (Dashboard.closedTrades_of getTime trades))).

(** Scenario A: the trade form filled with entry 100, exit 120 and
    quantity 10 on a long trade, then saved as a closed trade. *)
Definition scenarioA_form : TradeForm.FormData :=
  fold_left TradeForm.handleChange
    [TradeForm.SetEntryPrice (Some 100); TradeForm.SetExitPrice (Some 120);
     TradeForm.SetQuantity (Some 10)] TradeForm.initialForm.

Definition scenarioA_trade : Trade :=
  mkTrade "a1" "NIFTY" LONG CLOSED "2024-01-05T10:00" None 100 (Some 120) 10
    None None (TradeForm.f_pnl scenarioA_form) "" "" [].

(** Days since 1970-01-01 of a proleptic Gregorian date. *)
Definition days_from_civil (y m d : Z) : Z :=
  let y' := if (m <=? 2)%Z then (y - 1)%Z else y in
  let era := (y' / 400)%Z in
  let yoe := (y' - era * 400)%Z in
  let mp := if (2 <? m)%Z then (m - 3)%Z else (m + 9)%Z in
  let doy := ((153 * mp + 2) / 5 + d - 1)%Z in
  let doe := (yoe * 365 + yoe / 4 - yoe / 100 + doy)%Z in
  (era * 146097 + doe - 719468)%Z.

(** One instance of [new Date(s).getTime()], for the examples: a string
    starting with [YYYY-MM-DD] is read as that day at 00:00 UTC (the time
    part is not read); other strings give 0. *)
Definition utcDayTime (s : string) : Z :=
  match Dashboard.parseInt (substring 0 4 s), Dashboard.parseInt (substring 5 2 s),
        Dashboard.parseInt (substring 8 2 s) with
  | Some y, Some m, Some d => (days_from_civil y m d * 86400000)%Z
  | _, _, _ => 0%Z
  end.

(** A closed trade of the given identifier, entry date and P&L. *)
Definition closed_trade (i d : string) (p : Q) : Trade :=
  mkTrade i "NIFTY" LONG CLOSED d None 100 None 1 None None (Some p) "" "" [].

(** Scenario B: P&L -50, 100, -30 on three successive days. *)
Definition scenarioB : list Trade :=
  [closed_trade "b1" "2024-01-01" (-50); closed_trade "b2" "2024-01-02" 100;
   closed_trade "b3" "2024-01-03" (-30)].

(** Scenario E: P&L 100 on 2024-01-05 and -40 on 2024-01-20. *)
Definition scenarioE : list Trade :=
  [closed_trade "e1" "2024-01-05" 100; closed_trade "e2" "2024-01-20" (-40)].

(** One instance of [(getFullYear(), getMonth())] for the examples: the
    [YYYY-MM] prefix of the string. *)
Definition prefixYearMonth (s : string) : Z * Z :=
  match Dashboard.parseInt (substring 0 4 s), Dashboard.parseInt (substring 5 2 s) with
  | Some y, Some m => (y, m - 1)%Z
  | _, _ => (0%Z, 0%Z)
  end.

(** One instance of the month label, the en-US [short month, 2-digit
    year] format. *)
Definition enUSMonthLabel (y m : Z) : string :=
  (nth (Z.to_nat m) ["Jan"; "Feb"; "Mar"; "Apr"; "May"; "Jun"; "Jul"; "Aug";
                     "Sep"; "Oct"; "Nov"; "Dec"] "?" ++ " " ++
   padStart2 (Z_to_string (Z.modulo y 100)))%string.

(** The value of [data[k]]: the first entry of key [k]. *)
Fixpoint obj_get (k : string) (data : list (string * Q)) : option Q :=
  match data with
  | [] => None
  | (k', x) :: rest => if String.eqb k' k then Some x else obj_get k rest
  end.

(** A stored breakeven trade: its [pnl] column is 0. *)
Definition breakeven_row : SupabaseService.TradeRow :=
  SupabaseService.mkRow "r1" "NIFTY" "LONG" "CLOSED" "2024-01-05T10:00:00+00:00" None
    (Some 100) (Some 100) (Some 75) None None (Some 0) (Some "Breakout"%string) None None.

(* ================================================================== *)
(** ** String and object operations of the JavaScript runtime *)
(* ================================================================== *)

Module JS.

(** The ASCII white space characters (tab, line feed, vertical tab, form
    feed, carriage return, space), those [String.prototype.trim] removes
    from ASCII text. *)
Definition is_ws (c : ascii) : bool :=
  let n := nat_of_ascii c in
  ((9 <=? n)%nat && (n <=? 13)%nat) || (n =? 32)%nat.

Fixpoint trimStart (s : string) : string :=
  match s with
  | EmptyString => EmptyString
  | String c r => if is_ws c then trimStart r else s
  end.

Fixpoint trimEnd (s : string) : string :=
  match s with
  | EmptyString => EmptyString
  | String c r =>
      let r' := trimEnd r in
      if String.eqb r' EmptyString && is_ws c then EmptyString else String c r'
  end.

(** [s.trim()] *)
Definition trim (s : string) : string := trimEnd (trimStart s).

(** [s.split(sep)] for a one-character separator; [cur] is the part being
    read. *)
Fixpoint split_aux (sep : ascii) (s cur : string) : list string :=
  match s with
  | EmptyString => [cur]
  | String c rest =>
      if Ascii.eqb c sep then cur :: split_aux sep rest EmptyString
      else split_aux sep rest (cur ++ String c EmptyString)
  end.

Definition split (sep : ascii) (s : string) : list string := split_aux sep s EmptyString.

(** [parts.join(sep)] *)
Fixpoint join (sep : string) (parts : list string) : string :=
  match parts with
  | [] => EmptyString
  | [p] => p
  | p :: ps => (p ++ sep ++ join sep ps)%string
  end.

(** [s.includes(sub)] *)
Fixpoint includes (sub s : string) : bool :=
  String.prefix sub s ||
  match s with EmptyString => false | String _ r => includes sub r end.

(** [s.endsWith(c)] for a one-character string [c]. *)
Fixpoint endsWith (c : ascii) (s : string) : bool :=
  match s with
  | EmptyString => false
  | String d EmptyString => Ascii.eqb d c
  | String _ r => endsWith c r
  end.

(** [s.toUpperCase()] on ASCII text: the letters a..z become A..Z. *)
Definition upper_ascii (c : ascii) : ascii :=
  let n := nat_of_ascii c in
  if (97 <=? n)%nat && (n <=? 122)%nat then ascii_of_nat (n - 32) else c.

Fixpoint toUpperCase (s : string) : string :=
  match s with
  | EmptyString => EmptyString
  | String c r => String (upper_ascii c) (toUpperCase r)
  end.

Definition is_digit (c : ascii) : bool :=
  let n := nat_of_ascii c in (48 <=? n)%nat && (n <=? 57)%nat.

Fixpoint all_digits (s : string) : bool :=
  match s with
  | EmptyString => true
  | String c r => is_digit c && all_digits r
  end.

(** The value of a key that is an array index: "0", or a digit string
    without a leading zero whose value is below 2^32 - 1. *)
Definition array_index (s : string) : option Z :=
  match s with
  | EmptyString => None
  | String c r =>
      if all_digits s && (negb (Ascii.eqb c "0") || String.eqb r EmptyString) then
        match Dashboard.parseInt s with
        | Some n => if (n <? 4294967295)%Z then Some n else None
        | None => None
        end
      else None
  end.

Definition is_index_key {V} (kv : string * V) : bool :=
  match array_index (fst kv) with Some _ => true | None => false end.

(** [Object.entries(obj)] of an object given by its properties in
    insertion order: the array-index keys first in ascending numeric
    order, then the other keys in insertion order. *)
Definition entries {V} (data : list (string * V)) : list (string * V) :=
  sort_by (fun a b =>
             match array_index (fst a), array_index (fst b) with
             | Some x, Some y => (x - y)%Z
             | _, _ => 0%Z
             end)
          (filter is_index_key data)
  ++ filter (fun kv => negb (is_index_key kv)) data.

End JS.

(* ================================================================== *)
(** ** Dashboard panels and handlers (src/components/Dashboard.tsx) *)
(* ================================================================== *)

Module DashboardView.

(** ** [strategyData] *)

(** [t.setup || 'Other'] *)
Definition setup_or_other (t : Trade) : string :=
  if String.eqb (setup t) "" then "Other" else setup t.

Record StrategySlice := mkSlice { sname : string; svalue : Q }.

(** The sign of a number, all that [Array.prototype.sort] reads of a
    comparator's result. *)
Definition Qsign (q : Q) : Z :=
  if Qltb q 0 then (-1)%Z else if Qltb 0 q then 1%Z else 0%Z.

(** The property names [Object.prototype] provides. [counts] is a plain
    [{}], so for one of these names not yet stored [counts[s]] reads the
    inherited member (a function, or [Object.prototype] itself for
    [__proto__]) instead of [undefined], and [counts[s] || 0] is not 0. *)
Definition Object_prototype_keys : list string :=
  ["constructor"; "__defineGetter__"; "__defineSetter__"; "hasOwnProperty";
   "__lookupGetter__"; "__lookupSetter__"; "isPrototypeOf";
   "propertyIsEnumerable"; "toString"; "valueOf"; "__proto__";
   "toLocaleString"]%string.

(** [counts] after [trades.forEach(t => counts[s] = (counts[s] || 0) + 1)],
    for setups none of which is in [Object_prototype_keys] (a missing key
    then reads [undefined] and [counts[s] || 0] is 0). *)
Definition strategy_counts (trades : list Trade) : list (string * Q) :=
  fold_left (fun counts t => Dashboard.obj_add (setup_or_other t) 1 counts) trades [].

Definition strategyData (trades : list Trade) : list StrategySlice :=
  sort_by (fun a b => Qsign (svalue b - svalue a))
    (map (fun '(name, value) => mkSlice name value) (JS.entries (strategy_counts trades))).

(** ** [prepareDailyStats] *)

(** [\w]: ASCII letters, digits and the underscore. *)
Definition is_word (c : ascii) : bool :=
  let n := nat_of_ascii c in
  JS.is_digit c || ((65 <=? n)%nat && (n <=? 90)%nat) ||
  ((97 <=? n)%nat && (n <=? 122)%nat) || (n =? 95)%nat.

(** The matches of [/#\w+/g], read left to right; [cur] is the match in
    progress: "#" and the word characters read after it.  A "#" not
    followed by a word character is no match, and the search goes on at
    the next character. *)
Fixpoint hashtags_aux (s : string) (cur : option string) : list string :=
  match s with
  | EmptyString =>
      match cur with
      | Some w => if (1 <? String.length w)%nat then [w] else []
      | None => []
      end
  | String c rest =>
      let fresh := if Ascii.eqb c "#" then hashtags_aux rest (Some "#"%string)
                   else hashtags_aux rest None in
      match cur with
      | Some w =>
          if is_word c then hashtags_aux rest (Some (w ++ String c EmptyString)%string)
          else (if (1 <? String.length w)%nat then [w] else []) ++ fresh
      | None => fresh
      end
  end.

(** [s.match(/#\w+/g) || []] *)
Definition hashtags (s : string) : list string := hashtags_aux s None.

(** [[...new Set(xs)]]: the first occurrence of each value, in order. *)
Definition dedup (xs : list string) : list string :=
  fold_left (fun acc x => if existsb (String.eqb x) acc then acc else acc ++ [x]) xs [].

Definition psychologyTags (todaysTrades : list Trade) : list string :=
  dedup (flat_map (fun t => hashtags (notes t)) todaysTrades).

(** A match of [/#\w+/]: "#" followed by one or more word characters. *)
Definition hashtag_like (tag : string) : Prop :=
  exists w, tag = String "#" w /\ w <> EmptyString /\
            forallb is_word (list_ascii_of_string w) = true.

(** [Math.max(x, ...xs)] and [Math.min(x, ...xs)] *)
Definition Math_max (x : Q) (xs : list Q) : Q := fold_left Qmax xs x.
Definition Math_min (x : Q) (xs : list Q) : Q := fold_left Qmin xs x.

Record DailyReport := mkReport {
  rstats : DashboardStats;
  rdateStr : string;
  psychology : string
}.

(** [prepareDailyStats()]: [today] is [new Date().toISOString().split('T')[0]]
    and [d], [m], [y] are [getDate()], [getMonth()] and [getFullYear()]
    of [new Date()].  [None] is the branch that alerts and returns
    [null].  The [message] text, these values formatted with [toFixed],
    is not modelled. *)
Definition prepareDailyStats (trades : list Trade) (today : string) (d m y : Z)
    : option DailyReport :=
  let todaysTrades := Dashboard.dayTrades trades today in
  match todaysTrades with
  | [] => None
  | _ =>
      let todayPnL := sum_pnl todaysTrades in
      let winTrades := filter (fun t => Qltb 0 (pnl_or0 t)) todaysTrades in
      let lossTrades := filter (fun t => Qle_bool (pnl_or0 t) 0) todaysTrades in
      let wins := Z.of_nat (List.length winTrades) in
      let n := Z.of_nat (List.length todaysTrades) in
      let winRate := if (0 <? n)%Z then (inject_Z wins / inject_Z n) * 100 else 0 in
      let bestWin :=
        match winTrades with
        | [] => 0
        | w :: ws => Math_max (pnl_or0 w) (map pnl_or0 ws)
        end in
      let maxLoss :=
        match lossTrades with
        | [] => 0
        | l :: ls => Math_min (pnl_or0 l) (map pnl_or0 ls)
        end in
      let psych := JS.join " " (psychologyTags todaysTrades) in
      let dateStr := (padStart2 (Z_to_string d) ++ "/" ++ padStart2 (Z_to_string (m + 1))
                      ++ "/" ++ Z_to_string y)%string in
      Some (mkReport (mkStats n winRate todayPnL bestWin maxLoss 0 0 0) dateStr psych)
  end.

(** ** Day notes *)

(** The editor fields [handleDayClick(dateStr)] loads:
    [existingNote?.content || ''] and [existingNote?.mood || 'Neutral']. *)
Definition handleDayClick (dailyNotes : list DailyNote) (dateStr : string) : string * string :=
  let existingNote := find (fun n => String.eqb (date n) dateStr) dailyNotes in
  (match existingNote with Some n => content n | None => EmptyString end,
   match existingNote with
   | Some n => match mood n with
               | Some md => if String.eqb md "" then "Neutral"%string else md
               | None => "Neutral"%string
               end
   | None => "Neutral"%string
   end).

(** The note [saveCurrentNote] passes to [onSaveNote]. *)
Definition saveCurrentNote (dateStr noteContent noteMood : string) : DailyNote :=
  mkDailyNote dateStr noteContent (Some noteMood).

(** ** Month navigation *)

(** [(d.getFullYear(), d.getMonth())] of [d = new Date(y, m, 1)]: a year
    in 0..99 is read as 1900 + y, and a month index outside 0..11 carries
    into the year. *)
Definition date_year_month (y m : Z) : Z * Z :=
  (Dashboard.date_year y + m / 12, m mod 12)%Z.

(** [changeMonth(delta)] on the viewed [(year, month)]. *)
Definition changeMonth (view : Z * Z) (delta : Z) : Z * Z :=
  let '(y, m) := view in date_year_month y (m + delta).

End DashboardView.

(* ================================================================== *)
(** ** Application state handlers (src/App.tsx) *)
(* ================================================================== *)

Module App.

(** The optimistic update of [handleSaveNote(note)]. *)
Definition handleSaveNote_update (dailyNotes : list DailyNote) (note : DailyNote)
    : list DailyNote :=
  filter (fun n => negb (String.eqb (date n) (date note))) dailyNotes ++ [note].

(** The optimistic update of [handleSaveTrade(trade)]; [editing] is
    [editingTrade !== null]. *)
Definition handleSaveTrade_update (editing : bool) (trades : list Trade) (trade : Trade)
    : list Trade :=
  if editing then map (fun t => if String.eqb (id t) (id trade) then trade else t) trades
  else trade :: trades.

(** The optimistic update of [handleDeleteTrade(i)] once confirmed. *)
Definition handleDeleteTrade_update (trades : list Trade) (i : string) : list Trade :=
  filter (fun t => negb (String.eqb (id t) i)) trades.

(** [session.user.user_metadata.full_name || session.user.email?.split('@')[0]
    || 'Trader'] *)
Definition sessionUserName (full_name email : option string) : string :=
  let fn := match full_name with Some s => s | None => EmptyString end in
  if negb (String.eqb fn "") then fn else
  let local := match email with
               | Some e => nth 0 (JS.split "@" e) EmptyString
               | None => EmptyString
               end in
  if negb (String.eqb local "") then local else "Trader".

End App.

(* ================================================================== *)
(** ** The JavaScript [Date] operations [calculateExpiry] uses *)
(* ================================================================== *)

Module JSDate.

Local Open Scope Z_scope.
Local Open Scope bool_scope.

(** A time value: milliseconds since 1970-01-01T00:00:00Z. *)
Definition msPerDay : Z := 86400000.

(** [Day(t)] and [TimeWithinDay(t)] (floor division). *)
Definition Day (t : Z) : Z := t / msPerDay.
Definition TimeWithinDay (t : Z) : Z := t mod msPerDay.

(** [WeekDay(t)]: 0 is Sunday; day 0, 1970-01-01, was a Thursday. *)
Definition WeekDay (t : Z) : Z := (Day t + 4) mod 7.

(** The proleptic Gregorian calendar of [YearFromTime], [MonthFromTime]
    and [DateFromTime], computed within a 400-year era of 146097 days
    whose years start on 1 March: the day [doe] of an era is the date
    [d] of month [m] (1..12) in the year [yoe] of the era. *)
Definition civil_of_doe (doe : Z) : Z * Z * Z :=
  let yoe := (doe - doe / 1460 + doe / 36524 - doe / 146096) / 365 in
  let doy := doe - (365 * yoe + yoe / 4 - yoe / 100) in
  let mp := (5 * doy + 2) / 153 in
  let d := doy - (153 * mp + 2) / 5 + 1 in
  let m := if mp <? 10 then mp + 3 else mp - 9 in
  (yoe, m, d).

(** The day of the era of year [yoe] of the era, month [m], date [d]. *)
Definition doe_of_civil (yoe m d : Z) : Z :=
  let mp := if 2 <? m then m - 3 else m + 9 in
  let doy := (153 * mp + 2) / 5 + d - 1 in
  yoe * 365 + yoe / 4 - yoe / 100 + doy.

(** [(YearFromTime, MonthFromTime + 1, DateFromTime)] of the day [n]. *)
Definition civil_from_days (n : Z) : Z * Z * Z :=
  let z := n + 719468 in
  let era := z / 146097 in
  let doe := z - era * 146097 in
  let '(yoe, m, d) := civil_of_doe doe in
  let y := yoe + era * 400 in
  (if m <=? 2 then y + 1 else y, m, d).

(** The day number of year [y], month [m] (1..12), date [d]. *)
Definition days_from_civil (y m d : Z) : Z :=
  let y := if m <=? 2 then y - 1 else y in
  let era := y / 400 in
  let yoe := y - era * 400 in
  era * 146097 + doe_of_civil yoe m d - 719468.

(** [MakeDay(year, month, date)] with the month counted from 1: the first
    of the month moved on by [date - 1] days, so that a date past the end
    of the month runs into the next one. *)
Definition MakeDay (y m date : Z) : Z := days_from_civil y m 1 + date - 1.

(** The local time zone, at a fixed offset [off] in milliseconds from
    UTC (east positive: India is +19800000, New York in summer
    -14400000): [LocalTime(t) = t + off] and [UTC(t) = t - off]. *)

(** [date.getDay()] *)
Definition getDay (off t : Z) : Z := WeekDay (t + off).

(** [date.getDate()] *)
Definition getDate (off t : Z) : Z :=
  let '(_, _, d) := civil_from_days (Day (t + off)) in d.

(** The time value after [date.setDate(dt)]: [MakeDate(MakeDay(
    YearFromTime(lt), MonthFromTime(lt), dt), TimeWithinDay(lt))] in
    local time [lt], taken back to UTC. *)
Definition setDate (off t dt : Z) : Z :=
  let lt := t + off in
  let '(y, m, _) := civil_from_days (Day lt) in
  MakeDay y m dt * msPerDay + TimeWithinDay lt - off.

(** The decimal digits of [n], [k] of them with leading zeros. *)
Fixpoint pad (k : nat) (n : Z) : string :=
  match k with
  | O => EmptyString
  | S k' => (pad k' (n / 10) ++ String (ascii_of_nat (48 + Z.to_nat (n mod 10))) EmptyString)%string
  end.

(** [date.toISOString().split('T')[0]]: the UTC date, the year in four
    digits (six with a sign outside 0..9999). *)
Definition toISODate (t : Z) : string :=
  let '(y, m, d) := civil_from_days (Day t) in
  let year := if (0 <=? y) && (y <=? 9999) then pad 4 y
              else String.append (if y <? 0 then "-"%string else "+"%string) (pad 6 (Z.abs y)) in
  (year ++ "-" ++ pad 2 m ++ "-" ++ pad 2 d)%string.

Definition is_leap (y : Z) : bool :=
  ((y mod 4 =? 0) && negb (y mod 100 =? 0)) || (y mod 400 =? 0).

Definition days_in_month (y m : Z) : Z :=
  match m with
  | 2 => if is_leap y then 29 else 28
  | 4 | 6 | 9 | 11 => 30
  | _ => 31
  end.

(** A decimal digit. *)
Definition digit_val (c : ascii) : option Z :=
  let n := nat_of_ascii c in
  if (48 <=? n)%nat && (n <=? 57)%nat then Some (Z.of_nat n - 48) else None.

(** The number a string of decimal digits spells. *)
Fixpoint digits_val (acc : Z) (s : string) : option Z :=
  match s with
  | EmptyString => Some acc
  | String c s' =>
      match digit_val c with
      | Some v => digits_val (acc * 10 + v) s'
      | None => None
      end
  end.

(** The year, month and date of a string [YYYY-MM-DD]. *)
Definition date_fields (s : string) : option (Z * Z * Z) :=
  match s with
  | String y1 (String y2 (String y3 (String y4 (String h1
      (String m1 (String m2 (String h2 (String d1 (String d2 EmptyString))))))))) =>
      if Ascii.eqb h1 "-" && Ascii.eqb h2 "-" then
        match digits_val 0 (String y1 (String y2 (String y3 (String y4 EmptyString)))),
              digits_val 0 (String m1 (String m2 EmptyString)),
              digits_val 0 (String d1 (String d2 EmptyString)) with
        | Some y, Some m, Some d => Some (y, m, d)
        | _, _, _ => None
        end
      else None
  | _ => None
  end.

(** [new Date(s)] for a date-only string [YYYY-MM-DD]: midnight UTC of
    that date; [None] (an invalid date) for a month outside 1..12 or a
    date outside the month, and for any other string. *)
Definition parseDateOnly (s : string) : option Z :=
  match date_fields s with
  | Some (y, m, d) =>
      if (1 <=? m) && (m <=? 12) && (1 <=? d) && (d <=? days_in_month y m)
      then Some (days_from_civil y m d * msPerDay)
      else None
  | None => None
  end.

(** [check_from f z n]: [f] holds at [z], [z + 1], ..., [z + n - 1]. *)
Fixpoint check_from (f : Z -> bool) (z : Z) (n : nat) : bool :=
  match n with
  | O => true
  | S n' => f z && check_from f (Z.succ z) n'
  end.

End JSDate.

(* ================================================================== *)
(** ** Trade form actions (src/components/TradeForm.tsx) *)
(* ================================================================== *)

Module TradeFormActions.

Local Open Scope string_scope.

(** [v || d] on an optional string. *)
Definition or_string (v : option string) (d : string) : string :=
  match v with Some s => if String.eqb s "" then d else s | None => d end.

Definition OPTION_TYPES : list string := ["CE"; "PE"; "FUT"].

Definition is_option_type (s : string) : bool := existsb (String.eqb s) OPTION_TYPES.

(** The symbol [handleOptionTypeClick(type)] sets, from the builder inputs
    [builderStock], [builderStrike] and [prev.symbol]. *)
Definition handleOptionTypeClick (builderStock builderStrike : string)
    (prevSymbol : option string) (type : string) : string :=
  let manual :=
    let current := JS.trim (match prevSymbol with Some s => s | None => EmptyString end) in
    let parts := JS.split " " current in
    let lastPart := last parts EmptyString in
    let current := if is_option_type lastPart then JS.join " " (removelast parts) else current in
    if String.eqb current "" then type else JS.trim (current ++ " " ++ type) in
  if negb (String.eqb builderStock "") then
    if String.eqb type "FUT" then (JS.toUpperCase builderStock ++ " FUT")%string
    else if negb (String.eqb builderStrike "") then
      (JS.toUpperCase builderStock ++ " " ++ builderStrike ++ " " ++ type)%string
    else manual
  else manual.

(** The [notes] after [handlePsychologyTag(tag)]; [prevNotes] is
    [prev.notes]. *)
Definition handlePsychologyTag (prevNotes : option string) (tag : string) : option string :=
  let current := match prevNotes with Some s => s | None => EmptyString end in
  if JS.includes ("#" ++ tag) current then prevNotes
  else
    let separator :=
      if (0 <? String.length current)%nat && negb (JS.endsWith " " current)
      then " "%string else EmptyString in
    Some (current ++ separator ++ "#" ++ tag)%string.

(** The fields of [formData] ([Partial<Trade>]) that [handleSubmit] reads;
    [type] and [status] are set by the initial state and never removed. *)
Record FormState := mkState {
  s_symbol : option string;
  s_type : TradeType;
  s_status : TradeStatus;
  s_entryDate : option string;
  s_expiryDate : option string;
  s_entryPrice : option Q;
  s_exitPrice : option Q;
  s_quantity : option Q;
  s_stopLoss : option Q;
  s_takeProfit : option Q;
  s_pnl : option Q;
  s_setup : option string;
  s_notes : option string;
  s_tags : option (list string)
}.

(** The trade [handleSubmit] passes to [onSave]: [initialId] is
    [initialData?.id], [uuid] the value of [crypto.randomUUID()] and
    [nowISO] that of [new Date().toISOString()].  [None] is the early
    [return]. *)
Definition handleSubmit (initialId : option string) (uuid nowISO : string)
    (fd : FormState) : option Trade :=
  match s_symbol fd, s_entryPrice fd with
  | Some sym, Some ep =>
      if String.eqb sym "" then None else
      Some (mkTrade (or_string initialId uuid) (JS.toUpperCase sym) (s_type fd)
              (s_status fd) (or_string (s_entryDate fd) nowISO) (s_expiryDate fd) ep
              (s_exitPrice fd)
              (match s_quantity fd with
               | Some q => if Qeq_bool q 0 then 1 else q
               | None => 1
               end)
              (s_stopLoss fd) (s_takeProfit fd) (s_pnl fd)
              (or_string (s_setup fd) "General") (or_string (s_notes fd) "")
              (match s_tags fd with Some l => l | None => [] end))
  | _, _ => None
  end.

Definition INDIAN_INDICES : list string :=
  ["NIFTY"; "BANKNIFTY"; "FINNIFTY"; "SENSEX"; "MIDCPNIFTY"].

(** [LOT_SIZES[s]] ([None] is [undefined]). *)
Definition LOT_SIZES (s : string) : option Q :=
  match s with
  | "NIFTY" => Some 75
  | "BANKNIFTY" => Some 15
  | "FINNIFTY" => Some 25
  | "SENSEX" => Some 10
  | "MIDCPNIFTY" => Some 50
  | "RELIANCE" => Some 250
  | "HDFCBANK" => Some 550
  | "SBIN" => Some 1500
  | "TATAMOTORS" => Some 1425
  | "PBFINTECH" => Some 0
  | _ => None
  end%string.

(** The [targetDay] of [calculateExpiry]: the weekday of the index's
    weekly expiry, -1 when the symbol names none. *)
Definition targetDay (symbol : string) : Z :=
  let upperSymbol := JS.toUpperCase symbol in
  if JS.includes "MIDCPNIFTY" upperSymbol then 1%Z
  else if JS.includes "FINNIFTY" upperSymbol then 2%Z
  else if JS.includes "BANKNIFTY" upperSymbol then 3%Z
  else if JS.includes "NIFTY" upperSymbol then 2%Z
  else if JS.includes "SENSEX" upperSymbol then 5%Z
  else (-1)%Z.

Section Expiry.

(** The date services [calculateExpiry] uses: [getDayOf ds] is
    [new Date(ds).getDay()] and [addDaysISO ds k] is
    [toISOString().split('T')[0]] of [new Date(ds)] after
    [setDate(getDate() + k)]. *)
Variable getDayOf : string -> Z.
Variable addDaysISO : string -> Z -> string.

Definition calculateExpiry (symbol dateStr : string) : option string :=
  let t := targetDay symbol in
  if (t =? -1)%Z then None else
  let currentDay := getDayOf dateStr in
  let daysUntil := (t - currentDay)%Z in
  let daysUntil := if (daysUntil <? 0)%Z then (daysUntil + 7)%Z else daysUntil in
  Some (addDaysISO dateStr daysUntil).

(** The [(symbol, expiryDate, quantity)] [handleIndexClick(idx)] sets;
    [todayISO] is [new Date().toISOString().split('T')[0]]. *)
Definition handleIndexClick (entryDate : option string) (todayISO idx : string)
    : string * option string * option Q :=
  let dateRef := or_string entryDate todayISO in
  (idx, calculateExpiry idx dateRef, LOT_SIZES idx).

End Expiry.

(** The [current] symbol text the manual branch of
    [handleOptionTypeClick] keeps of [prev.symbol]: the trimmed symbol
    without its last space-separated part when that part is an option
    type. *)
Definition manual_current (prevSymbol : string) : string :=
  let current := JS.trim prevSymbol in
  let parts := JS.split " " current in
  let lastPart := last parts EmptyString in
  if is_option_type lastPart then JS.join " " (removelast parts) else current.

(** The field [handlePercentChange(type, value)] sets: 'sl' or 'tp'. *)
Inductive PercentField := PctSL | PctTP.

(** The price [handlePercentChange] writes to [stopLoss] ([PctSL]) or
    [takeProfit] ([PctTP]); [ty] is [formData.type], [entryPrice] is
    [formData.entryPrice] and [pct] is [parseFloat(value)] ([None] for
    NaN).  [None] is no change of the price (the percentage text is set
    in every case and is not modelled). *)
Definition handlePercentChange_price (ty : TradeType) (entryPrice : option Q)
    (kind : PercentField) (pct : option Q) : option Q :=
  match entryPrice, pct with
  | Some e, Some p =>
      if Qeq_bool e 0 then None else
      let isLong := match ty with LONG => true | SHORT => false end in
      let newPrice :=
        match kind with
        | PctSL => if isLong then e * (1 - p / 100) else e * (1 + p / 100)
        | PctTP => if isLong then e * (1 + p / 100) else e * (1 - p / 100)
        end in
      Some (TradeForm.toFixed2 newPrice)
  | _, _ => None
  end.

End TradeFormActions.

(* ================================================================== *)
(** ** Saving a trade (src/unnamed/part_000, second file) *)
(* ================================================================== *)

Module SupabaseSave.

Definition status_str (s : TradeStatus) : string :=
  match s with OPEN => "OPEN" | CLOSED => "CLOSED" | PENDING => "PENDING" end.

(** The [dbTrade] object [saveTradeToDb] upserts. *)
Record DbTrade := mkDbTrade {
  d_id : string;
  d_user_id : string;
  d_symbol : string;
  d_type : string;
  d_status : string;
  d_entry_date : string;
  d_entry_price : Q;
  d_quantity : Q;
  d_setup : string;
  d_notes : string;
  d_tags : list string;
  d_expiry_date : option string;
  d_exit_price : option Q;
  d_stop_loss : option Q;
  d_take_profit : option Q;
  d_pnl : option Q
}.

(** [dbTrade] of the first [saveTradeToDb]: [expiryDate || null], and
    [x !== undefined ? x : null] for the optional numbers. *)
Definition dbTrade_v1 (user_id : string) (trade : Trade) : DbTrade :=
  mkDbTrade (id trade) user_id (symbol trade) (GeminiService.type_str (type trade))
    (status_str (status trade)) (entryDate trade) (entryPrice trade) (quantity trade)
    (setup trade) (notes trade) (tags trade)
    (match expiryDate trade with
     | Some e => if String.eqb e "" then None else Some e
     | None => None
     end)
    (exitPrice trade) (stopLoss trade) (takeProfit trade) (pnl trade).

(** [saveTradeToDb]: [user] is the user [getUser] returns, [upsert] the
    error the upsert reports. *)
Definition saveTradeToDb_v1 (user : option string) (upsert : DbTrade -> option JSError)
    (trade : Trade) : Promise unit :=
  match user with
  | None => Rejected (mkJSError "No user logged in")
  | Some u =>
      match upsert (dbTrade_v1 u trade) with
      | Some e => Rejected e
      | None => Resolved tt
      end
  end.

(** The row [select('*')] returns for a stored [dbTrade]: every column
    holds the value written, and the database returns the
    [timestamp with time zone] column [entry_date] and the [date] column
    [expiry_date] in its own formats [timestamptz] and [dateColumn]. *)
Definition stored_row (timestamptz dateColumn : string -> string) (d : DbTrade)
    : SupabaseService.TradeRow :=
  SupabaseService.mkRow (d_id d) (d_symbol d) (d_type d) (d_status d)
    (timestamptz (d_entry_date d)) (option_map dateColumn (d_expiry_date d))
    (Some (d_entry_price d)) (d_exit_price d) (Some (d_quantity d))
    (d_stop_loss d) (d_take_profit d) (d_pnl d)
    (Some (d_setup d)) (Some (d_notes d)) (Some (d_tags d)).

End SupabaseSave.

(* ================================================================== *)
(** ** Trade journal list (src/unnamed/part_002, [TradeList]) *)
(* ================================================================== *)

Module TradeList.

(** The status filter: 'ALL', 'OPEN' or 'CLOSED'. *)
Inductive StatusFilter := ALL | FOPEN | FCLOSED.

Definition keep (f : StatusFilter) (t : Trade) : bool :=
  match f with
  | ALL => true
  | FOPEN => TradeStatus_eqb (status t) OPEN
  | FCLOSED => TradeStatus_eqb (status t) CLOSED
  end.

(** [filteredTrades], newest first; [getTime s] is
    [new Date(s).getTime()]. *)
Definition filteredTrades (getTime : string -> Z) (f : StatusFilter) (trades : list Trade)
    : list Trade :=
  sort_by (fun a b => (getTime (entryDate b) - getTime (entryDate a))%Z)
    (filter (keep f) trades).

End TradeList.

(* ================================================================== *)
(** * Proofs *)
(* ================================================================== *)

Lemma Qltb_iff (a b : Q) : Qltb a b = true <-> a < b.
Proof.
  unfold Qltb. rewrite negb_true_iff. split.
  - intros H. apply Qnot_le_lt. intros H'.
    apply Qle_bool_iff in H'. congruence.
  - intros H. destruct (Qle_bool b a) eqn:E; [|reflexivity].
    apply Qle_bool_iff in E. exfalso. apply (Qlt_not_le _ _ H E).
Qed.

Lemma Qltb_false (a b : Q) : Qltb a b = false <-> b <= a.
Proof.
  unfold Qltb. rewrite negb_false_iff. apply Qle_bool_iff.
Qed.


(** ** Position sizing *)

Section PositionProofs.
Import PositionCalculator.

Lemma Qfloor_nonneg (x : Q) : 0 <= x -> (0 <= Qfloor x)%Z.
Proof.
  intros H. change 0%Z with (Qfloor 0). apply Qfloor_resp_le. exact H.
Qed.

(** [floor(x / y) * y <= x] for [y > 0]. *)
Lemma Qfloor_div_mult_le (x y : Q) : 0 < y -> inject_Z (Qfloor (x / y)) * y <= x.
Proof.
  intros Hy.
  apply Qle_trans with ((x / y) * y).
  - apply Qmult_le_compat_r; [apply Qfloor_le | apply Qlt_le_weak; exact Hy].
  - rewrite Qmult_comm, Qmult_div_r; [apply Qle_refl|].
    intros E. rewrite E in Hy. discriminate.
Qed.

Lemma Qdiv_nonneg (x y : Q) : 0 <= x -> 0 < y -> 0 <= x / y.
Proof.
  intros Hx Hy. apply Qmult_le_0_compat; [exact Hx|].
  apply Qinv_le_0_compat, Qlt_le_weak, Hy.
Qed.

Lemma riskAmount_nonneg (capital riskPercent : Q) :
  0 <= capital -> 0 <= riskPercent -> 0 <= capital * riskPercent / 100.
Proof.
  intros Hc Hr. apply Qdiv_nonneg; [apply Qmult_le_0_compat; assumption | reflexivity].
Qed.

Lemma lot_size_not_above_one (i : instrument) :
  Qltb 1 (INDICES_LOT_SIZES i) = false -> i = EQUITY.
Proof. destruct i; vm_compute; congruence. Qed.

Lemma lot_size_pos (i : instrument) : 0 < INDICES_LOT_SIZES i.
Proof. destruct i; reflexivity. Qed.

End PositionProofs.

(** C7 (amended): for a non-negative capital and risk percentage, the
    returned quantity is a non-negative whole number of lots of the
    instrument, and quantity times stop distance stays within the risk
    amount; Scenario C (capital 100000, risk 2%, entry 20000, stop 19900,
    NIFTY) gives risk 2000, distance 100, raw quantity 20, 0 lots and
    quantity 0. *)
Theorem position_size_within_budget (capital riskPercent entryPrice stopLoss : Q)
    (instr : PositionCalculator.instrument)
    (Hc : 0 <= capital) (Hr : 0 <= riskPercent) :
  let r := PositionCalculator.results capital riskPercent entryPrice stopLoss instr in
  ((exists k : Z, (0 <= k)%Z /\
      PositionCalculator.qty r == inject_Z k * PositionCalculator.INDICES_LOT_SIZES instr) /\
   PositionCalculator.qty r * PositionCalculator.slPoints r <= PositionCalculator.riskAmount r) /\
  (let c := PositionCalculator.results 100000 2 20000 19900 PositionCalculator.NIFTY in
   PositionCalculator.riskAmount c == 2000 /\ PositionCalculator.slPoints c == 100 /\
   Qfloor (PositionCalculator.riskAmount c / PositionCalculator.slPoints c) = 20%Z /\
   PositionCalculator.lots c == 0 /\ PositionCalculator.qty c == 0).
Proof.
  intros r. split; [|vm_compute; repeat split; reflexivity].
  unfold r, PositionCalculator.results.
  pose proof (riskAmount_nonneg _ _ Hc Hr) as Hra.
  set (ra := capital * riskPercent / 100) in *.
  destruct (Qltb 0 entryPrice && Qltb 0 stopLoss).
  2:{ simpl. split; [exists 0%Z; split; [lia | symmetry; apply Qmult_0_l]|].
      rewrite Qmult_0_l. exact Hra. }
  set (sl := Qabs (entryPrice - stopLoss)).
  destruct (Qltb 0 sl) eqn:Hsl.
  2:{ simpl. split; [exists 0%Z; split; [lia | symmetry; apply Qmult_0_l]|].
      rewrite Qmult_0_l. exact Hra. }
  apply Qltb_iff in Hsl.
  assert (Hraw0 : (0 <= Qfloor (ra / sl))%Z)
    by (apply Qfloor_nonneg, Qdiv_nonneg; [exact Hra | exact Hsl]).
  pose proof (Qfloor_div_mult_le ra sl Hsl) as Hraw.
  set (raw := Qfloor (ra / sl)) in *.
  pose proof (lot_size_pos instr) as Hlp.
  destruct (Qltb 1 (PositionCalculator.INDICES_LOT_SIZES instr)) eqn:Hlot;
    cbn [PositionCalculator.qty PositionCalculator.slPoints PositionCalculator.riskAmount].
  - split.
    + exists (Qfloor (inject_Z raw / PositionCalculator.INDICES_LOT_SIZES instr)).
      split; [|reflexivity].
      apply Qfloor_nonneg, Qdiv_nonneg; [|exact Hlp].
      change 0 with (inject_Z 0). rewrite <- Zle_Qle. exact Hraw0.
    + apply Qle_trans with (inject_Z raw * sl); [|exact Hraw].
      apply Qmult_le_compat_r; [apply Qfloor_div_mult_le, Hlp | apply Qlt_le_weak, Hsl].
  - apply lot_size_not_above_one in Hlot. subst instr.
    split; [exists raw; split; [exact Hraw0 | rewrite Qmult_1_r; reflexivity] | exact Hraw].
Qed.

Lemma position_size_within_budget_witness :
  0 <= 100000 /\ 0 <= 2 /\
  (let r := PositionCalculator.results 100000 2 20000 19900 PositionCalculator.EQUITY in
   ((exists k : Z, (0 <= k)%Z /\
       PositionCalculator.qty r ==
       inject_Z k * PositionCalculator.INDICES_LOT_SIZES PositionCalculator.EQUITY) /\
    PositionCalculator.qty r * PositionCalculator.slPoints r <= PositionCalculator.riskAmount r) /\
   (let c := PositionCalculator.results 100000 2 20000 19900 PositionCalculator.NIFTY in
    PositionCalculator.riskAmount c == 2000 /\ PositionCalculator.slPoints c == 100 /\
    Qfloor (PositionCalculator.riskAmount c / PositionCalculator.slPoints c) = 20%Z /\
    PositionCalculator.lots c == 0 /\ PositionCalculator.qty c == 0)).
Proof.
  split; [apply Qle_bool_imp_le; reflexivity|].
  split; [apply Qle_bool_imp_le; reflexivity|].
  apply (position_size_within_budget 100000 2 20000 19900 PositionCalculator.EQUITY);
    apply Qle_bool_imp_le; reflexivity.
Defined.

(** C7 (counterexample): with a negative capital, which the capital
    field accepts, the quantity is negative: capital -100000, risk 2%,
    entry 20000, stop 19900, NIFTY gives -1 lot and quantity -75. *)
Lemma position_size_negative_capital :
  let r := PositionCalculator.results (-100000) 2 20000 19900 PositionCalculator.NIFTY in
  PositionCalculator.lots r == -1 /\ PositionCalculator.qty r == -75 /\
  ~ (0 <= PositionCalculator.qty r).
Proof.
  vm_compute. split; [reflexivity|]. split; [reflexivity|]. intros H. apply H. reflexivity.
Qed.

Ltac Qcontra :=
  match goal with
  | H1 : ?a < ?b, H2 : ?b <= ?a |- _ => exfalso; exact (Qlt_not_le _ _ H1 H2)
  end.

Lemma Qabs_sub_eq_zero (a b : Q) : a == b -> Qabs (a - b) == 0.
Proof. intros H. unfold Qminus. rewrite H, Qplus_opp_r. reflexivity. Qed.

(** C1 (amended): [riskAmount = capital * riskPercent / 100] always.
    When entry > 0 and stop > 0 the stop distance is [|entry - stop|];
    when that distance is positive, with [raw = floor(riskAmount /
    distance)], an instrument of lot size above 1 gets [lots =
    floor(raw / lotSize)] and [qty = lots * lotSize], the others get
    [lots = qty = raw], and [totalValue = qty * entry].  When entry <= 0
    or stop <= 0 the distance, quantity, lots and value are all 0, and
    when entry = stop the quantity, lots and value are 0. *)
Theorem position_size_formula (capital riskPercent entryPrice stopLoss : Q)
    (instr : PositionCalculator.instrument) :
  let r := PositionCalculator.results capital riskPercent entryPrice stopLoss instr in
  let lotSize := PositionCalculator.INDICES_LOT_SIZES instr in
  PositionCalculator.riskAmount r = capital * riskPercent / 100 /\
  (0 < entryPrice /\ 0 < stopLoss /\ 0 < Qabs (entryPrice - stopLoss) ->
   let raw := Qfloor (PositionCalculator.riskAmount r / PositionCalculator.slPoints r) in
   PositionCalculator.slPoints r = Qabs (entryPrice - stopLoss) /\
   (1 < lotSize ->
    PositionCalculator.lots r = inject_Z (Qfloor (inject_Z raw / lotSize)) /\
    PositionCalculator.qty r = PositionCalculator.lots r * lotSize) /\
   (lotSize <= 1 ->
    PositionCalculator.lots r = inject_Z raw /\ PositionCalculator.qty r = inject_Z raw) /\
   PositionCalculator.totalValue r = PositionCalculator.qty r * entryPrice) /\
  (entryPrice <= 0 \/ stopLoss <= 0 ->
   PositionCalculator.slPoints r = 0 /\ PositionCalculator.qty r = 0 /\
   PositionCalculator.lots r = 0 /\ PositionCalculator.totalValue r = 0) /\
  (entryPrice == stopLoss ->
   PositionCalculator.qty r = 0 /\ PositionCalculator.lots r = 0 /\
   PositionCalculator.totalValue r = 0).
Proof.
  intros r lotSize. unfold r, PositionCalculator.results.
  destruct (Qltb 0 entryPrice) eqn:He; destruct (Qltb 0 stopLoss) eqn:Hs;
    cbn [andb PositionCalculator.qty PositionCalculator.slPoints
         PositionCalculator.riskAmount PositionCalculator.lots PositionCalculator.totalValue].
  1: destruct (Qltb 0 (Qabs (entryPrice - stopLoss))) eqn:Hd;
       cbn [PositionCalculator.qty PositionCalculator.slPoints
            PositionCalculator.riskAmount PositionCalculator.lots PositionCalculator.totalValue].
  1: destruct (Qltb 1 (PositionCalculator.INDICES_LOT_SIZES instr)) eqn:Hl;
       cbn [PositionCalculator.qty PositionCalculator.slPoints
            PositionCalculator.riskAmount PositionCalculator.lots PositionCalculator.totalValue].
  all: repeat match goal with
       | H : Qltb _ _ = true |- _ => apply Qltb_iff in H
       | H : Qltb _ _ = false |- _ => apply Qltb_false in H
       end; unfold lotSize.
  all: split; [reflexivity|].
  all: split; [intros [He' [Hs' Hd']]; cbv zeta|].
  all: try (split; [reflexivity|]).
  all: repeat split; intros; try reflexivity; try Qcontra.
  all: repeat match goal with
       | H : _ \/ _ |- _ => destruct H
       end; try Qcontra.
  all: exfalso; rewrite (Qabs_sub_eq_zero _ _ H) in Hd; exact (Qlt_irrefl _ Hd).
Qed.

(** C1 (counterexample): entry 100 and stop 0 give [|entry - stop| = 100]
    yet the calculator returns a stop distance and quantity of 0 instead
    of [floor(2000 / 100) = 20]. *)
Lemma position_size_stop_zero :
  let r := PositionCalculator.results 100000 2 100 0 PositionCalculator.EQUITY in
  PositionCalculator.slPoints r == 0 /\ PositionCalculator.qty r == 0 /\
  ~ (PositionCalculator.slPoints r == Qabs (100 - 0)) /\
  ~ (PositionCalculator.qty r ==
     inject_Z (Qfloor (PositionCalculator.riskAmount r / Qabs (100 - 0)))).
Proof.
  vm_compute. split; [reflexivity|]. split; [reflexivity|].
  split; intros H; discriminate H.
Qed.

(** ** Sums, sorting and permutations *)

Lemma fold_left_add_shift {A} (f : A -> Q) (l : list A) (a : Q) :
  fold_left (fun acc x => acc + f x) l a == a + qsum f l.
Proof.
  revert a. induction l as [|x l IH]; intros a; simpl.
  - rewrite Qplus_0_r. reflexivity.
  - rewrite IH. rewrite Qplus_assoc. reflexivity.
Qed.

Lemma sum_pnl_qsum (l : list Trade) : sum_pnl l == qsum pnl_or0 l.
Proof. unfold sum_pnl. rewrite fold_left_add_shift. apply Qplus_0_l. Qed.

Lemma qsum_app {A} (f : A -> Q) (l1 l2 : list A) :
  qsum f (l1 ++ l2) == qsum f l1 + qsum f l2.
Proof.
  induction l1 as [|x l IH]; simpl.
  - rewrite Qplus_0_l. reflexivity.
  - rewrite IH, Qplus_assoc. reflexivity.
Qed.

Lemma qsum_perm {A} (f : A -> Q) (l1 l2 : list A) :
  Permutation l1 l2 -> qsum f l1 == qsum f l2.
Proof.
  induction 1; simpl.
  - reflexivity.
  - rewrite IHPermutation. reflexivity.
  - rewrite !Qplus_assoc, (Qplus_comm (f y)). reflexivity.
  - rewrite IHPermutation1. exact IHPermutation2.
Qed.

Lemma qsum_filter_split {A} (f : A -> Q) (p : A -> bool) (l : list A) :
  qsum f l == qsum f (filter p l) + qsum f (filter (fun x => negb (p x)) l).
Proof.
  induction l as [|x l IH]; simpl; [reflexivity|].
  destruct (p x); simpl; rewrite IH.
  - rewrite Qplus_assoc. reflexivity.
  - rewrite !Qplus_assoc, (Qplus_comm (f x)). reflexivity.
Qed.

Lemma qsum_nonpos {A} (f : A -> Q) (l : list A) :
  (forall x, In x l -> f x <= 0) -> qsum f l <= 0.
Proof.
  induction l as [|x l IH]; intros H; simpl; [apply Qle_refl|].
  change 0 with (0 + 0). apply Qplus_le_compat.
  - apply H. left. reflexivity.
  - apply IH. intros y Hy. apply H. right. exact Hy.
Qed.

Lemma qsum_ext_in {A} (f g : A -> Q) (l : list A) :
  (forall x, In x l -> f x == g x) -> qsum f l == qsum g l.
Proof.
  induction l as [|x l IH]; intros H; simpl; [reflexivity|].
  rewrite (H x (or_introl eq_refl)), IH; [reflexivity|].
  intros y Hy. apply H. right. exact Hy.
Qed.

Lemma insert_by_perm {A} (cmp : A -> A -> Z) (x : A) (l : list A) :
  Permutation (insert_by cmp x l) (x :: l).
Proof.
  induction l as [|y l IH]; simpl; [reflexivity|].
  destruct (cmp x y <? 0)%Z; [reflexivity|].
  rewrite IH. apply perm_swap.
Qed.

Lemma sort_by_perm {A} (cmp : A -> A -> Z) (l : list A) :
  Permutation (sort_by cmp l) l.
Proof.
  unfold sort_by.
  assert (G : forall acc, Permutation (fold_left (fun acc x => insert_by cmp x acc) l acc)
                                      (l ++ acc)).
  { induction l as [|x l IH]; intros acc; simpl; [reflexivity|].
    rewrite IH, insert_by_perm. symmetry. apply Permutation_middle. }
  rewrite G, app_nil_r. reflexivity.
Qed.

Lemma filter_perm {A} (p : A -> bool) (l1 l2 : list A) :
  Permutation l1 l2 -> Permutation (filter p l1) (filter p l2).
Proof.
  induction 1; simpl.
  - reflexivity.
  - destruct (p x); [apply perm_skip|]; assumption.
  - destruct (p x), (p y); try reflexivity; apply perm_swap.
  - etransitivity; eassumption.
Qed.

(** ** Statistics engine *)

(** The stats record does not depend on the streak loop except through
    its two last fields. *)
Lemma stats_netPnL (getTime : string -> Z) (trades : list Trade) :
  let C := Dashboard.closedTrades_of getTime trades in
  netPnL (Dashboard.stats getTime trades) =
  sum_pnl (filter (fun t => Qltb 0 (pnl_or0 t)) C) -
  Qabs (sum_pnl (filter (fun t => Qle_bool (pnl_or0 t) 0) C)).
Proof.
  intros C. unfold Dashboard.stats. fold C.
  destruct (fold_left Dashboard.streak_step C (0%Z, 0%Z, 0%Z)) as [[a b] c].
  reflexivity.
Qed.

(** C3: the net P&L is the sum of the P&L of the closed trades with a
    P&L, and does not change under a permutation of the trades. *)
Theorem netPnL_closed_sum (getTime : string -> Z) (trades : list Trade) :
  netPnL (Dashboard.stats getTime trades) ==
    sum_pnl (filter (fun t => is_closed t && has_pnl t) trades) /\
  (forall trades', Permutation trades trades' ->
     netPnL (Dashboard.stats getTime trades) == netPnL (Dashboard.stats getTime trades')).
Proof.
  assert (Hsum : forall l,
    netPnL (Dashboard.stats getTime l) ==
      sum_pnl (filter (fun t => is_closed t && has_pnl t) l)).
  { intros l. rewrite stats_netPnL.
    set (C := Dashboard.closedTrades_of getTime l).
    rewrite !sum_pnl_qsum.
    rewrite Qabs_neg.
    2:{ apply qsum_nonpos. intros x Hx. apply filter_In in Hx as [_ Hx].
        apply Qle_bool_iff. exact Hx. }
    rewrite (qsum_perm pnl_or0 (filter _ l) C).
    2:{ symmetry. apply sort_by_perm. }
    rewrite (qsum_filter_split pnl_or0 (fun t => Qltb 0 (pnl_or0 t)) C).
    rewrite (filter_ext (fun x => negb (Qltb 0 (pnl_or0 x)))
                        (fun t => Qle_bool (pnl_or0 t) 0)).
    2:{ intros x. unfold Qltb. apply negb_involutive. }
    unfold Qminus. rewrite Qopp_involutive. reflexivity. }
  split; [apply Hsum|].
  intros trades' Hp. rewrite !Hsum, !sum_pnl_qsum.
  apply qsum_perm, filter_perm, Hp.
Qed.

(** C4: the profit factor is [totalWin / totalLoss] when the total loss
    is positive, 999 when the total loss is 0 and the total win positive,
    and 0 when both are 0.  Scenario A: the long trade with entry 100,
    exit 120 and quantity 10 gets the P&L 200 from the trade form, and the
    stats of that one closed trade are net P&L 200, win rate 100, average
    loss 0 and profit factor 999. *)
Theorem profit_factor_cases (getTime : string -> Z) (trades : list Trade) :
  let s := Dashboard.stats getTime trades in
  let W := totalWinPnl getTime trades in
  let L := totalLossPnl getTime trades in
  (0 < L -> profitFactor s = W / L) /\
  (L == 0 -> 0 < W -> profitFactor s = 999) /\
  (L == 0 -> W == 0 -> profitFactor s = 0) /\
  ((exists p, TradeForm.f_pnl scenarioA_form = Some p /\ p == 200) /\
   let sA := Dashboard.stats getTime [scenarioA_trade] in
   netPnL sA == 200 /\ winRate sA == 100 /\ avgLoss sA == 0 /\ profitFactor sA == 999).
Proof.
  intros s W L.
  assert (Hpf : profitFactor s =
                if Qltb 0 L then W / L else if Qltb 0 W then 999 else 0).
  { unfold s, Dashboard.stats.
    destruct (fold_left Dashboard.streak_step (Dashboard.closedTrades_of getTime trades)
                (0%Z, 0%Z, 0%Z)) as [[a b] c].
    reflexivity. }
  rewrite Hpf. split; [|split; [|split]].
  - intros HL. apply Qltb_iff in HL. rewrite HL. reflexivity.
  - intros HL HW. destruct (Qltb 0 L) eqn:E.
    + apply Qltb_iff in E. rewrite HL in E. discriminate E.
    + apply Qltb_iff in HW. rewrite HW. reflexivity.
  - intros HL HW. destruct (Qltb 0 L) eqn:E.
    + apply Qltb_iff in E. rewrite HL in E. discriminate E.
    + destruct (Qltb 0 W) eqn:E'; [|reflexivity].
      apply Qltb_iff in E'. rewrite HW in E'. discriminate E'.
  - split; [eexists; split; [reflexivity | reflexivity]|].
    vm_compute. repeat split; reflexivity.
Qed.

Lemma stats_streaks (getTime : string -> Z) (trades : list Trade) :
  let st := fold_left Dashboard.streak_step (Dashboard.closedTrades_of getTime trades)
              (0%Z, 0%Z, 0%Z) in
  maxWinStreak (Dashboard.stats getTime trades) = snd (fst st) /\
  currentStreak (Dashboard.stats getTime trades) = snd st.
Proof.
  intros st. unfold Dashboard.stats. fold st.
  destruct st as [[a b] c]. split; reflexivity.
Qed.

(** The loop invariant of the streak scan. *)
Definition streak_inv (st : Z * Z * Z) : Prop :=
  let '(counter, maxWin, cur) := st in
  (0 <= counter)%Z /\ (counter <= maxWin)%Z /\
  ((0 < cur)%Z -> cur = counter) /\ ((cur <= 0)%Z -> counter = 0%Z).

Lemma streak_step_inv (st : Z * Z * Z) (t : Trade) :
  streak_inv st -> streak_inv (Dashboard.streak_step st t).
Proof.
  destruct st as [[counter maxWin] cur]. unfold Dashboard.streak_step, streak_inv.
  intros (H0 & H1 & H2 & H3).
  destruct (Qltb 0 (pnl_or0 t)).
  - destruct (0 <=? cur)%Z eqn:E; [apply Z.leb_le in E | apply Z.leb_gt in E];
      repeat split; intros; lia.
  - destruct (cur <=? 0)%Z eqn:E; [apply Z.leb_le in E | apply Z.leb_gt in E];
      repeat split; intros; lia.
Qed.

Lemma streak_fold_inv (l : list Trade) (st : Z * Z * Z) :
  streak_inv st -> streak_inv (fold_left Dashboard.streak_step l st).
Proof.
  revert st. induction l as [|t l IH]; intros st H; simpl; [exact H|].
  apply IH, streak_step_inv, H.
Qed.

(** A strictly later entry time never sorts before. *)
Lemma stats_cmp_later (getTime : string -> Z) (a b : Trade) :
  (getTime (entryDate a) < getTime (entryDate b))%Z ->
  (Dashboard.stats_cmp getTime b a <? 0)%Z = false.
Proof.
  intros H. unfold Dashboard.stats_cmp.
  destruct (getTime (entryDate b) - getTime (entryDate a) =? 0)%Z eqn:E.
  - apply Z.eqb_eq in E. lia.
  - simpl. apply Z.ltb_ge. lia.
Qed.

(** C5: after the streak scan, [maxWinStreak >= currentStreak] whenever
    [currentStreak > 0]; and when the entry times of Scenario B's three
    trades (P&L -50, 100, -30) are increasing, its stats have
    [currentStreak = -1] and [maxWinStreak = 1]. *)
Theorem streak_bounded (getTime : string -> Z) (trades : list Trade)
    (H12 : (getTime "2024-01-01"%string < getTime "2024-01-02"%string)%Z)
    (H23 : (getTime "2024-01-02"%string < getTime "2024-01-03"%string)%Z) :
  ((0 < currentStreak (Dashboard.stats getTime trades))%Z ->
   (currentStreak (Dashboard.stats getTime trades) <=
    maxWinStreak (Dashboard.stats getTime trades))%Z) /\
  currentStreak (Dashboard.stats getTime scenarioB) = (-1)%Z /\
  maxWinStreak (Dashboard.stats getTime scenarioB) = 1%Z.
Proof.
  split.
  - destruct (stats_streaks getTime trades) as [-> ->].
    pose proof (streak_fold_inv (Dashboard.closedTrades_of getTime trades) (0%Z, 0%Z, 0%Z))
      as Hinv.
    destruct (fold_left _ _ _) as [[counter maxWin] cur].
    simpl. destruct Hinv as (H0 & H1 & H2 & H3); [unfold streak_inv; lia|].
    intros Hc. rewrite (H2 Hc). exact H1.
  - assert (Hs : Dashboard.closedTrades_of getTime scenarioB = scenarioB).
    { unfold Dashboard.closedTrades_of, sort_by. simpl.
      rewrite stats_cmp_later by exact H12. simpl.
      rewrite stats_cmp_later by (simpl; lia). simpl.
      rewrite stats_cmp_later by exact H23. reflexivity. }
    destruct (stats_streaks getTime scenarioB) as [-> ->].
    rewrite Hs. split; reflexivity.
Qed.

Lemma streak_bounded_witness :
  (utcDayTime "2024-01-01"%string < utcDayTime "2024-01-02"%string)%Z /\
  (utcDayTime "2024-01-02"%string < utcDayTime "2024-01-03"%string)%Z /\
  ((0 < currentStreak (Dashboard.stats utcDayTime scenarioB))%Z ->
   (currentStreak (Dashboard.stats utcDayTime scenarioB) <=
    maxWinStreak (Dashboard.stats utcDayTime scenarioB))%Z) /\
  currentStreak (Dashboard.stats utcDayTime scenarioB) = (-1)%Z /\
  maxWinStreak (Dashboard.stats utcDayTime scenarioB) = 1%Z.
Proof.
  split; [vm_compute; reflexivity|]. split; [vm_compute; reflexivity|].
  apply (streak_bounded utcDayTime scenarioB); vm_compute; reflexivity.
Defined.

(** ** Calendar *)

Lemma prefix_same_length (a b e : string) :
  String.prefix a e = true -> String.prefix b e = true ->
  String.length a = String.length b -> a = b.
Proof.
  intros Ha Hb Hl. apply prefix_correct in Ha, Hb. rewrite <- Ha, <- Hb, Hl. reflexivity.
Qed.

Lemma append_cancel_l (a x y : string) : (a ++ x = a ++ y)%string -> x = y.
Proof.
  induction a as [|c a IH]; simpl; [auto|]. intros H. injection H. exact IH.
Qed.

Lemma length_append (a b : string) :
  String.length (a ++ b) = (String.length a + String.length b)%nat.
Proof. induction a as [|c a IH]; simpl; congruence. Qed.

Lemma in_day_numbers (n i : Z) :
  (0 <= n)%Z -> In i (Dashboard.day_numbers n) <-> (1 <= i <= n)%Z.
Proof.
  intros Hn. unfold Dashboard.day_numbers. rewrite in_map_iff. split.
  - intros (k & <- & Hk). apply in_seq in Hk. lia.
  - intros Hi. exists (Z.to_nat (i - 1)). split; [lia|]. apply in_seq. lia.
Qed.

Lemma daysInMonth_range (year month : Z) :
  (28 <= Dashboard.daysInMonth year month <= 31)%Z.
Proof.
  unfold Dashboard.daysInMonth.
  destruct (Dashboard.is_leap (Dashboard.date_year year));
    destruct month as [|p|p]; try lia;
    do 4 (try (destruct p as [p|p|]; try lia)).
Qed.

(** The day strings of 1..31: two characters, and distinct. *)
Definition pad_day (i : Z) : string := padStart2 (Z_to_string i).

Lemma pad_day_table :
  forallb (fun i => (String.length (pad_day i) =? 2)%nat &&
                    forallb (fun j => implb (String.eqb (pad_day i) (pad_day j)) (Z.eqb i j))
                            (Dashboard.day_numbers 31))
          (Dashboard.day_numbers 31) = true.
Proof. vm_compute. reflexivity. Qed.

Lemma pad_day_facts (i j : Z) :
  (1 <= i <= 31)%Z -> (1 <= j <= 31)%Z ->
  String.length (pad_day i) = 2%nat /\ (pad_day i = pad_day j -> i = j).
Proof.
  intros Hi Hj.
  apply (in_day_numbers 31) in Hi; [|lia]. apply (in_day_numbers 31) in Hj; [|lia].
  pose proof pad_day_table as T. rewrite forallb_forall in T.
  specialize (T i Hi). apply andb_true_iff in T as [Tl Tj].
  rewrite forallb_forall in Tj. specialize (Tj j Hj).
  split; [apply Nat.eqb_eq, Tl|].
  intros E. rewrite E, String.eqb_refl in Tj. apply Z.eqb_eq, Tj.
Qed.

Lemma day_of_month_range (year month i : Z) :
  In i (Dashboard.day_numbers (Dashboard.daysInMonth year month)) -> (1 <= i <= 31)%Z.
Proof.
  pose proof (daysInMonth_range year month).
  rewrite in_day_numbers by lia. lia.
Qed.

(** Within one month, at most one day string is a prefix of a given
    entry timestamp. *)
Lemma dateStr_prefix_unique (year month i j : Z) (e : string) :
  (1 <= i <= 31)%Z -> (1 <= j <= 31)%Z ->
  String.prefix (Dashboard.dateStr_of year month i) e = true ->
  String.prefix (Dashboard.dateStr_of year month j) e = true -> i = j.
Proof.
  intros Hi Hj Pi Pj.
  destruct (pad_day_facts i j Hi Hj) as [Li Inj].
  destruct (pad_day_facts j i Hj Hi) as [Lj _].
  apply Inj.
  assert (E : Dashboard.dateStr_of year month i = Dashboard.dateStr_of year month j).
  { apply (prefix_same_length _ _ e Pi Pj). unfold Dashboard.dateStr_of.
    rewrite !length_append. simpl.
    fold (pad_day i) (pad_day j). rewrite Li, Lj. reflexivity. }
  unfold Dashboard.dateStr_of in E.
  apply append_cancel_l in E. simpl in E. injection E as E.
  apply append_cancel_l in E. simpl in E. injection E as E. exact E.
Qed.

(** C2: the calendar of a month is its leading blank cells followed by
    one cell per day.  The cell of day [i] carries the day string
    [YYYY-MM-DD]; the trades bucketed on it are exactly the closed trades
    whose entry timestamp has that string as a prefix; its P&L is the sum
    of their P&L; [hasTrades] holds exactly when there is one (otherwise
    the P&L is 0); [hasNote] holds exactly when a note has that date.  A
    trade's timestamp has at most one day of the month as a prefix. *)
Theorem calendar_buckets (trades : list Trade) (dailyNotes : list DailyNote)
    (year month : Z) :
  let days := Dashboard.day_numbers (Dashboard.daysInMonth year month) in
  (exists pad : nat, Dashboard.calendarDays trades dailyNotes year month =
     repeat None pad ++ map (fun i => Some (Dashboard.day_cell trades dailyNotes year month i)) days) /\
  (forall i, In i days ->
     let c := Dashboard.day_cell trades dailyNotes year month i in
     Dashboard.dateStr c = Dashboard.dateStr_of year month i /\
     (forall t, In t (Dashboard.dayTrades trades (Dashboard.dateStr c)) <->
                In t trades /\ is_closed t = true /\
                String.prefix (Dashboard.dateStr c) (entryDate t) = true) /\
     Dashboard.dpnl c = sum_pnl (Dashboard.dayTrades trades (Dashboard.dateStr c)) /\
     (Dashboard.hasTrades c = true <-> Dashboard.dayTrades trades (Dashboard.dateStr c) <> []) /\
     (Dashboard.hasTrades c = false -> Dashboard.dpnl c == 0) /\
     (Dashboard.hasNote c = true <->
        exists n, In n dailyNotes /\ date n = Dashboard.dateStr c)) /\
  (forall t i j, In i days -> In j days ->
     String.prefix (Dashboard.dateStr_of year month i) (entryDate t) = true ->
     String.prefix (Dashboard.dateStr_of year month j) (entryDate t) = true -> i = j).
Proof.
  intros days. split; [eexists; reflexivity|]. split.
  - intros i Hi c. cbn [c Dashboard.day_cell Dashboard.dateStr Dashboard.dpnl
                          Dashboard.hasTrades Dashboard.hasNote].
    set (ds := Dashboard.dateStr_of year month i).
    set (dt := Dashboard.dayTrades trades ds).
    split; [reflexivity|]. split; [|split; [reflexivity|split; [|split]]].
    + intros t. unfold dt, Dashboard.dayTrades. rewrite filter_In, andb_true_iff. tauto.
    + destruct dt as [|x l]; simpl; split; intros H.
      * discriminate H.
      * exfalso. apply H. reflexivity.
      * discriminate.
      * reflexivity.
    + destruct dt as [|x l]; simpl; [reflexivity|]. intros H. discriminate H.
    + destruct (find (fun n => String.eqb (date n) ds) dailyNotes) eqn:F; split.
      * intros _. apply find_some in F as [Fi Fe]. exists d. split; [exact Fi|].
        apply String.eqb_eq, Fe.
      * reflexivity.
      * discriminate.
      * intros (n & Hn & Hd). pose proof (find_none _ _ F n Hn) as Hf.
        simpl in Hf. rewrite Hd, String.eqb_refl in Hf. discriminate Hf.
  - intros t i j Hi Hj. apply dateStr_prefix_unique;
      eapply day_of_month_range; eassumption.
Qed.


(** ** Monthly aggregation *)

Lemma insert_by_sorted {A} (cmp : A -> A -> Z) (R : A -> A -> Prop)
    (H1 : forall x y, (cmp x y <? 0)%Z = true -> R x y)
    (H2 : forall x y, (cmp x y <? 0)%Z = false -> R y x)
    (x : A) (l : list A) :
  Sorted R l -> Sorted R (insert_by cmp x l).
Proof.
  induction l as [|y ys IH]; intros Hs; simpl.
  - repeat constructor.
  - destruct (cmp x y <? 0)%Z eqn:E.
    + constructor; [exact Hs | constructor; apply H1, E].
    + apply Sorted_inv in Hs as [Hys Hh]. constructor; [apply IH, Hys|].
      destruct ys as [|z zs]; simpl.
      * constructor. apply H2, E.
      * destruct (cmp x z <? 0)%Z; constructor; [apply H2, E|].
        inversion Hh; assumption.
Qed.

Lemma sort_by_sorted {A} (cmp : A -> A -> Z) (R : A -> A -> Prop)
    (H1 : forall x y, (cmp x y <? 0)%Z = true -> R x y)
    (H2 : forall x y, (cmp x y <? 0)%Z = false -> R y x)
    (l : list A) :
  Sorted R (sort_by cmp l).
Proof.
  unfold sort_by.
  assert (G : forall acc, Sorted R acc ->
              Sorted R (fold_left (fun acc x => insert_by cmp x acc) l acc)).
  { induction l as [|x l IH]; intros acc Ha; simpl; [exact Ha|].
    apply IH, insert_by_sorted; assumption. }
  apply G. constructor.
Qed.

Lemma localeCompare_lt (a b : string) :
  (localeCompare a b <? 0)%Z = true -> String.leb a b = true.
Proof.
  unfold localeCompare, String.leb. destruct (String.compare a b); easy.
Qed.

Lemma localeCompare_not_lt (a b : string) :
  (localeCompare a b <? 0)%Z = false -> String.leb b a = true.
Proof.
  unfold localeCompare, String.leb. rewrite String.compare_antisym.
  destruct (String.compare b a); easy.
Qed.

Lemma obj_add_keys (key k : string) (w : Q) (data : list (string * Q)) :
  In k (map fst (Dashboard.obj_add key w data)) <-> key = k \/ In k (map fst data).
Proof.
  induction data as [|[k' x] rest IH]; simpl.
  - tauto.
  - destruct (String.eqb k' key) eqn:E; simpl.
    + apply String.eqb_eq in E. subst k'. tauto.
    + rewrite IH. tauto.
Qed.

Lemma obj_add_nodup (key : string) (w : Q) (data : list (string * Q)) :
  NoDup (map fst data) -> NoDup (map fst (Dashboard.obj_add key w data)).
Proof.
  induction data as [|[k' x] rest IH]; simpl; intros Hn.
  - repeat constructor. easy.
  - apply NoDup_cons_iff in Hn as [Hk Hr].
    destruct (String.eqb k' key) eqn:E; simpl; constructor; try assumption.
    + rewrite obj_add_keys. apply String.eqb_neq in E. intros [H|H]; [congruence | tauto].
    + apply IH, Hr.
Qed.

Lemma obj_add_in (key k : string) (w v : Q) (data : list (string * Q)) :
  NoDup (map fst data) ->
  In (k, v) (Dashboard.obj_add key w data) ->
  (k <> key /\ In (k, v) data) \/
  (k = key /\ ((exists x, In (key, x) data /\ v = x + w) \/
               (~ In key (map fst data) /\ v = 0 + w))).
Proof.
  induction data as [|[k' x] rest IH]; simpl; intros Hn Hin.
  - destruct Hin as [H|[]]. injection H as <- <-. right. split; [reflexivity|]. right. tauto.
  - apply NoDup_cons_iff in Hn as [Hk Hr].
    destruct (String.eqb k' key) eqn:E.
    + apply String.eqb_eq in E. subst k'. destruct Hin as [H|H].
      * injection H as <- <-. right. split; [reflexivity|]. left. exists x. tauto.
      * left. split; [|tauto]. intros ->. apply Hk. apply in_map_iff. exists (key, v). tauto.
    + apply String.eqb_neq in E. destruct Hin as [H|H].
      * injection H as <- <-. left. tauto.
      * destruct (IH Hr H) as [[H1 H2]|[H1 [(x' & H2 & H3)|[H2 H3]]]].
        -- left. tauto.
        -- right. split; [exact H1|]. left. exists x'. tauto.
        -- right. split; [exact H1|]. right. split; [|exact H3]. intros [H4|H4]; congruence.
Qed.

Lemma in_fst_pair {A B} (a : A) (b : B) (l : list (A * B)) : In (a, b) l -> In a (map fst l).
Proof. intros H. apply in_map_iff. exists (a, b). tauto. Qed.

Section MonthlyProofs.
Variable yearMonth : string -> Z * Z.

Let key (t : Trade) : string := Dashboard.month_key yearMonth (entryDate t).

Definition month_inv (P : list Trade) (data : list (string * Q)) : Prop :=
  NoDup (map fst data) /\
  (forall k v, In (k, v) data -> v == qsum pnl_or0 (filter (fun t => String.eqb (key t) k) P)) /\
  (forall k, In k (map fst data) <-> exists t, In t P /\ key t = k).

Lemma month_inv_step (P : list Trade) (data : list (string * Q)) (t : Trade) :
  month_inv P data ->
  month_inv (P ++ [t]) (Dashboard.obj_add (key t) (pnl_or0 t) data).
Proof.
  intros (Hn & Hv & Hk). split; [apply obj_add_nodup, Hn|]. split.
  - intros k v Hin. rewrite filter_app, qsum_app. simpl.
    destruct (obj_add_in _ _ _ _ _ Hn Hin) as [[H1 H2]|[H1 [(x & H2 & H3)|[H2 H3]]]].
    + assert (E : String.eqb (key t) k = false) by (apply String.eqb_neq; congruence).
      rewrite E. simpl. rewrite (Hv _ _ H2).
      rewrite Qplus_0_r. reflexivity.
    + subst k v. rewrite String.eqb_refl. simpl. rewrite (Hv _ _ H2).
      rewrite Qplus_0_r. reflexivity.
    + subst k v. rewrite String.eqb_refl. simpl.
      assert (E : filter (fun t0 => String.eqb (key t0) (key t)) P = []).
      { destruct (filter _ P) as [|u us] eqn:F; [reflexivity|].
        exfalso. apply H2, Hk. exists u.
        assert (Hu : In u (filter (fun t0 => String.eqb (key t0) (key t)) P))
          by (rewrite F; left; reflexivity).
        apply filter_In in Hu as [Hu1 Hu2]. apply String.eqb_eq in Hu2. tauto. }
      rewrite E. simpl. rewrite Qplus_0_r. reflexivity.
  - intros k. rewrite obj_add_keys, Hk. split.
    + intros [<-|(u & Hu & Hku)].
      * exists t. rewrite in_app_iff. simpl. tauto.
      * exists u. rewrite in_app_iff. tauto.
    + intros (u & Hu & Hku). apply in_app_iff in Hu as [Hu|[<-|[]]].
      * right. exists u. tauto.
      * left. congruence.
Qed.

Lemma month_inv_fold (l P : list Trade) (data : list (string * Q)) :
  month_inv P data ->
  month_inv (P ++ l)
    (fold_left (fun data t => Dashboard.obj_add (key t) (pnl_or0 t) data) l data).
Proof.
  revert P data. induction l as [|t l IH]; intros P data H; simpl.
  - rewrite app_nil_r. exact H.
  - replace (P ++ t :: l) with ((P ++ [t]) ++ l) by (rewrite <- app_assoc; reflexivity).
    apply IH, month_inv_step, H.
Qed.

Lemma monthly_data_inv (trades : list Trade) :
  month_inv (filter is_closed trades) (Dashboard.monthly_data yearMonth trades).
Proof.
  unfold Dashboard.monthly_data.
  apply (month_inv_fold (filter is_closed trades) []).
  split; [constructor|]. split; [intros k v []|]. intros k. simpl. split; [intros []|].
  intros (t & [] & _).
Qed.

End MonthlyProofs.

(** C6: the monthly entries are sorted by key in string order, their keys
    are distinct, each key's value is the sum of the P&L of the closed
    trades whose [YYYY-MM] key it is, and the keys are exactly the keys of
    the closed trades.  Scenario E: when both 2024-01-05 and 2024-01-20
    fall in January 2024 and that month is labelled "Jan 24", the two
    trades (P&L 100 and -40) give the single point "Jan 24" of P&L 60. *)
Theorem monthly_buckets (yearMonth : string -> Z * Z) (monthLabel : Z -> Z -> string)
    (trades : list Trade)
    (H5 : yearMonth "2024-01-05"%string = (2024%Z, 0%Z))
    (H20 : yearMonth "2024-01-20"%string = (2024%Z, 0%Z))
    (HL : monthLabel 2024%Z 0%Z = "Jan 24"%string) :
  let E := Dashboard.monthly_entries yearMonth trades in
  let key t := Dashboard.month_key yearMonth (entryDate t) in
  Sorted (fun a b => String.leb (fst a) (fst b) = true) E /\
  NoDup (map fst E) /\
  (forall k v, In (k, v) E ->
     v == sum_pnl (filter (fun t => String.eqb (key t) k) (filter is_closed trades))) /\
  (forall k, In k (map fst E) <-> exists t, In t trades /\ is_closed t = true /\ key t = k) /\
  (exists p, Dashboard.monthlyChartData yearMonth monthLabel scenarioE =
             [Dashboard.mkMonthPoint "Jan 24" p] /\ p == 60).
Proof.
  intros E key.
  pose proof (sort_by_perm (fun a b => localeCompare (fst a) (fst b))
                (Dashboard.monthly_data yearMonth trades)) as Hp.
  fold (Dashboard.monthly_entries yearMonth trades) in Hp. fold E in Hp.
  destruct (monthly_data_inv yearMonth trades) as (Hn & Hv & Hk).
  split; [|split; [|split; [|split]]].
  - apply sort_by_sorted; intros x y H;
      [apply localeCompare_lt, H | apply localeCompare_not_lt, H].
  - eapply Permutation_NoDup; [|exact Hn]. symmetry. apply Permutation_map, Hp.
  - intros k v Hin. rewrite sum_pnl_qsum. apply Hv.
    eapply Permutation_in; [exact Hp | exact Hin].
  - intros k. split.
    + intros Hin. assert (Hd : In k (map fst (Dashboard.monthly_data yearMonth trades))).
      { eapply Permutation_in; [apply Permutation_map, Hp | exact Hin]. }
      apply Hk in Hd as (t & Ht & Hkt). apply filter_In in Ht as [Ht Hc].
      exists t. tauto.
    + intros (t & Ht & Hc & Hkt).
      eapply Permutation_in; [symmetry; apply Permutation_map, Hp|].
      apply Hk. exists t. split; [apply filter_In; tauto | exact Hkt].
  - assert (K5 : Dashboard.month_key yearMonth "2024-01-05" = "2024-01"%string)
      by (unfold Dashboard.month_key; rewrite H5; reflexivity).
    assert (K20 : Dashboard.month_key yearMonth "2024-01-20" = "2024-01"%string)
      by (unfold Dashboard.month_key; rewrite H20; reflexivity).
    assert (D : Dashboard.monthly_data yearMonth scenarioE =
                Dashboard.obj_add "2024-01" (pnl_or0 (closed_trade "e2" "2024-01-20" (-40)))
                  (Dashboard.obj_add "2024-01" (pnl_or0 (closed_trade "e1" "2024-01-05" 100)) [])).
    { unfold Dashboard.monthly_data. cbn -[Dashboard.month_key Dashboard.obj_add pnl_or0].
      rewrite K5, K20. reflexivity. }
    unfold Dashboard.monthlyChartData, Dashboard.monthly_entries. rewrite D.
    vm_compute. rewrite HL. eexists. split; reflexivity.
Qed.

Lemma monthly_buckets_witness :
  prefixYearMonth "2024-01-05"%string = (2024%Z, 0%Z) /\
  prefixYearMonth "2024-01-20"%string = (2024%Z, 0%Z) /\
  enUSMonthLabel 2024%Z 0%Z = "Jan 24"%string /\
  (exists p, Dashboard.monthlyChartData prefixYearMonth enUSMonthLabel scenarioE =
             [Dashboard.mkMonthPoint "Jan 24" p] /\ p == 60).
Proof.
  split; [vm_compute; reflexivity|]. split; [vm_compute; reflexivity|].
  split; [vm_compute; reflexivity|].
  apply (monthly_buckets prefixYearMonth enUSMonthLabel scenarioE);
    vm_compute; reflexivity.
Defined.

(** ** AI Coach Adapter *)

(** C8: whatever [getAIClient] and the model call do (return, throw,
    reject, answer with text, empty text or no text), [analyzeTradeWithAI]
    resolves, never rejects, to a non-empty string: the model's text, or
    one of the two fixed fallback messages. *)
Theorem analyze_always_resolves (numberToString : Q -> string)
    (client : Result unit)
    (generateContent : string -> Promise GeminiService.GenerateResponse)
    (trade : Trade) :
  exists s,
    GeminiService.analyzeTradeWithAI numberToString client generateContent trade = Resolved s /\
    s <> EmptyString /\
    (s = GeminiService.analysis_fallback \/ s = GeminiService.connection_error \/
     exists r, generateContent (GeminiService.prompt numberToString trade) = Resolved r /\
               GeminiService.text r = Some s).
Proof.
  unfold GeminiService.analyzeTradeWithAI, bind, ret, await.
  destruct client as [e|[]].
  - eexists. split; [reflexivity|]. split; [discriminate|]. right. left. reflexivity.
  - destruct (generateContent (GeminiService.prompt numberToString trade)) as [r|e] eqn:G.
    + destruct (GeminiService.text r) as [t|] eqn:T.
      * destruct (String.eqb t "") eqn:Et.
        -- eexists. split; [reflexivity|]. split; [discriminate|]. left. reflexivity.
        -- eexists. split; [reflexivity|]. split.
           ++ intros ->. discriminate Et.
           ++ right. right. exists r. tauto.
      * eexists. split; [reflexivity|]. split; [discriminate|]. left. reflexivity.
    + eexists. split; [reflexivity|]. split; [discriminate|]. right. left. reflexivity.
Qed.

(** ** Trade Store client *)

(** C10: the two [fetchTrades] copies map a stored breakeven row
    differently: the first keeps [pnl = 0], the second turns it into
    [undefined] because [t.pnl ? ... : undefined] treats 0 as absent. *)
Theorem fetch_copies_differ_on_zero_pnl :
  SupabaseService.ft_pnl (SupabaseService.map_row_v1 breakeven_row) = Some 0 /\
  SupabaseService.ft_pnl (SupabaseService.map_row_v2 breakeven_row) = None /\
  SupabaseService.map_row_v1 breakeven_row <> SupabaseService.map_row_v2 breakeven_row /\
  SupabaseService.fetchTrades_v1 [breakeven_row] None <>
  SupabaseService.fetchTrades_v2 [breakeven_row] None.
Proof.
  split; [reflexivity|]. split; [reflexivity|]. split.
  - intros H. apply (f_equal SupabaseService.ft_pnl) in H. vm_compute in H. discriminate H.
  - intros H. vm_compute in H. discriminate H.
Qed.

(** ** Closed trades without a P&L *)

Lemma equity_scan_app (shortDate : string -> string) (r : Q) (A B : list Trade) :
  Dashboard.equity_scan shortDate r (A ++ B) =
  Dashboard.equity_scan shortDate r A ++
  Dashboard.equity_scan shortDate (fold_left (fun acc t => acc + pnl_or0 t) A r) B.
Proof.
  revert r. induction A as [|t A IH]; intros r; simpl; [reflexivity|].
  rewrite IH. reflexivity.
Qed.

Lemma equity_scan_last_nonempty (shortDate : string -> string) (r : Q) (A : list Trade)
    (d0 : Dashboard.EquityPoint) :
  A <> [] ->
  Dashboard.equity (last (Dashboard.equity_scan shortDate r A) d0) =
  fold_left (fun acc t => acc + pnl_or0 t) A r.
Proof.
  revert r. induction A as [|t A IH]; intros r H; [congruence|].
  destruct A as [|u A']; [reflexivity|].
  etransitivity; [|apply (IH (r + pnl_or0 t)); discriminate].
  reflexivity.
Qed.

Lemma equity_scan_last (shortDate : string -> string) (r : Q) (A : list Trade) (d : string) :
  Dashboard.equity (last (Dashboard.equity_scan shortDate r A) (Dashboard.mkPoint d r None)) =
  fold_left (fun acc t => acc + pnl_or0 t) A r.
Proof.
  destruct A as [|t A]; [reflexivity|].
  apply equity_scan_last_nonempty. discriminate.
Qed.

Lemma filter_skip {A} (p : A -> bool) (l1 l2 : list A) (x : A) :
  p x = false -> filter p (l1 ++ x :: l2) = filter p (l1 ++ l2).
Proof. intros H. rewrite !filter_app. simpl. rewrite H. reflexivity. Qed.

Lemma qsum_skip_zero (f : Trade -> Q) (l1 l2 : list Trade) (x : Trade) :
  f x == 0 -> qsum f (l1 ++ x :: l2) == qsum f (l1 ++ l2).
Proof.
  intros H. rewrite !qsum_app. simpl. rewrite H, Qplus_0_l. reflexivity.
Qed.

Lemma filter_keep {A} (p : A -> bool) (l1 l2 : list A) (x : A) :
  p x = true -> filter p (l1 ++ x :: l2) = filter p l1 ++ x :: filter p l2.
Proof. intros H. rewrite filter_app. simpl. rewrite H. reflexivity. Qed.

Lemma pnl_or0_none (t : Trade) : pnl t = None -> pnl_or0 t == 0.
Proof. intros H. unfold pnl_or0. rewrite H. reflexivity. Qed.

(** C9: a closed trade [t] without a P&L, inserted anywhere in the trade
    list, leaves the stats record unchanged; it still gets an equity-curve
    point, whose equity is that of the previous point (0 when first); its
    month bucket exists and holds the same sum as without [t]; and the
    calendar day whose string prefixes its timestamp has [hasTrades = true]
    with the same P&L as without [t]. *)
Theorem closed_without_pnl (getTime : string -> Z) (yearMonth : string -> Z * Z)
    (shortDate : string -> string) (dailyNotes : list DailyNote)
    (l1 l2 : list Trade) (t : Trade)
    (Hc : is_closed t = true) (Hp : pnl t = None) :
  let trades := l1 ++ t :: l2 in
  let key u := Dashboard.month_key yearMonth (entryDate u) in
  Dashboard.stats getTime trades = Dashboard.stats getTime (l1 ++ l2) /\
  (exists pre post e,
     Dashboard.equityCurveData getTime shortDate trades =
       pre ++ Dashboard.mkPoint (shortDate (entryDate t)) e None :: post /\
     e == Dashboard.equity (last pre (Dashboard.mkPoint EmptyString 0 None))) /\
  (exists v, In (key t, v) (Dashboard.monthly_entries yearMonth trades) /\
     v == sum_pnl (filter (fun u => String.eqb (key u) (key t)) (filter is_closed (l1 ++ l2)))) /\
  (forall year month i,
     String.prefix (Dashboard.dateStr_of year month i) (entryDate t) = true ->
     Dashboard.hasTrades (Dashboard.day_cell trades dailyNotes year month i) = true /\
     Dashboard.dpnl (Dashboard.day_cell trades dailyNotes year month i) ==
     Dashboard.dpnl (Dashboard.day_cell (l1 ++ l2) dailyNotes year month i)).
Proof.
  intros trades key. pose proof (pnl_or0_none t Hp) as H0.
  split; [|split; [|split]].
  - unfold Dashboard.stats, Dashboard.closedTrades_of, trades.
    rewrite filter_skip; [reflexivity|]. rewrite Hc. unfold has_pnl. rewrite Hp. reflexivity.
  - assert (Hin : In t (Dashboard.equity_sorted getTime trades)).
    { eapply Permutation_in; [symmetry; apply sort_by_perm|].
      apply filter_In. split; [apply in_elt | exact Hc]. }
    apply in_split in Hin as (A & B & HAB).
    unfold Dashboard.equityCurveData. rewrite HAB, equity_scan_app.
    exists (Dashboard.equity_scan shortDate 0 A).
    exists (Dashboard.equity_scan shortDate
              (fold_left (fun acc t => acc + pnl_or0 t) A 0 + pnl_or0 t) B).
    eexists. simpl. rewrite Hp. split; [reflexivity|].
    rewrite equity_scan_last, H0, Qplus_0_r. reflexivity.
  - destruct (monthly_data_inv yearMonth trades) as (Hn & Hv & Hk).
    assert (Hkey : In (key t) (map fst (Dashboard.monthly_data yearMonth trades))).
    { apply Hk. exists t. split; [|reflexivity]. apply filter_In. split; [apply in_elt | exact Hc]. }
    apply in_map_iff in Hkey as ([k v] & Hk' & Hin). simpl in Hk'. subst k.
    exists v. split.
    + eapply Permutation_in; [symmetry; apply sort_by_perm | exact Hin].
    + rewrite (Hv _ _ Hin), sum_pnl_qsum. unfold trades.
      rewrite (filter_keep is_closed) by exact Hc.
      rewrite (filter_keep (fun u => String.eqb (Dashboard.month_key yearMonth (entryDate u)) (key t)))
        by apply String.eqb_refl.
      rewrite qsum_skip_zero by exact H0.
      rewrite filter_app, filter_app. reflexivity.
  - intros year month i Hpre. unfold Dashboard.day_cell, Dashboard.dayTrades, trades.
    cbn [Dashboard.hasTrades Dashboard.dpnl].
    rewrite filter_keep by (rewrite Hpre, Hc; reflexivity).
    split.
    + rewrite length_app. simpl. apply Z.ltb_lt. lia.
    + rewrite !sum_pnl_qsum, qsum_skip_zero by exact H0.
      rewrite filter_app. reflexivity.
Qed.

Lemma closed_without_pnl_witness :
  let t := mkTrade "n1" "NIFTY" LONG CLOSED "2024-01-05" None 100 None 1 None None None "" "" [] in
  is_closed t = true /\ pnl t = None /\
  (let trades := [closed_trade "b1" "2024-01-02" 10] ++ t :: [] in
   let key u := Dashboard.month_key prefixYearMonth (entryDate u) in
   Dashboard.stats utcDayTime trades = Dashboard.stats utcDayTime ([closed_trade "b1" "2024-01-02" 10] ++ []) /\
   (exists pre post e,
      Dashboard.equityCurveData utcDayTime (fun s => s) trades =
        pre ++ Dashboard.mkPoint (entryDate t) e None :: post /\
      e == Dashboard.equity (last pre (Dashboard.mkPoint EmptyString 0 None))) /\
   (exists v, In (key t, v) (Dashboard.monthly_entries prefixYearMonth trades) /\
      v == sum_pnl (filter (fun u => String.eqb (key u) (key t))
                           (filter is_closed ([closed_trade "b1" "2024-01-02" 10] ++ [])))) /\
   (forall year month i,
      String.prefix (Dashboard.dateStr_of year month i) (entryDate t) = true ->
      Dashboard.hasTrades (Dashboard.day_cell trades [] year month i) = true /\
      Dashboard.dpnl (Dashboard.day_cell trades [] year month i) ==
      Dashboard.dpnl (Dashboard.day_cell ([closed_trade "b1" "2024-01-02" 10] ++ []) [] year month i))).
Proof.
  intros t. split; [reflexivity|]. split; [reflexivity|].
  apply (closed_without_pnl utcDayTime prefixYearMonth (fun s => s) []
           [closed_trade "b1" "2024-01-02" 10] [] t); reflexivity.
Defined.

(* ================================================================== *)
(** * Further properties of the code *)
(* ================================================================== *)
Section PositionExtras.
Import PositionCalculator.
Lemma Qltb_compat (a a' b b' : Q) : a == a' -> b == b' -> Qltb a b = Qltb a' b'.
Proof.
  intros Ha Hb. destruct (Qltb a b) eqn:E1, (Qltb a' b') eqn:E2; try reflexivity.
  - apply Qltb_iff in E1. apply Qltb_false in E2. rewrite Ha, Hb in E1.
    exfalso. exact (Qlt_not_le _ _ E1 E2).
  - apply Qltb_false in E1. apply Qltb_iff in E2. rewrite <- Ha, <- Hb in E2.
    exfalso. exact (Qlt_not_le _ _ E2 E1).
Qed.

Lemma Qabs_sub_sym (a b : Q) : Qabs (a - b) == Qabs (b - a).
Proof.
  rewrite <- Qabs_opp. apply Qabs_wd. ring.
Qed.

(** Extra: swapping the entry and the stop-loss price (a long and the
    mirrored short) gives the same stop distance, quantity and lots; and
    with a non-negative risk percentage a larger capital never gives a
    smaller quantity. *)
Theorem position_size_symmetric_monotone (capital capital' riskPercent e s : Q)
    (i : instrument) :
  slPoints (results capital riskPercent e s i) == slPoints (results capital riskPercent s e i) /\
  qty (results capital riskPercent e s i) == qty (results capital riskPercent s e i) /\
  lots (results capital riskPercent e s i) == lots (results capital riskPercent s e i) /\
  (0 <= riskPercent -> capital <= capital' ->
   qty (results capital riskPercent e s i) <= qty (results capital' riskPercent e s i)).
Proof.
  assert (HA := Qabs_sub_sym e s).
  assert (H1 : Qltb 0 (Qabs (e - s)) = Qltb 0 (Qabs (s - e)))
    by (apply Qltb_compat; [reflexivity | exact HA]).
  unfold results. rewrite (andb_comm (Qltb 0 s)), H1.
  assert (Hf : forall ra, Qfloor (ra / Qabs (e - s)) = Qfloor (ra / Qabs (s - e)))
    by (intros ra; apply Qfloor_comp; rewrite HA; reflexivity).
  rewrite !Hf.
  split; [|split; [|split]].
  - destruct (Qltb 0 e && Qltb 0 s), (Qltb 0 (Qabs (s - e))),
      (Qltb 1 (INDICES_LOT_SIZES i)); cbn [slPoints]; first [exact HA | reflexivity].
  - destruct (Qltb 0 e && Qltb 0 s), (Qltb 0 (Qabs (s - e))),
      (Qltb 1 (INDICES_LOT_SIZES i)); reflexivity.
  - destruct (Qltb 0 e && Qltb 0 s), (Qltb 0 (Qabs (s - e))),
      (Qltb 1 (INDICES_LOT_SIZES i)); reflexivity.
  - intros Hr Hc.
    assert (Hra : capital * riskPercent / 100 <= capital' * riskPercent / 100).
    { unfold Qdiv. apply Qmult_le_compat_r; [|discriminate].
      apply Qmult_le_compat_r; assumption. }
    destruct (Qltb 0 e && Qltb 0 s); [|apply Qle_refl].
    destruct (Qltb 0 (Qabs (s - e))) eqn:Hsl; [|apply Qle_refl].
    apply Qltb_iff in Hsl.
    assert (Hq : (Qfloor (capital * riskPercent / 100 / Qabs (s - e)) <=
                  Qfloor (capital' * riskPercent / 100 / Qabs (s - e)))%Z).
    { apply Qfloor_resp_le. unfold Qdiv. apply Qmult_le_compat_r; [exact Hra|].
      apply Qlt_le_weak, Qinv_lt_0_compat, Hsl. }
    pose proof (lot_size_pos i) as Hl.
    destruct (Qltb 1 (INDICES_LOT_SIZES i)); cbn [qty].
    + apply Qmult_le_compat_r; [|apply Qlt_le_weak, Hl].
      rewrite <- Zle_Qle. apply Qfloor_resp_le. unfold Qdiv.
      apply Qmult_le_compat_r; [rewrite <- Zle_Qle; exact Hq|].
      apply Qlt_le_weak, Qinv_lt_0_compat, Hl.
    + rewrite <- Zle_Qle. exact Hq.
Qed.

End PositionExtras.

Lemma toFixed2_opp (x : Q) : TradeForm.toFixed2 (- x) == - TradeForm.toFixed2 x.
Proof.
  unfold TradeForm.toFixed2.
  assert (Hn : Qfloor (Qabs (- x) * 100 + (1 # 2)) = Qfloor (Qabs x * 100 + (1 # 2)))
    by (apply Qfloor_comp; rewrite Qabs_opp; reflexivity).
  rewrite Hn. set (m := inject_Z (Qfloor (Qabs x * 100 + (1 # 2))) / 100).
  destruct (Qltb (- x) 0) eqn:E1, (Qltb x 0) eqn:E2.
  - apply Qltb_iff in E1, E2. exfalso.
    apply (Qlt_irrefl 0). apply Qlt_trans with x; [|exact E2].
    apply Qopp_lt_compat in E1. rewrite Qopp_involutive in E1. exact E1.
  - reflexivity.
  - rewrite Qopp_involutive. reflexivity.
  - apply Qltb_false in E1, E2.
    assert (Hx : x == 0) by (apply Qle_antisym; [|exact E2];
      apply Qopp_le_compat in E1; rewrite Qopp_involutive in E1; exact E1).
    unfold m. rewrite (Qfloor_comp _ _ (Qplus_comp _ _ (Qmult_comp _ _ (Qabs_wd _ _ Hx) _ _ (Qeq_refl 100)) _ _ (Qeq_refl (1 # 2)))).
    reflexivity.
Qed.

Lemma toFixed2_close (x : Q) :
  Qabs (TradeForm.toFixed2 x - x) <= 1 # 200 /\
  exists n : Z, TradeForm.toFixed2 x == inject_Z n / 100.
Proof.
  unfold TradeForm.toFixed2.
  set (n := Qfloor (Qabs x * 100 + (1 # 2))).
  assert (Hlo := Qfloor_le (Qabs x * 100 + (1 # 2))).
  assert (Hhi := Qlt_floor (Qabs x * 100 + (1 # 2))).
  fold n in Hlo, Hhi. rewrite inject_Z_plus in Hhi.
  assert (Hd : Qabs (inject_Z n / 100 - Qabs x) <= 1 # 200).
  { apply Qabs_case; intros _.
    - apply (Qmult_le_r _ _ 100); [reflexivity|].
      setoid_replace ((inject_Z n / 100 - Qabs x) * 100) with (inject_Z n - Qabs x * 100)
        by (field; discriminate).
      apply (Qplus_le_r _ _ (Qabs x * 100)).
      setoid_replace (Qabs x * 100 + (inject_Z n - Qabs x * 100)) with (inject_Z n) by ring.
      eapply Qle_trans; [exact Hlo|]. setoid_replace ((1 # 200) * 100) with (1 # 2) by reflexivity.
      rewrite Qplus_comm. apply Qle_refl.
    - apply (Qmult_le_r _ _ 100); [reflexivity|].
      setoid_replace (- (inject_Z n / 100 - Qabs x) * 100) with (Qabs x * 100 - inject_Z n)
        by (field; discriminate).
      setoid_replace ((1 # 200) * 100) with (1 # 2) by reflexivity.
      apply (Qplus_le_r _ _ (inject_Z n + (1 # 2))).
      setoid_replace (inject_Z n + (1 # 2) + (Qabs x * 100 - inject_Z n)) with
        (Qabs x * 100 + (1 # 2)) by ring.
      setoid_replace (inject_Z n + (1 # 2) + (1 # 2)) with (inject_Z n + inject_Z 1) by (simpl; ring).
      apply Qlt_le_weak, Hhi. }
  destruct (Qltb x 0) eqn:E.
  - apply Qltb_iff in E. split; [|exists (- n)%Z; rewrite inject_Z_opp; field].
    assert (Ha : Qabs x == - x) by (apply Qabs_neg, Qlt_le_weak, E).
    eapply Qle_trans; [|exact Hd]. rewrite <- Qabs_opp. apply Qle_lteq. right.
    apply Qabs_wd. rewrite Ha. ring.
  - apply Qltb_false in E. split; [|exists n; reflexivity].
    assert (Ha : Qabs x == x) by (apply Qabs_pos, E).
    eapply Qle_trans; [|exact Hd]. apply Qle_lteq. right.
    apply Qabs_wd. rewrite Ha. reflexivity.
Qed.

Lemma toFixed2_comp (x y : Q) : x == y -> TradeForm.toFixed2 x == TradeForm.toFixed2 y.
Proof.
  intros H. unfold TradeForm.toFixed2.
  rewrite (Qltb_compat x y 0 0 H (Qeq_refl 0)).
  rewrite (Qfloor_comp _ _ (Qplus_comp _ _ (Qmult_comp _ _ (Qabs_wd _ _ H) _ _ (Qeq_refl 100)) _ _ (Qeq_refl (1 # 2)))).
  reflexivity.
Qed.

Lemma handleChange_computes (prev : TradeForm.FormData) (e : TradeForm.FormEvent)
    (Hin : exists v, e = TradeForm.SetEntryPrice v \/ e = TradeForm.SetExitPrice v \/
                     e = TradeForm.SetQuantity v) (entry exit q : Q) :
  TradeForm.f_entryPrice (TradeForm.handleChange prev e) = Some entry ->
  TradeForm.f_exitPrice (TradeForm.handleChange prev e) = Some exit ->
  TradeForm.f_quantity (TradeForm.handleChange prev e) = Some q ->
  TradeForm.f_pnl (TradeForm.handleChange prev e) =
    Some (TradeForm.toFixed2
            (match TradeForm.f_type (TradeForm.handleChange prev e) with
             | LONG => (exit - entry) * q
             | SHORT => - (exit - entry) * q
             end)).
Proof.
  destruct prev as [ty ep xp qu pn].
  destruct Hin as [v [-> | [-> | ->]]];
  unfold TradeForm.handleChange; cbn - [TradeForm.toFixed2];
  repeat match goal with
         | |- context [match ?x with Some _ => _ | None => _ end] =>
             destruct x eqn:?
         end; cbn - [TradeForm.toFixed2]; intros;
  repeat match goal with H : Some _ = Some _ |- _ => injection H as H end;
  subst; try reflexivity; congruence.
Qed.

(** Extra: an edit of the entry price, exit price or quantity that leaves
    all three filled in sets the form's P&L to the signed
    [(exit - entry) * quantity] ([LONG]) or its negation ([SHORT]) rounded
    to a whole number of hundredths, within 1/200 of the exact value. *)
Theorem form_pnl_rounded (prev : TradeForm.FormData) (e : TradeForm.FormEvent)
    (Hin : exists v, e = TradeForm.SetEntryPrice v \/ e = TradeForm.SetExitPrice v \/
                     e = TradeForm.SetQuantity v) (entry exit q : Q)
    (He : TradeForm.f_entryPrice (TradeForm.handleChange prev e) = Some entry)
    (Hx : TradeForm.f_exitPrice (TradeForm.handleChange prev e) = Some exit)
    (Hq : TradeForm.f_quantity (TradeForm.handleChange prev e) = Some q) :
  exists p n,
    TradeForm.f_pnl (TradeForm.handleChange prev e) = Some p /\
    p == inject_Z n / 100 /\
    Qabs (p - match TradeForm.f_type (TradeForm.handleChange prev e) with
               | LONG => (exit - entry) * q
               | SHORT => - (exit - entry) * q
               end) <= 1 # 200.
Proof.
  rewrite (handleChange_computes prev e Hin entry exit q He Hx Hq).
  set (x := match TradeForm.f_type (TradeForm.handleChange prev e) with
            | LONG => (exit - entry) * q
            | SHORT => - (exit - entry) * q
            end).
  destruct (toFixed2_close x) as [Hc [n Hn]].
  exists (TradeForm.toFixed2 x), n. tauto.
Qed.

Lemma form_pnl_rounded_witness :
  (exists v, TradeForm.SetQuantity (Some 3) = TradeForm.SetEntryPrice v \/
             TradeForm.SetQuantity (Some 3) = TradeForm.SetExitPrice v \/
             TradeForm.SetQuantity (Some 3) = TradeForm.SetQuantity v) /\
  exists p n,
    TradeForm.f_pnl (TradeForm.handleChange (TradeForm.mkForm SHORT (Some (10 # 3)) (Some 2) None None)
                       (TradeForm.SetQuantity (Some 3))) = Some p /\
    p == inject_Z n / 100 /\
    Qabs (p - match TradeForm.f_type (TradeForm.handleChange (TradeForm.mkForm SHORT (Some (10 # 3)) (Some 2) None None)
                       (TradeForm.SetQuantity (Some 3))) with
               | LONG => (2 - (10 # 3)) * 3
               | SHORT => - (2 - (10 # 3)) * 3
               end) <= 1 # 200.
Proof.
  split; [exists (Some 3); right; right; reflexivity|].
  apply (form_pnl_rounded (TradeForm.mkForm SHORT (Some (10 # 3)) (Some 2) None None)
           (TradeForm.SetQuantity (Some 3))
           (ex_intro _ (Some 3) (or_intror (or_intror eq_refl))) (10 # 3) 2 3);
    reflexivity.
Defined.



Lemma find_app {A} (p : A -> bool) (l1 l2 : list A) :
  find p (l1 ++ l2) = match find p l1 with Some x => Some x | None => find p l2 end.
Proof. induction l1 as [|x l1 IH]; simpl; [reflexivity|]. destruct (p x); auto. Qed.

Lemma find_filter_none {A} (p q : A -> bool) (l : list A) :
  (forall x, p x = true -> q x = false) -> find p (filter q l) = None.
Proof.
  intros H. induction l as [|x l IH]; simpl; [reflexivity|].
  destruct (q x) eqn:Eq; simpl; [|exact IH].
  destruct (p x) eqn:Ep; [|exact IH]. rewrite (H x Ep) in Eq. discriminate.
Qed.

Lemma find_filter_same {A} (p q : A -> bool) (l : list A) :
  (forall x, p x = true -> q x = true) -> find p (filter q l) = find p l.
Proof.
  intros H. induction l as [|x l IH]; simpl; [reflexivity|].
  destruct (p x) eqn:Ep.
  - rewrite (H x Ep). simpl. rewrite Ep. reflexivity.
  - destruct (q x); simpl; [rewrite Ep|]; exact IH.
Qed.

Lemma NoDup_map_filter {A B} (f : A -> B) (q : A -> bool) (l : list A) :
  NoDup (map f l) -> NoDup (map f (filter q l)).
Proof.
  induction l as [|x l IH]; simpl; intros Hn; [constructor|].
  inversion Hn as [|? ? Hni Hns]; subst.
  destruct (q x); simpl; [|apply IH, Hns].
  constructor; [|apply IH, Hns].
  intros Hin. apply Hni. apply in_map_iff in Hin as (y & Hy & Hin).
  apply filter_In in Hin as [Hin _]. rewrite <- Hy. apply in_map, Hin.
Qed.

(** Extra: saving a note from the day editor and opening the same day
    again loads the saved content and mood (an empty mood shows as
    'Neutral'); the notes of the other days load as before; the dates of
    the notes stay distinct; and the calendar marks the day as having a
    note. *)
Theorem note_save_then_load (dailyNotes : list DailyNote) (trades : list Trade)
    (ds noteContent noteMood : string) :
  let updated := App.handleSaveNote_update dailyNotes
                   (DashboardView.saveCurrentNote ds noteContent noteMood) in
  DashboardView.handleDayClick updated ds =
    (noteContent, if String.eqb noteMood "" then "Neutral"%string else noteMood) /\
  (forall d, d <> ds -> DashboardView.handleDayClick updated d =
                        DashboardView.handleDayClick dailyNotes d) /\
  (NoDup (map date dailyNotes) -> NoDup (map date updated)) /\
  (forall y m i, Dashboard.dateStr_of y m i = ds ->
     Dashboard.hasNote (Dashboard.day_cell trades updated y m i) = true).
Proof.
  intros updated.
  assert (Hfind : find (fun n => String.eqb (date n) ds) updated =
                  Some (DashboardView.saveCurrentNote ds noteContent noteMood)).
  { unfold updated, App.handleSaveNote_update. rewrite find_app.
    rewrite find_filter_none.
    - simpl. rewrite String.eqb_refl. reflexivity.
    - intros x Hx. simpl. rewrite Hx. reflexivity. }
  split; [|split; [|split]].
  - unfold DashboardView.handleDayClick. rewrite Hfind. reflexivity.
  - intros d Hd. unfold DashboardView.handleDayClick.
    assert (E : find (fun n => String.eqb (date n) d) updated =
                find (fun n => String.eqb (date n) d) dailyNotes).
    { unfold updated, App.handleSaveNote_update. rewrite find_app, find_filter_same.
      - destruct (find _ dailyNotes); [reflexivity|]. simpl.
        apply String.eqb_neq in Hd. rewrite String.eqb_sym, Hd. reflexivity.
      - intros x Hx. simpl. apply String.eqb_eq in Hx. subst d.
        apply String.eqb_neq in Hd. rewrite Hd. reflexivity. }
    rewrite E. reflexivity.
  - intros Hn. unfold updated, App.handleSaveNote_update. rewrite map_app. simpl.
    apply NoDup_app.
    + apply NoDup_map_filter, Hn.
    + repeat constructor. easy.
    + intros x Hx [Hy|[]]. simpl in Hy. subst x.
      apply in_map_iff in Hx as (n & Hn' & Hin). apply filter_In in Hin as [_ Hf].
      rewrite Hn', String.eqb_refl in Hf. discriminate.
  - intros y m i Hds. unfold Dashboard.day_cell. cbn [Dashboard.hasNote].
    rewrite Hds, Hfind. reflexivity.
Qed.

(** Extra: adding a new trade whose identifier is not in the list and then
    deleting it gives back the original list; editing a trade keeps the
    identifiers and order of the list and puts the edited trade in place;
    after a delete no trade of that identifier is left and all the others
    stay in order. *)
Theorem trade_save_delete (trades : list Trade) (t : Trade) (i : string) :
  (~ In (id t) (map id trades) ->
   App.handleDeleteTrade_update (App.handleSaveTrade_update false trades t) (id t) = trades) /\
  map id (App.handleSaveTrade_update true trades t) = map id trades /\
  (In (id t) (map id trades) -> In t (App.handleSaveTrade_update true trades t)) /\
  ~ In i (map id (App.handleDeleteTrade_update trades i)) /\
  (forall u, id u <> i -> In u trades -> In u (App.handleDeleteTrade_update trades i)).
Proof.
  split; [|split; [|split; [|split]]].
  - intros Hn. unfold App.handleDeleteTrade_update, App.handleSaveTrade_update. simpl.
    rewrite String.eqb_refl. simpl.
    induction trades as [|u us IH]; simpl; [reflexivity|].
    simpl in Hn. destruct (String.eqb (id u) (id t)) eqn:E.
    + apply String.eqb_eq in E. tauto.
    + simpl. f_equal. apply IH. tauto.
  - unfold App.handleSaveTrade_update. rewrite map_map. apply map_ext.
    intros u. destruct (String.eqb (id u) (id t)) eqn:E; [|reflexivity].
    apply String.eqb_eq in E. symmetry. exact E.
  - intros Hin. unfold App.handleSaveTrade_update. apply in_map_iff in Hin as (u & Hu & Hin).
    apply in_map_iff. exists u. split; [|exact Hin]. rewrite Hu, String.eqb_refl. reflexivity.
  - unfold App.handleDeleteTrade_update. intros Hin.
    apply in_map_iff in Hin as (u & Hu & Hin). apply filter_In in Hin as [_ Hf].
    rewrite Hu, String.eqb_refl in Hf. discriminate.
  - intros u Hu Hin. unfold App.handleDeleteTrade_update. apply filter_In. split; [exact Hin|].
    apply String.eqb_neq in Hu. rewrite Hu. reflexivity.
Qed.

(** Extra: from a viewed year of 100 or more and a month in 0..11, moving
    by [delta] months gives a month in 0..11 and advances the month count
    [12 * year + month] by exactly [delta]; moving forward by [delta >= 0]
    and back by [delta] returns to the same month.  A viewed year in
    0..99 is read as 1900 + year before moving. *)
Theorem changeMonth_moves (y m delta : Z) (Hy : (100 <= y)%Z) (Hm : (0 <= m < 12)%Z) :
  (0 <= snd (DashboardView.changeMonth (y, m) delta) < 12 /\
   12 * fst (DashboardView.changeMonth (y, m) delta) + snd (DashboardView.changeMonth (y, m) delta)
   = 12 * y + m + delta /\
   (0 <= delta ->
    DashboardView.changeMonth (DashboardView.changeMonth (y, m) delta) (- delta) = (y, m)) /\
   (forall y0, 0 <= y0 <= 99 ->
    DashboardView.changeMonth (y0, m) delta = DashboardView.changeMonth (1900 + y0, m) delta))%Z.
Proof.
  assert (Hdy : forall z, (100 <= z)%Z -> Dashboard.date_year z = z).
  { intros z Hz. unfold Dashboard.date_year.
    replace ((z <=? 99)%Z) with false by (symmetry; apply Z.leb_gt; lia).
    rewrite andb_false_r. reflexivity. }
  unfold DashboardView.changeMonth, DashboardView.date_year_month. rewrite (Hdy y Hy). cbn [fst snd].
  split; [apply Z.mod_pos_bound; lia|]. split.
  - pose proof (Z.div_mod (m + delta) 12 ltac:(lia)). lia.
  - split.
    + intros Hd.
      assert (Hk : (0 <= (m + delta) / 12)%Z) by (apply Z.div_pos; lia).
      rewrite Hdy by lia.
      set (k := ((m + delta) / 12)%Z).
      assert (E : ((m + delta) mod 12 + - delta = m + (- k) * 12)%Z).
      { pose proof (Z.div_mod (m + delta) 12 ltac:(lia)). unfold k. lia. }
      rewrite E, Z.div_add, Z.mod_add by lia.
      rewrite Z.div_small, Z.mod_small by lia. f_equal. lia.
    + intros y0 Hy0. unfold Dashboard.date_year.
      replace ((0 <=? y0)%Z && (y0 <=? 99)%Z) with true
        by (symmetry; apply andb_true_iff; split; apply Z.leb_le; lia).
      replace ((0 <=? 1900 + y0)%Z && (1900 + y0 <=? 99)%Z) with false
        by (symmetry; apply andb_false_iff; right; apply Z.leb_gt; lia).
      reflexivity.
Qed.

Lemma changeMonth_moves_witness :
  (100 <= 2024 /\ 0 <= 11 < 12 /\
   0 <= snd (DashboardView.changeMonth (2024, 11) 1) < 12 /\
   12 * fst (DashboardView.changeMonth (2024, 11) 1) + snd (DashboardView.changeMonth (2024, 11) 1)
   = 12 * 2024 + 11 + 1 /\
   (0 <= 1 ->
    DashboardView.changeMonth (DashboardView.changeMonth (2024, 11) 1) (- 1) = (2024, 11)) /\
   (forall y0, 0 <= y0 <= 99 ->
    DashboardView.changeMonth (y0, 11) 1 = DashboardView.changeMonth (1900 + y0, 11) 1))%Z.
Proof.
  split; [lia|]. split; [lia|].
  apply (changeMonth_moves 2024 11 1); lia.
Defined.

(** Extra: the journal list under any status filter holds exactly the
    trades of that status (all of them under 'ALL'), newest entry time
    first; 'ALL' lists as many trades as 'OPEN' and 'CLOSED' together plus
    the pending ones, which only 'ALL' shows. *)
Theorem journal_filter_sorted (getTime : string -> Z) (f : TradeList.StatusFilter)
    (trades : list Trade) :
  Permutation (TradeList.filteredTrades getTime f trades) (filter (TradeList.keep f) trades) /\
  Sorted (fun a b => getTime (entryDate b) <= getTime (entryDate a))%Z
    (TradeList.filteredTrades getTime f trades) /\
  List.length (TradeList.filteredTrades getTime TradeList.ALL trades) =
    (List.length (TradeList.filteredTrades getTime TradeList.FOPEN trades) +
     List.length (TradeList.filteredTrades getTime TradeList.FCLOSED trades) +
     List.length (filter (fun t => TradeStatus_eqb (status t) PENDING) trades))%nat.
Proof.
  unfold TradeList.filteredTrades.
  split; [|split].
  - apply sort_by_perm.
  - apply sort_by_sorted.
    + intros x y H. apply Z.ltb_lt in H. lia.
    + intros x y H. apply Z.ltb_ge in H. lia.
  - rewrite !(Permutation_length (sort_by_perm _ _)).
    induction trades as [|t ts IH]; simpl; [reflexivity|].
    destruct (status t); simpl; lia.
Qed.

(** Extra: a trade saved with the first [saveTradeToDb] and read back with
    the first [fetchTrades] keeps its identifier, symbol, type, status,
    entry price, quantity, P&L (0 included), setup, notes and tags; an
    empty expiry date comes back absent; and an exit, stop-loss or target
    price of 0 comes back absent. *)
Theorem save_fetch_round_trip (timestamptz dateColumn : string -> string)
    (user_id : string) (t : Trade) :
  SupabaseService.map_row_v1
    (SupabaseSave.stored_row timestamptz dateColumn (SupabaseSave.dbTrade_v1 user_id t)) =
  SupabaseService.mkFetched (id t) (symbol t) (GeminiService.type_str (type t))
    (SupabaseSave.status_str (status t)) (timestamptz (entryDate t))
    (option_map dateColumn
       (match expiryDate t with
        | Some e => if String.eqb e "" then None else Some e
        | None => None
        end))
    (entryPrice t) (SupabaseService.truthy_number (exitPrice t)) (quantity t)
    (SupabaseService.truthy_number (stopLoss t)) (SupabaseService.truthy_number (takeProfit t))
    (pnl t) (setup t) (notes t) (tags t).
Proof.
  destruct t as [i sy ty st ed xd ep xp q sl tp p su no ta].
  unfold SupabaseSave.stored_row, SupabaseSave.dbTrade_v1, SupabaseService.map_row_v1. simpl.
  destruct p; reflexivity.
Qed.

Lemma str_app_nil_r (s : string) : (s ++ "")%string = s.
Proof. induction s as [|c s IH]; simpl; [reflexivity|]. rewrite IH. reflexivity. Qed.

Lemma str_app_assoc (a b c : string) : (a ++ (b ++ c))%string = ((a ++ b) ++ c)%string.
Proof. induction a as [|x a IH]; simpl; [reflexivity|]. rewrite IH. reflexivity. Qed.

Lemma str_prefix_app (a b : string) : String.prefix a (a ++ b) = true.
Proof.
  induction a as [|x a IH]; simpl; [destruct b; reflexivity|].
  destruct (ascii_dec x x); [exact IH|contradiction].
Qed.

Lemma includes_app_r (sub a : string) : JS.includes sub (a ++ sub) = true.
Proof.
  induction a as [|x a IH]; simpl.
  - destruct sub as [|c s]; simpl; [reflexivity|].
    destruct (ascii_dec c c); [|contradiction].
    pose proof (str_prefix_app s "") as H. rewrite str_app_nil_r in H. rewrite H. reflexivity.
  - rewrite IH, orb_true_r. reflexivity.
Qed.

Lemma upper_ascii_idem (c : ascii) : JS.upper_ascii (JS.upper_ascii c) = JS.upper_ascii c.
Proof.
  unfold JS.upper_ascii.
  destruct ((97 <=? nat_of_ascii c)%nat && (nat_of_ascii c <=? 122)%nat) eqn:E.
  - apply andb_true_iff in E as [E1 E2]. apply Nat.leb_le in E1, E2.
    rewrite nat_ascii_embedding by lia.
    replace ((97 <=? nat_of_ascii c - 32)%nat) with false
      by (symmetry; apply Nat.leb_gt; lia).
    reflexivity.
  - rewrite E. reflexivity.
Qed.

Lemma toUpperCase_idem (s : string) : JS.toUpperCase (JS.toUpperCase s) = JS.toUpperCase s.
Proof. induction s as [|c s IH]; simpl; [reflexivity|]. rewrite upper_ascii_idem, IH. reflexivity. Qed.

Lemma or_string_nonempty (v : option string) (d : string) :
  d <> ""%string -> TradeFormActions.or_string v d <> ""%string.
Proof.
  intros Hd. unfold TradeFormActions.or_string. destruct v as [s|]; [|exact Hd].
  destruct (String.eqb s "") eqn:E; [exact Hd|]. apply String.eqb_neq, E.
Qed.

(** Extra: the psychology-tag button always leaves notes that contain
    ['#' + tag] and start with the previous notes, and pressing the same
    button again changes nothing. *)
Theorem psychology_tag_added (prevNotes : option string) (tag : string) :
  exists s, TradeFormActions.handlePsychologyTag prevNotes tag = Some s /\
    JS.includes ("#" ++ tag) s = true /\
    String.prefix (match prevNotes with Some p => p | None => EmptyString end) s = true /\
    TradeFormActions.handlePsychologyTag (Some s) tag = Some s.
Proof.
  unfold TradeFormActions.handlePsychologyTag.
  set (cur := match prevNotes with Some p => p | None => EmptyString end).
  destruct (JS.includes ("#" ++ tag) cur) eqn:Hin.
  - destruct prevNotes as [p|].
    + exists p. subst cur. repeat split; try assumption.
      * rewrite <- (str_app_nil_r p) at 2. apply str_prefix_app.
      * rewrite Hin. reflexivity.
    + subst cur. simpl in Hin. discriminate.
  - match goal with |- context [(cur ++ ?x ++ "#" ++ tag)%string] => set (sep := x) end.
    exists (cur ++ sep ++ "#" ++ tag)%string.
    assert (Hi : JS.includes ("#" ++ tag) (cur ++ sep ++ "#" ++ tag) = true).
    { rewrite str_app_assoc. apply includes_app_r. }
    split; [reflexivity|]. split; [exact Hi|]. split.
    + apply str_prefix_app.
    + rewrite Hi. reflexivity.
Qed.

(** Extra: submitting the trade form does nothing exactly when the symbol
    is missing or empty or the entry price is missing; otherwise the saved
    trade has a quantity that is never 0 (a missing or 0 quantity becomes
    1, any other is kept), a nonempty setup ('General' by default), a
    nonempty upper-case symbol, and the entry, exit and P&L values of the
    form. *)
Theorem submit_trade (initialId : option string) (uuid nowISO : string)
    (fd : TradeFormActions.FormState) :
  (TradeFormActions.handleSubmit initialId uuid nowISO fd = None <->
   TradeFormActions.s_symbol fd = None \/ TradeFormActions.s_symbol fd = Some ""%string \/
   TradeFormActions.s_entryPrice fd = None) /\
  (forall t, TradeFormActions.handleSubmit initialId uuid nowISO fd = Some t ->
   ~ quantity t == 0 /\
   (forall q, TradeFormActions.s_quantity fd = Some q -> ~ q == 0 -> quantity t = q) /\
   setup t <> ""%string /\
   symbol t <> ""%string /\ JS.toUpperCase (symbol t) = symbol t /\
   TradeFormActions.s_entryPrice fd = Some (entryPrice t) /\
   exitPrice t = TradeFormActions.s_exitPrice fd /\ pnl t = TradeFormActions.s_pnl fd).
Proof.
  unfold TradeFormActions.handleSubmit.
  destruct (TradeFormActions.s_symbol fd) as [sym|] eqn:Hs;
    [|split; [tauto|discriminate]].
  destruct (TradeFormActions.s_entryPrice fd) as [ep|] eqn:He;
    [|split; [tauto|discriminate]].
  destruct (String.eqb sym "") eqn:Hsym.
  - apply String.eqb_eq in Hsym. subst sym. split; [tauto|discriminate].
  - apply String.eqb_neq in Hsym. split.
    + split; [discriminate|]. intros [H|[H|H]]; try discriminate.
      injection H as H. contradiction.
    + intros t Ht. injection Ht as <-. cbn. split; [|split; [|split; [|split; [|split]]]].
      * destruct (TradeFormActions.s_quantity fd) as [q|]; [|discriminate].
        destruct (Qeq_bool q 0) eqn:Eq; [discriminate|].
        intros Hq. apply Qeq_bool_iff in Hq. congruence.
      * intros q Hq Hq0. rewrite Hq.
        destruct (Qeq_bool q 0) eqn:Eq; [|reflexivity].
        apply Qeq_bool_iff in Eq. contradiction.
      * apply or_string_nonempty. discriminate.
      * destruct sym; [contradiction|discriminate].
      * apply toUpperCase_idem.
      * auto.
Qed.

Lemma targetDay_range (s : string) :
  TradeFormActions.targetDay s = (-1)%Z \/ (1 <= TradeFormActions.targetDay s <= 5)%Z.
Proof.
  unfold TradeFormActions.targetDay.
  repeat match goal with |- context [if ?b then _ else _] => destruct b end; lia.
Qed.

(** [calculateExpiry] gives no date exactly for a symbol without a weekly
    expiry; otherwise it asks for the date [k] days (0..6) on, where [k]
    takes the reported weekday of the reference date onto [targetDay]. *)
Lemma calculateExpiry_days (getDayOf : string -> Z) (addDaysISO : string -> Z -> string)
    (symbol dateStr : string) (Hd : (0 <= getDayOf dateStr <= 6)%Z) :
  (TradeFormActions.calculateExpiry getDayOf addDaysISO symbol dateStr = None <->
   TradeFormActions.targetDay symbol = (-1)%Z) /\
  (forall e, TradeFormActions.calculateExpiry getDayOf addDaysISO symbol dateStr = Some e ->
   (1 <= TradeFormActions.targetDay symbol <= 5)%Z /\
   exists k, (0 <= k <= 6)%Z /\ e = addDaysISO dateStr k /\
             ((getDayOf dateStr + k) mod 7 = TradeFormActions.targetDay symbol)%Z).
Proof.
  unfold TradeFormActions.calculateExpiry.
  set (t := TradeFormActions.targetDay symbol).
  assert (Ht : t = (-1)%Z \/ (1 <= t <= 5)%Z) by apply targetDay_range.
  destruct (Z.eqb t (-1)) eqn:E.
  - apply Z.eqb_eq in E. split; [tauto|discriminate].
  - apply Z.eqb_neq in E. split; [split; [discriminate|contradiction]|].
    intros e He. injection He as <-. split; [lia|].
    destruct (Z.ltb (t - getDayOf dateStr) 0) eqn:L.
    + apply Z.ltb_lt in L. exists (t - getDayOf dateStr + 7)%Z.
      split; [lia|]. split; [reflexivity|].
      replace (getDayOf dateStr + (t - getDayOf dateStr + 7))%Z with (t + 1 * 7)%Z by lia.
      rewrite Z.mod_add, Z.mod_small by lia. reflexivity.
    + apply Z.ltb_ge in L. exists (t - getDayOf dateStr)%Z.
      split; [lia|]. split; [reflexivity|].
      replace (getDayOf dateStr + (t - getDayOf dateStr))%Z with t by lia.
      rewrite Z.mod_small by lia. reflexivity.
Qed.

(** Each of the five index buttons asks for an expiry date on a weekday
    Monday (1) to Friday (5) and fills in a positive lot size. *)
Lemma index_click_lots (getDayOf : string -> Z) (addDaysISO : string -> Z -> string)
    (entryDate : option string) (todayISO : string) :
  forall idx, In idx TradeFormActions.INDIAN_INDICES ->
  (1 <= TradeFormActions.targetDay idx <= 5)%Z /\
  exists e q, TradeFormActions.handleIndexClick getDayOf addDaysISO entryDate todayISO idx
              = (idx, Some e, Some q) /\ 0 < q.
Proof.
  intros idx Hin. simpl in Hin.
  repeat destruct Hin as [<-|Hin]; try contradiction;
    (split; [split; intro H; vm_compute in H; discriminate H|]);
    do 2 eexists; (split; [vm_compute; reflexivity|reflexivity]).
Qed.

Lemma civil_of_doe_inv (doe : Z) :
  (0 <= doe < 146097)%Z ->
  let '(yoe, m, d) := JSDate.civil_of_doe doe in
  (0 <= yoe < 400)%Z /\ JSDate.doe_of_civil yoe m d = doe.
Proof.
  assert (Hall : forall f z n, JSDate.check_from f z n = true ->
            forall i, (z <= i < z + Z.of_nat n)%Z -> f i = true).
  { intros f z n. revert z. induction n as [|n IH]; intros z H i Hi; [lia|].
    simpl in H. apply andb_prop in H as [H1 H2].
    destruct (Z.eq_dec i z) as [->|Hne]; [exact H1|].
    apply (IH (Z.succ z) H2). lia. }
  intros Hd.
  pose proof (Hall (fun doe => let '(yoe, m, d) := JSDate.civil_of_doe doe in
                       ((0 <=? yoe) && (yoe <? 400) && (JSDate.doe_of_civil yoe m d =? doe))%Z)
                0%Z (Z.to_nat 146097) ltac:(vm_compute; reflexivity) doe) as H.
  rewrite Z2Nat.id in H by lia. specialize (H ltac:(lia)).
  cbv beta in H. destruct (JSDate.civil_of_doe doe) as [[yoe m] d].
  apply andb_prop in H as [H H3]. apply andb_prop in H as [H1 H2].
  apply Z.leb_le in H1. apply Z.ltb_lt in H2. apply Z.eqb_eq in H3. lia.
Qed.

Lemma days_from_civil_from_days (n : Z) :
  (let '(y, m, d) := JSDate.civil_from_days n in JSDate.days_from_civil y m d) = n.
Proof.
  unfold JSDate.civil_from_days.
  set (z := (n + 719468)%Z). set (era := (z / 146097)%Z). set (doe := (z - era * 146097)%Z).
  assert (Hd : (0 <= doe < 146097)%Z).
  { unfold doe, era. pose proof (Z.mod_pos_bound z 146097 ltac:(lia)).
    rewrite Z.mod_eq in H by lia. lia. }
  pose proof (civil_of_doe_inv doe Hd) as H.
  destruct (JSDate.civil_of_doe doe) as [[yoe m] d].
  destruct H as [Hy Hdoe].
  unfold JSDate.days_from_civil.
  assert (Hy' : ((if m <=? 2 then ((if m <=? 2 then yoe + era * 400 + 1 else yoe + era * 400) - 1)
                 else (if m <=? 2 then yoe + era * 400 + 1 else yoe + era * 400)) = yoe + era * 400)%Z)
    by (destruct (m <=? 2)%Z; lia).
  rewrite Hy'.
  assert (He : ((yoe + era * 400) / 400 = era)%Z).
  { rewrite Z.div_add by lia. rewrite Z.div_small by lia. lia. }
  rewrite He.
  replace (yoe + era * 400 - era * 400)%Z with yoe by lia.
  rewrite Hdoe. unfold doe, z. lia.
Qed.

Lemma MakeDay_days (y m dt : Z) : JSDate.MakeDay y m dt = JSDate.days_from_civil y m dt.
Proof. unfold JSDate.MakeDay, JSDate.days_from_civil, JSDate.doe_of_civil. lia. Qed.

Lemma Day_midnight_off (n off : Z) :
  (- JSDate.msPerDay <= off < JSDate.msPerDay)%Z ->
  JSDate.Day (n * JSDate.msPerDay + off) = (n + if (0 <=? off)%Z then 0 else -1)%Z.
Proof.
  unfold JSDate.Day, JSDate.msPerDay. intros Hoff.
  destruct (0 <=? off)%Z eqn:E; [apply Z.leb_le in E | apply Z.leb_gt in E];
    symmetry; apply Z.div_unique with (r := if (0 <=? off)%Z then off else (off + 86400000)%Z);
    destruct (0 <=? off)%Z eqn:E'; try (apply Z.leb_le in E'; lia); try (apply Z.leb_gt in E'; lia).
Qed.

Lemma setDate_add (off n k : Z) :
  (- JSDate.msPerDay <= off < JSDate.msPerDay)%Z ->
  JSDate.setDate off (n * JSDate.msPerDay) (JSDate.getDate off (n * JSDate.msPerDay) + k) =
  (n * JSDate.msPerDay + k * JSDate.msPerDay)%Z.
Proof.
  intros Hoff. unfold JSDate.setDate, JSDate.getDate.
  set (c := JSDate.Day (n * JSDate.msPerDay + off)).
  pose proof (days_from_civil_from_days c) as Hc.
  destruct (JSDate.civil_from_days c) as [[y m] d].
  rewrite MakeDay_days.
  assert (Hl : JSDate.days_from_civil y m (d + k) = (JSDate.days_from_civil y m d + k)%Z).
  { rewrite <- !MakeDay_days. unfold JSDate.MakeDay. lia. }
  rewrite Hl, Hc.
  unfold c, JSDate.Day, JSDate.TimeWithinDay, JSDate.msPerDay in *.
  pose proof (Z.div_mod (n * 86400000 + off) 86400000 ltac:(lia)). lia.
Qed.

Lemma WeekDay_midnight (n : Z) : JSDate.WeekDay (n * JSDate.msPerDay) = ((n + 4) mod 7)%Z.
Proof. unfold JSDate.WeekDay, JSDate.Day. rewrite Z.div_mul by (unfold JSDate.msPerDay; lia). reflexivity. Qed.

Lemma parseDateOnly_midnight (s : string) (t : Z) :
  JSDate.parseDateOnly s = Some t -> exists n, t = (n * JSDate.msPerDay)%Z.
Proof.
  unfold JSDate.parseDateOnly. destruct (JSDate.date_fields s) as [[[y m] d]|]; [|discriminate].
  destruct (_ && _)%bool; [|discriminate]. intros H. injection H as <-. eauto.
Qed.

Lemma calculateExpiry_zone (getDayOf : string -> Z) (addDaysISO : string -> Z -> string)
    (off : Z) (symbol dateStr : string) (t0 : Z)
    (Hoff : (- JSDate.msPerDay <= off < JSDate.msPerDay)%Z)
    (Hp : JSDate.parseDateOnly dateStr = Some t0)
    (Hday : getDayOf dateStr = JSDate.getDay off t0)
    (Hadd : forall k, addDaysISO dateStr k =
              JSDate.toISODate (JSDate.setDate off t0 (JSDate.getDate off t0 + k))) :
  (TradeFormActions.calculateExpiry getDayOf addDaysISO symbol dateStr = None <->
   TradeFormActions.targetDay symbol = (-1)%Z) /\
  (forall e, TradeFormActions.calculateExpiry getDayOf addDaysISO symbol dateStr = Some e ->
   exists k, (0 <= k <= 6)%Z /\
     e = JSDate.toISODate (t0 + k * JSDate.msPerDay) /\
     JSDate.WeekDay (t0 + k * JSDate.msPerDay) =
       (if 0 <=? off then TradeFormActions.targetDay symbol
        else (TradeFormActions.targetDay symbol + 1) mod 7)%Z).
Proof.
  destruct (parseDateOnly_midnight _ _ Hp) as [n ->].
  assert (Hd : (0 <= getDayOf dateStr <= 6)%Z).
  { rewrite Hday. unfold JSDate.getDay, JSDate.WeekDay.
    pose proof (Z.mod_pos_bound (JSDate.Day (n * JSDate.msPerDay + off) + 4) 7 ltac:(lia)). lia. }
  destruct (calculateExpiry_days getDayOf addDaysISO symbol dateStr Hd) as [Hnone Hsome].
  split; [exact Hnone|].
  intros e He. destruct (Hsome e He) as (Ht & k & Hk & -> & Hmod).
  exists k. split; [exact Hk|]. split.
  - rewrite Hadd, setDate_add by exact Hoff. reflexivity.
  - replace (n * JSDate.msPerDay + k * JSDate.msPerDay)%Z with ((n + k) * JSDate.msPerDay)%Z by ring.
    rewrite WeekDay_midnight.
    rewrite Hday in Hmod. unfold JSDate.getDay, JSDate.WeekDay in Hmod.
    rewrite Day_midnight_off in Hmod by exact Hoff.
    rewrite Zplus_mod_idemp_l in Hmod.
    destruct (0 <=? off)%Z.
    + rewrite <- Hmod. f_equal. lia.
    + rewrite <- Hmod, Zplus_mod_idemp_l. f_equal. lia.
Qed.

(** Extra: in a time zone at a fixed offset [off] from UTC (less than a
    day either way), for a reference date [YYYY-MM-DD], the expiry date is
    absent exactly when the symbol names no index with a weekly expiry;
    otherwise it is the date 0 to 6 days after the reference date, and
    that date falls on the index's expiry weekday when [off >= 0] (UTC or
    east of it), but on the weekday after it west of UTC, since [getDay]
    reads local time while [toISOString] writes the UTC date. *)
Theorem expiry_weekday_by_zone (getDayOf : string -> Z) (addDaysISO : string -> Z -> string)
    (off : Z) (symbol dateStr : string) (t0 : Z)
    (Hoff : (- JSDate.msPerDay <= off < JSDate.msPerDay)%Z)
    (Hp : JSDate.parseDateOnly dateStr = Some t0)
    (Hday : getDayOf dateStr = JSDate.getDay off t0)
    (Hadd : forall k, addDaysISO dateStr k =
              JSDate.toISODate (JSDate.setDate off t0 (JSDate.getDate off t0 + k))) :
  (TradeFormActions.calculateExpiry getDayOf addDaysISO symbol dateStr = None <->
   TradeFormActions.targetDay symbol = (-1)%Z) /\
  (forall e, TradeFormActions.calculateExpiry getDayOf addDaysISO symbol dateStr = Some e ->
   exists k, (0 <= k <= 6)%Z /\
     e = JSDate.toISODate (t0 + k * JSDate.msPerDay) /\
     JSDate.WeekDay (t0 + k * JSDate.msPerDay) =
       (if 0 <=? off then TradeFormActions.targetDay symbol
        else (TradeFormActions.targetDay symbol + 1) mod 7)%Z).
Proof. exact (calculateExpiry_zone getDayOf addDaysISO off symbol dateStr t0 Hoff Hp Hday Hadd). Qed.

(** Extra: in a time zone at or east of UTC, each of the five index
    buttons fills in the expiry date 0 to 6 days after the reference date
    (the entry date, else today), which falls on a weekday Monday to
    Friday, and a positive lot size as quantity. *)
Theorem index_click_expiry_weekday (getDayOf : string -> Z) (addDaysISO : string -> Z -> string)
    (off : Z) (entryDate : option string) (todayISO idx : string) (t0 : Z)
    (Hidx : In idx TradeFormActions.INDIAN_INDICES)
    (Hoff : (0 <= off < JSDate.msPerDay)%Z)
    (Hp : JSDate.parseDateOnly (TradeFormActions.or_string entryDate todayISO) = Some t0)
    (Hday : getDayOf (TradeFormActions.or_string entryDate todayISO) = JSDate.getDay off t0)
    (Hadd : forall k, addDaysISO (TradeFormActions.or_string entryDate todayISO) k =
              JSDate.toISODate (JSDate.setDate off t0 (JSDate.getDate off t0 + k))) :
  exists k q,
    TradeFormActions.handleIndexClick getDayOf addDaysISO entryDate todayISO idx =
      (idx, Some (JSDate.toISODate (t0 + k * JSDate.msPerDay)), Some q) /\
    (0 <= k <= 6)%Z /\
    (1 <= JSDate.WeekDay (t0 + k * JSDate.msPerDay) <= 5)%Z /\ 0 < q.
Proof.
  destruct (index_click_lots getDayOf addDaysISO entryDate todayISO idx Hidx)
    as [Ht (e & q & Hc & Hq)].
  unfold TradeFormActions.handleIndexClick in *. injection Hc as He Hl.
  destruct (calculateExpiry_zone getDayOf addDaysISO off idx _ t0
              ltac:(unfold JSDate.msPerDay in *; lia) Hp Hday Hadd) as [_ Hs].
  destruct (Hs e He) as (k & Hk & He' & Hw).
  exists k, q. rewrite He, Hl, He'. split; [reflexivity|]. split; [exact Hk|].
  split; [|exact Hq]. rewrite Hw.
  destruct (0 <=? off)%Z eqn:E; [exact Ht|]. apply Z.leb_gt in E. lia.
Qed.

(** West of UTC (New York in summer) [calculateExpiry] misses the
    weekday: NIFTY (Tuesday) from Wednesday 2024-05-15 gives that same
    Wednesday, SENSEX (Friday) gives Saturday 2024-05-18. *)
Example calculateExpiry_new_york :
  let off := (-14400000)%Z in
  let t0 := 1715731200000%Z in
  JSDate.parseDateOnly "2024-05-15" = Some t0 /\
  TradeFormActions.calculateExpiry (fun _ => JSDate.getDay off t0)
    (fun _ k => JSDate.toISODate (JSDate.setDate off t0 (JSDate.getDate off t0 + k)))
    "NIFTY" "2024-05-15" = Some "2024-05-15"%string /\
  TradeFormActions.calculateExpiry (fun _ => JSDate.getDay off t0)
    (fun _ k => JSDate.toISODate (JSDate.setDate off t0 (JSDate.getDate off t0 + k)))
    "SENSEX" "2024-05-15" = Some "2024-05-18"%string.
Proof. vm_compute. split; [reflexivity|]. split; reflexivity. Qed.

(** In India (UTC+5:30) it gives Tuesday 2024-05-21 and Friday 2024-05-17. *)
Example calculateExpiry_india :
  let off := 19800000%Z in
  let t0 := 1715731200000%Z in
  TradeFormActions.calculateExpiry (fun _ => JSDate.getDay off t0)
    (fun _ k => JSDate.toISODate (JSDate.setDate off t0 (JSDate.getDate off t0 + k)))
    "NIFTY" "2024-05-15" = Some "2024-05-21"%string /\
  TradeFormActions.calculateExpiry (fun _ => JSDate.getDay off t0)
    (fun _ k => JSDate.toISODate (JSDate.setDate off t0 (JSDate.getDate off t0 + k)))
    "SENSEX" "2024-05-15" = Some "2024-05-17"%string.
Proof. vm_compute. split; reflexivity. Qed.

Lemma expiry_weekday_by_zone_witness :
  let off := (-14400000)%Z in
  let t0 := 1715731200000%Z in
  let getDayOf := fun _ : string => JSDate.getDay off t0 in
  let addDaysISO := fun (_ : string) k =>
        JSDate.toISODate (JSDate.setDate off t0 (JSDate.getDate off t0 + k)) in
  (- JSDate.msPerDay <= off < JSDate.msPerDay)%Z /\
  JSDate.parseDateOnly "2024-05-15" = Some t0 /\
  (TradeFormActions.calculateExpiry getDayOf addDaysISO "SENSEX" "2024-05-15" = None <->
   TradeFormActions.targetDay "SENSEX" = (-1)%Z) /\
  (forall e, TradeFormActions.calculateExpiry getDayOf addDaysISO "SENSEX" "2024-05-15" = Some e ->
   exists k, (0 <= k <= 6)%Z /\
     e = JSDate.toISODate (t0 + k * JSDate.msPerDay) /\
     JSDate.WeekDay (t0 + k * JSDate.msPerDay) =
       (if 0 <=? off then TradeFormActions.targetDay "SENSEX"
        else (TradeFormActions.targetDay "SENSEX" + 1) mod 7)%Z).
Proof.
  intros off t0 getDayOf addDaysISO.
  split; [unfold off, JSDate.msPerDay; lia|].
  split; [vm_compute; reflexivity|].
  apply (expiry_weekday_by_zone getDayOf addDaysISO off "SENSEX" "2024-05-15" t0).
  - unfold off, JSDate.msPerDay; lia.
  - vm_compute; reflexivity.
  - reflexivity.
  - intros k; reflexivity.
Defined.

Lemma index_click_expiry_weekday_witness :
  let off := 19800000%Z in
  let t0 := 1715731200000%Z in
  let getDayOf := fun _ : string => JSDate.getDay off t0 in
  let addDaysISO := fun (_ : string) k =>
        JSDate.toISODate (JSDate.setDate off t0 (JSDate.getDate off t0 + k)) in
  In "SENSEX"%string TradeFormActions.INDIAN_INDICES /\
  (0 <= off < JSDate.msPerDay)%Z /\
  JSDate.parseDateOnly (TradeFormActions.or_string (Some "2024-05-15"%string) "2024-06-01") = Some t0 /\
  exists k q,
    TradeFormActions.handleIndexClick getDayOf addDaysISO (Some "2024-05-15"%string) "2024-06-01" "SENSEX" =
      ("SENSEX"%string, Some (JSDate.toISODate (t0 + k * JSDate.msPerDay)), Some q) /\
    (0 <= k <= 6)%Z /\
    (1 <= JSDate.WeekDay (t0 + k * JSDate.msPerDay) <= 5)%Z /\ 0 < q.
Proof.
  intros off t0 getDayOf addDaysISO.
  split; [simpl; tauto|].
  split; [unfold off, JSDate.msPerDay; lia|].
  split; [vm_compute; reflexivity|].
  apply (index_click_expiry_weekday getDayOf addDaysISO off (Some "2024-05-15"%string) "2024-06-01"
           "SENSEX" t0).
  - simpl; tauto.
  - unfold off, JSDate.msPerDay; lia.
  - vm_compute; reflexivity.
  - reflexivity.
  - intros k; reflexivity.
Defined.

Lemma split_aux_nonempty (sep : ascii) (s cur : string) : JS.split_aux sep s cur <> [].
Proof.
  revert cur. induction s as [|c s IH]; intros cur; simpl; [discriminate|].
  destruct (Ascii.eqb c sep); [discriminate|apply IH].
Qed.

Lemma join_cons (sep p : string) (ps : list string) :
  ps <> [] -> JS.join sep (p :: ps) = (p ++ sep ++ JS.join sep ps)%string.
Proof. destruct ps; [contradiction|reflexivity]. Qed.

Lemma join_split_aux (sep : ascii) (s cur : string) :
  JS.join (String sep EmptyString) (JS.split_aux sep s cur) = (cur ++ s)%string.
Proof.
  revert cur. induction s as [|c s IH]; intros cur; simpl.
  - rewrite str_app_nil_r. reflexivity.
  - destruct (Ascii.eqb c sep) eqn:E.
    + apply Ascii.eqb_eq in E. subst c.
      rewrite join_cons by apply split_aux_nonempty. rewrite IH. reflexivity.
    + rewrite IH, <- str_app_assoc. reflexivity.
Qed.

Lemma split_aux_app (sep : ascii) (x y cur : string) :
  JS.split_aux sep (x ++ String sep y) cur = JS.split_aux sep x cur ++ JS.split_aux sep y EmptyString.
Proof.
  revert cur. induction x as [|c x IH]; intros cur; simpl.
  - rewrite Ascii.eqb_refl. reflexivity.
  - destruct (Ascii.eqb c sep); [rewrite IH; reflexivity|apply IH].
Qed.

Lemma join_removelast (sep : string) (ps : list string) (d : string) :
  removelast ps <> [] ->
  (JS.join sep (removelast ps) ++ sep ++ last ps d)%string = JS.join sep ps.
Proof.
  induction ps as [|p ps IH]; [contradiction|]. intros Hr.
  destruct ps as [|q ps]; [contradiction|].
  change (removelast (p :: q :: ps)) with (p :: removelast (q :: ps)).
  change (last (p :: q :: ps) d) with (last (q :: ps) d).
  destruct (removelast (q :: ps)) as [|r rs] eqn:Er.
  - destruct ps as [|s ps].
    + reflexivity.
    + exfalso. change (removelast (q :: s :: ps)) with (q :: removelast (s :: ps)) in Er.
      discriminate.
  - rewrite (join_cons sep p (r :: rs)), (join_cons sep p (q :: ps)) by discriminate.
    assert (Hr' : r :: rs <> []) by discriminate.
    rewrite <- (IH Hr').
    rewrite <- !str_app_assoc. reflexivity.
Qed.

Lemma trimStart_first (s : string) :
  JS.trimStart s = EmptyString \/
  exists c r, JS.trimStart s = String c r /\ JS.is_ws c = false.
Proof.
  induction s as [|c s IH]; simpl; [left; reflexivity|].
  destruct (JS.is_ws c) eqn:E; [exact IH|]. right. exists c, s. auto.
Qed.

Lemma trim_first (s : string) :
  JS.trim s = EmptyString \/ exists c r, JS.trim s = String c r /\ JS.is_ws c = false.
Proof.
  unfold JS.trim. destruct (trimStart_first s) as [H|(c & r & H & Hc)]; rewrite H.
  - left. reflexivity.
  - right. simpl. rewrite Hc, andb_false_r. exists c, (JS.trimEnd r). auto.
Qed.

Lemma trimEnd_last (p : string) (z : ascii) :
  JS.is_ws z = false -> JS.trimEnd (p ++ String z EmptyString) = (p ++ String z EmptyString)%string.
Proof.
  intros Hz. induction p as [|c p IH]; simpl.
  - rewrite Hz. reflexivity.
  - rewrite IH. destruct p; reflexivity.
Qed.

Lemma trim_keep (c : ascii) (r : string) (z : ascii) :
  JS.is_ws c = false -> JS.is_ws z = false ->
  JS.trim (String c r ++ String z EmptyString) = (String c r ++ String z EmptyString)%string.
Proof.
  intros Hc Hz. unfold JS.trim. simpl. rewrite Hc.
  change (String c (r ++ String z EmptyString)) with (String c r ++ String z EmptyString)%string.
  apply trimEnd_last, Hz.
Qed.

Lemma option_click_manual (k : string) (prev : option string) (type : string) :
  TradeFormActions.handleOptionTypeClick "" k prev type =
  let c := TradeFormActions.manual_current (match prev with Some s => s | None => EmptyString end) in
  if String.eqb c "" then type else JS.trim (c ++ " " ++ type).
Proof. reflexivity. Qed.

Lemma kept_first (s : string) :
  TradeFormActions.manual_current s <> EmptyString -> exists c r, TradeFormActions.manual_current s = String c r /\ JS.is_ws c = false.
Proof.
  unfold TradeFormActions.manual_current. intros Hne.
  destruct (trim_first s) as [Ht|(c0 & r0 & Ht & Hc0)].
  - rewrite Ht in Hne |- *. simpl in Hne. contradiction.
  - rewrite Ht in Hne |- *.
    destruct (TradeFormActions.is_option_type _) eqn:Eo; [|eauto].
    set (parts := JS.split " " (String c0 r0)) in *.
    assert (Hr : removelast parts <> []) by (intros E; rewrite E in Hne; contradiction).
    pose proof (join_removelast " " parts EmptyString Hr) as J.
    assert (J2 : JS.join " " parts = String c0 r0)
      by (unfold parts, JS.split; rewrite join_split_aux; reflexivity).
    rewrite J2 in J.
    destruct (JS.join " " (removelast parts)) as [|c1 r1]; [contradiction|].
    simpl in J. injection J as <- _. eauto.
Qed.

Lemma option_types (a : string) :
  TradeFormActions.is_option_type a = true ->
  a = "CE"%string \/ a = "PE"%string \/ a = "FUT"%string.
Proof.
  unfold TradeFormActions.is_option_type. simpl.
  destruct (String.eqb a "CE") eqn:E1; [apply String.eqb_eq in E1; auto|].
  destruct (String.eqb a "PE") eqn:E2; [apply String.eqb_eq in E2; auto|].
  destruct (String.eqb a "FUT") eqn:E3; [apply String.eqb_eq in E3; auto|].
  discriminate.
Qed.

Lemma kept_after_click (s a : string) :
  TradeFormActions.is_option_type a = true ->
  TradeFormActions.manual_current (if String.eqb (TradeFormActions.manual_current s) "" then a else JS.trim (TradeFormActions.manual_current s ++ " " ++ a)) = TradeFormActions.manual_current s.
Proof.
  intros Ha. destruct (String.eqb (TradeFormActions.manual_current s) "") eqn:E.
  - apply String.eqb_eq in E. rewrite E.
    destruct (option_types a Ha) as [->|[->| ->]]; reflexivity.
  - apply String.eqb_neq in E. destruct (kept_first s E) as (c & r & Hk & Hc).
    rewrite Hk.
    assert (Hs : JS.split " " (String c r ++ " " ++ a) = JS.split " " (String c r) ++ [a]).
    { unfold JS.split. change (" " ++ a)%string with (String " " a). rewrite split_aux_app.
      destruct (option_types a Ha) as [->|[->| ->]]; reflexivity. }
    assert (Ht : JS.trim (String c r ++ " " ++ a) = (String c r ++ " " ++ a)%string).
    { destruct (option_types a Ha) as [->|[->| ->]];
        [ change (" " ++ "CE")%string with (" C" ++ String "E" "")%string
        | change (" " ++ "PE")%string with (" P" ++ String "E" "")%string
        | change (" " ++ "FUT")%string with (" FU" ++ String "T" "")%string ];
        rewrite str_app_assoc; apply (trim_keep c); auto. }
    unfold TradeFormActions.manual_current at 1. rewrite Ht, Ht, Hs, last_last, Ha, removelast_last.
    unfold JS.split. rewrite join_split_aux. reflexivity.
Qed.

(** Extra: with no stock typed in the symbol builder, pressing one option
    type button and then another gives the same symbol as pressing only
    the second, so the buttons replace the trailing option type instead
    of appending a second one; the symbol a button gives is the type
    itself or ends in a space and the type. *)
Theorem option_type_toggle (builderStrike : string) (prevSymbol : option string) (a b : string)
    (Ha : TradeFormActions.is_option_type a = true)
    (Hb : TradeFormActions.is_option_type b = true) :
  TradeFormActions.handleOptionTypeClick "" builderStrike
    (Some (TradeFormActions.handleOptionTypeClick "" builderStrike prevSymbol a)) b =
  TradeFormActions.handleOptionTypeClick "" builderStrike prevSymbol b /\
  (TradeFormActions.handleOptionTypeClick "" builderStrike prevSymbol a = a \/
   exists p, TradeFormActions.handleOptionTypeClick "" builderStrike prevSymbol a
             = (p ++ " " ++ a)%string).
Proof.
  rewrite !option_click_manual. cbv zeta.
  rewrite (kept_after_click _ a Ha). split; [reflexivity|].
  set (s := match prevSymbol with Some s => s | None => EmptyString end).
  destruct (String.eqb (TradeFormActions.manual_current s) "") eqn:E; [left; reflexivity|right].
  apply String.eqb_neq in E. destruct (kept_first s E) as (c & r & Hk & Hc).
  exists (TradeFormActions.manual_current s). rewrite Hk.
  destruct (option_types a Ha) as [->|[->| ->]];
    [ change (" " ++ "CE")%string with (" C" ++ String "E" "")%string
    | change (" " ++ "PE")%string with (" P" ++ String "E" "")%string
    | change (" " ++ "FUT")%string with (" FU" ++ String "T" "")%string ];
    rewrite str_app_assoc; apply (trim_keep c); auto.
Qed.

Lemma option_type_toggle_witness :
  TradeFormActions.is_option_type "CE" = true /\ TradeFormActions.is_option_type "PE" = true /\
  (TradeFormActions.handleOptionTypeClick "" "" (Some (TradeFormActions.handleOptionTypeClick "" ""
     (Some "nifty 24000 FUT") "CE")) "PE" =
   TradeFormActions.handleOptionTypeClick "" "" (Some "nifty 24000 FUT") "PE" /\
   (TradeFormActions.handleOptionTypeClick "" "" (Some "nifty 24000 FUT") "CE" = "CE" \/
    exists p, TradeFormActions.handleOptionTypeClick "" "" (Some "nifty 24000 FUT") "CE"
              = (p ++ " " ++ "CE")))%string.
Proof.
  split; [reflexivity|]. split; [reflexivity|].
  apply option_type_toggle; reflexivity.
Defined.

(** Extra: the name shown for a signed-in user is never empty; without a
    full name it is the part of the e-mail address before the '@' when
    that part is nonempty, and a nonempty full name is shown as it is. *)
Theorem session_user_name :
  (forall full_name email, App.sessionUserName full_name email <> ""%string) /\
  (forall full_name local domain,
     JS.split "@" local = [local] -> local <> ""%string ->
     (full_name = None \/ full_name = Some ""%string) ->
     App.sessionUserName full_name (Some (local ++ "@" ++ domain))%string = local) /\
  (forall fn email, fn <> ""%string -> App.sessionUserName (Some fn) email = fn).
Proof.
  split; [|split].
  - intros fn em. unfold App.sessionUserName.
    destruct (String.eqb _ "") eqn:E1; simpl.
    + destruct (String.eqb (match em with Some e => _ | None => _ end) "") eqn:E2; simpl.
      * discriminate.
      * apply String.eqb_neq, E2.
    + apply String.eqb_neq, E1.
  - intros fn local domain Hs Hne Hfn. unfold App.sessionUserName.
    replace (String.eqb (match fn with Some s => s | None => EmptyString end) "") with true
      by (destruct Hfn as [->| ->]; reflexivity).
    unfold JS.split. simpl. change ("@" ++ domain)%string with (String "@" domain).
    rewrite split_aux_app. unfold JS.split in Hs. rewrite Hs. simpl.
    apply String.eqb_neq in Hne. rewrite Hne. reflexivity.
  - intros fn em Hfn. unfold App.sessionUserName.
    apply String.eqb_neq in Hfn. rewrite Hfn. reflexivity.
Qed.

Lemma obj_add_total (key : string) (w : Q) (data : list (string * Q)) :
  qsum snd (Dashboard.obj_add key w data) == qsum snd data + w.
Proof.
  induction data as [|[k x] rest IH]; simpl.
  - ring.
  - destruct (String.eqb k key); simpl; [ring|]. rewrite IH. ring.
Qed.

Section CountProofs.
Variable key : Trade -> string.
Variable w : Trade -> Q.

(** What an object built by [obj[key(t)] = (obj[key(t)] || 0) + w(t)]
    over the trades [P] holds. *)
Definition count_inv (P : list Trade) (data : list (string * Q)) : Prop :=
  NoDup (map fst data) /\
  (forall k v, In (k, v) data -> v == qsum w (filter (fun t => String.eqb (key t) k) P)) /\
  (forall k, In k (map fst data) <-> exists t, In t P /\ key t = k) /\
  qsum snd data == qsum w P.

Lemma count_inv_step (P : list Trade) (data : list (string * Q)) (t : Trade) :
  count_inv P data -> count_inv (P ++ [t]) (Dashboard.obj_add (key t) (w t) data).
Proof.
  intros (Hn & Hv & Hk & Hs). split; [apply obj_add_nodup, Hn|]. split; [|split].
  - intros k v Hin. rewrite filter_app, qsum_app. simpl.
    destruct (obj_add_in _ _ _ _ _ Hn Hin) as [[H1 H2]|[H1 [(x & H2 & H3)|[H2 H3]]]].
    + assert (E : String.eqb (key t) k = false) by (apply String.eqb_neq; congruence).
      rewrite E. simpl. rewrite (Hv _ _ H2). rewrite Qplus_0_r. reflexivity.
    + subst k v. rewrite String.eqb_refl. simpl. rewrite (Hv _ _ H2).
      rewrite Qplus_0_r. reflexivity.
    + subst k v. rewrite String.eqb_refl. simpl.
      assert (E : filter (fun t0 => String.eqb (key t0) (key t)) P = []).
      { destruct (filter _ P) as [|u us] eqn:F; [reflexivity|].
        exfalso. apply H2, Hk. exists u.
        assert (Hu : In u (filter (fun t0 => String.eqb (key t0) (key t)) P))
          by (rewrite F; left; reflexivity).
        apply filter_In in Hu as [Hu1 Hu2]. apply String.eqb_eq in Hu2. tauto. }
      rewrite E. simpl. rewrite Qplus_0_r. reflexivity.
  - intros k. rewrite obj_add_keys, Hk. split.
    + intros [<-|(u & Hu & Hku)].
      * exists t. rewrite in_app_iff. simpl. tauto.
      * exists u. rewrite in_app_iff. tauto.
    + intros (u & Hu & Hku). apply in_app_iff in Hu as [Hu|[<-|[]]].
      * right. exists u. tauto.
      * left. congruence.
  - rewrite obj_add_total, Hs, qsum_app. simpl. ring.
Qed.

Lemma count_inv_fold (l P : list Trade) (data : list (string * Q)) :
  count_inv P data ->
  count_inv (P ++ l) (fold_left (fun data t => Dashboard.obj_add (key t) (w t) data) l data).
Proof.
  revert P data. induction l as [|t l IH]; intros P data H; simpl.
  - rewrite app_nil_r. exact H.
  - replace (P ++ t :: l) with ((P ++ [t]) ++ l) by (rewrite <- app_assoc; reflexivity).
    apply IH, count_inv_step, H.
Qed.

Lemma count_inv_nil : count_inv [] [].
Proof.
  split; [constructor|]. split; [intros k v []|]. split; [|reflexivity].
  intros k. simpl. split; [intros []|]. intros (t & [] & _).
Qed.

End CountProofs.

Lemma qsum_one {A} (l : list A) : qsum (fun _ => 1) l == inject_Z (Z.of_nat (List.length l)).
Proof.
  induction l as [|x l IH]; [reflexivity|].
  change (qsum (fun _ => 1) (x :: l)) with (1 + qsum (fun _ : A => 1) l).
  change (List.length (x :: l)) with (S (List.length l)).
  rewrite IH, Nat2Z.inj_succ, <- Z.add_1_l, inject_Z_plus. reflexivity.
Qed.

Lemma filter_split_perm {A} (p : A -> bool) (l : list A) :
  Permutation (filter p l ++ filter (fun x => negb (p x)) l) l.
Proof.
  induction l as [|x l IH]; simpl; [reflexivity|].
  destruct (p x); simpl.
  - apply perm_skip, IH.
  - rewrite <- Permutation_middle. apply perm_skip, IH.
Qed.

Lemma entries_perm {V} (data : list (string * V)) : Permutation (JS.entries data) data.
Proof.
  unfold JS.entries. rewrite sort_by_perm. apply filter_split_perm.
Qed.

Lemma Qsign_neg (q : Q) : (DashboardView.Qsign q <? 0)%Z = true -> q < 0.
Proof.
  unfold DashboardView.Qsign. destruct (Qltb q 0) eqn:E1.
  - intros _. apply Qltb_iff, E1.
  - destruct (Qltb 0 q); discriminate.
Qed.

Lemma Qsign_nonneg (q : Q) : (DashboardView.Qsign q <? 0)%Z = false -> 0 <= q.
Proof.
  unfold DashboardView.Qsign. destruct (Qltb q 0) eqn:E1; [discriminate|].
  intros _. apply Qltb_false, E1.
Qed.

(** Extra: when no setup names a member of [Object.prototype], the
    strategy pie has one slice per distinct setup of the trades (an empty
    setup counts as 'Other'), with distinct names; each slice's value is
    the number of trades of that setup, the values add up to the number of
    trades, and the slices run from the largest value to the smallest. *)
Theorem strategy_slices (trades : list Trade)
    (Hkeys : forall t, In t trades ->
             ~ In (DashboardView.setup_or_other t) DashboardView.Object_prototype_keys) :
  NoDup (map DashboardView.sname (DashboardView.strategyData trades)) /\
  (forall s, In s (DashboardView.strategyData trades) ->
     DashboardView.svalue s ==
     inject_Z (Z.of_nat (List.length
       (filter (fun t => String.eqb (DashboardView.setup_or_other t) (DashboardView.sname s))
          trades)))) /\
  (forall name, In name (map DashboardView.sname (DashboardView.strategyData trades)) <->
     exists t, In t trades /\ DashboardView.setup_or_other t = name) /\
  qsum DashboardView.svalue (DashboardView.strategyData trades) ==
    inject_Z (Z.of_nat (List.length trades)) /\
  Sorted (fun a b => DashboardView.svalue b <= DashboardView.svalue a)
    (DashboardView.strategyData trades).
Proof.
  pose proof (count_inv_fold DashboardView.setup_or_other (fun _ => 1) trades [] []
                (count_inv_nil _ _)) as (Hn & Hv & Hk & Hs).
  change (fold_left _ trades []) with (DashboardView.strategy_counts trades) in Hn, Hv, Hk, Hs.
  simpl in Hv, Hk, Hs.
  set (mk := fun '(name, value) => DashboardView.mkSlice name value) in *.
  assert (P : Permutation (DashboardView.strategyData trades)
                          (map mk (DashboardView.strategy_counts trades))).
  { unfold DashboardView.strategyData. fold mk. rewrite sort_by_perm.
    apply Permutation_map, entries_perm. }
  assert (Hm : forall l : list (string * Q),
             map DashboardView.sname (map mk l) = map fst l).
  { intros l. rewrite map_map. apply map_ext. intros [a b]. reflexivity. }
  split; [|split; [|split; [|split]]].
  - eapply Permutation_NoDup; [symmetry; apply Permutation_map, P|]. rewrite Hm. exact Hn.
  - intros s Hin. apply (Permutation_in _ P), in_map_iff in Hin as ([k v] & <- & Hin).
    simpl. rewrite (Hv _ _ Hin), qsum_one. reflexivity.
  - intros name. rewrite <- Hk, <- Hm. split; apply Permutation_in.
    + apply Permutation_map, P.
    + symmetry. apply Permutation_map, P.
  - rewrite (qsum_perm _ _ _ P), <- qsum_one, <- Hs.
    clear. induction (DashboardView.strategy_counts trades) as [|[k v] l IH]; simpl;
      [reflexivity|]. rewrite IH. reflexivity.
  - apply sort_by_sorted.
    + intros x y H. apply Qsign_neg in H. apply (Qplus_lt_l _ _ (DashboardView.svalue x)) in H.
      ring_simplify in H. apply Qlt_le_weak, H.
    + intros x y H. apply Qsign_nonneg in H. apply (Qplus_le_l _ _ (DashboardView.svalue x)) in H.
      ring_simplify in H. exact H.
Qed.

Lemma strategy_slices_witness :
  let trades := [mkTrade "s1" "NIFTY" LONG CLOSED "2024-01-05" None 100 None 1 None None None "Breakout" "" [];
                 mkTrade "s2" "NIFTY" LONG CLOSED "2024-01-06" None 100 None 1 None None None "" "" [];
                 mkTrade "s3" "NIFTY" LONG CLOSED "2024-01-07" None 100 None 1 None None None "Breakout" "" []]%string in
  (forall t, In t trades ->
   ~ In (DashboardView.setup_or_other t) DashboardView.Object_prototype_keys) /\
  NoDup (map DashboardView.sname (DashboardView.strategyData trades)) /\
  (forall s, In s (DashboardView.strategyData trades) ->
     DashboardView.svalue s ==
     inject_Z (Z.of_nat (List.length
       (filter (fun t => String.eqb (DashboardView.setup_or_other t) (DashboardView.sname s))
          trades)))) /\
  (forall name, In name (map DashboardView.sname (DashboardView.strategyData trades)) <->
     exists t, In t trades /\ DashboardView.setup_or_other t = name) /\
  qsum DashboardView.svalue (DashboardView.strategyData trades) ==
    inject_Z (Z.of_nat (List.length trades)) /\
  Sorted (fun a b => DashboardView.svalue b <= DashboardView.svalue a)
    (DashboardView.strategyData trades).
Proof.
  intros trades. split.
  - intros t Ht. destruct Ht as [<-|[<-|[<-|[]]]]; vm_compute; intuition discriminate.
  - apply (strategy_slices trades).
    intros t Ht. destruct Ht as [<-|[<-|[<-|[]]]]; vm_compute; intuition discriminate.
Defined.

Lemma fold_max_spec (xs : list Q) (x : Q) :
  x <= fold_left Qmax xs x /\ (forall y, In y xs -> y <= fold_left Qmax xs x) /\
  (fold_left Qmax xs x = x \/ In (fold_left Qmax xs x) xs).
Proof.
  revert x. induction xs as [|z xs IH]; intros x; cbn [fold_left In].
  - split; [apply Qle_refl|]. split; [intros y []|]. left. reflexivity.
  - destruct (IH (Qmax x z)) as (H1 & H2 & H3). split; [|split].
    + eapply Qle_trans; [apply Q.le_max_l|exact H1].
    + intros y [<-|Hy]; [eapply Qle_trans; [apply Q.le_max_r|exact H1]|apply H2, Hy].
    + destruct H3 as [H3|H3]; [|right; right; exact H3].
      rewrite H3. unfold Qmax, GenericMinMax.gmax.
      destruct (Qcompare x z); [left|right; left|left]; reflexivity.
Qed.

Lemma fold_min_spec (xs : list Q) (x : Q) :
  fold_left Qmin xs x <= x /\ (forall y, In y xs -> fold_left Qmin xs x <= y) /\
  (fold_left Qmin xs x = x \/ In (fold_left Qmin xs x) xs).
Proof.
  revert x. induction xs as [|z xs IH]; intros x; cbn [fold_left In].
  - split; [apply Qle_refl|]. split; [intros y []|]. left. reflexivity.
  - destruct (IH (Qmin x z)) as (H1 & H2 & H3). split; [|split].
    + eapply Qle_trans; [exact H1|apply Q.le_min_l].
    + intros y [<-|Hy]; [eapply Qle_trans; [exact H1|apply Q.le_min_r]|apply H2, Hy].
    + destruct H3 as [H3|H3]; [|right; right; exact H3].
      rewrite H3. unfold Qmin, GenericMinMax.gmin.
      destruct (Qcompare x z); [left|left|right; left]; reflexivity.
Qed.

Lemma Math_max_spec (w : Trade) (ws : list Trade) :
  (forall t, In t (w :: ws) -> pnl_or0 t <= DashboardView.Math_max (pnl_or0 w) (map pnl_or0 ws)) /\
  exists t, In t (w :: ws) /\ pnl_or0 t = DashboardView.Math_max (pnl_or0 w) (map pnl_or0 ws).
Proof.
  unfold DashboardView.Math_max.
  destruct (fold_max_spec (map pnl_or0 ws) (pnl_or0 w)) as (H1 & H2 & H3). split.
  - intros t [<-|Ht]; [exact H1|apply H2, in_map, Ht].
  - destruct H3 as [H3|H3].
    + exists w. split; [left; reflexivity|]. symmetry. exact H3.
    + apply in_map_iff in H3 as (t & Ht & Hin). exists t. split; [right; exact Hin|exact Ht].
Qed.

Lemma Math_min_spec (w : Trade) (ws : list Trade) :
  (forall t, In t (w :: ws) -> DashboardView.Math_min (pnl_or0 w) (map pnl_or0 ws) <= pnl_or0 t) /\
  exists t, In t (w :: ws) /\ pnl_or0 t = DashboardView.Math_min (pnl_or0 w) (map pnl_or0 ws).
Proof.
  unfold DashboardView.Math_min.
  destruct (fold_min_spec (map pnl_or0 ws) (pnl_or0 w)) as (H1 & H2 & H3). split.
  - intros t [<-|Ht]; [exact H1|apply H2, in_map, Ht].
  - destruct H3 as [H3|H3].
    + exists w. split; [left; reflexivity|]. symmetry. exact H3.
    + apply in_map_iff in H3 as (t & Ht & Hin). exists t. split; [right; exact Hin|exact Ht].
Qed.

Lemma rate_bounds (a b : nat) :
  (a <= b)%nat -> (0 < b)%nat ->
  0 <= inject_Z (Z.of_nat a) / inject_Z (Z.of_nat b) * 100 <= 100.
Proof.
  intros Hab Hb.
  assert (Hn' : 0 < inject_Z (Z.of_nat b)) by (change 0 with (inject_Z 0); rewrite <- Zlt_Qlt; lia).
  split.
  - apply Qmult_le_0_compat; [|discriminate].
    apply Qle_shift_div_l; [exact Hn'|]. rewrite Qmult_0_l. change 0 with (inject_Z 0). rewrite <- Zle_Qle. lia.
  - rewrite <- (Qmult_1_l 100) at 2. apply Qmult_le_compat_r; [|discriminate].
    apply Qle_shift_div_r; [exact Hn'|]. rewrite Qmult_1_l. rewrite <- Zle_Qle. lia.
Qed.

(** Extra: the daily report is refused exactly when no closed trade was
    entered today; otherwise it counts today's closed trades, its P&L is
    their total, its win rate lies between 0 and 100, its best win is the
    largest P&L of a winning trade (0 without one) and its biggest loss
    the smallest P&L of a trade that did not win (0 without one). *)
Theorem daily_report (trades : list Trade) (today : string) (d m y : Z) :
  (DashboardView.prepareDailyStats trades today d m y = None <->
   Dashboard.dayTrades trades today = []) /\
  (forall r, DashboardView.prepareDailyStats trades today d m y = Some r ->
   let tt := Dashboard.dayTrades trades today in
   totalTrades (DashboardView.rstats r) = Z.of_nat (List.length tt) /\
   netPnL (DashboardView.rstats r) = sum_pnl tt /\
   0 <= winRate (DashboardView.rstats r) <= 100 /\
   (forall t, In t tt -> 0 < pnl_or0 t -> pnl_or0 t <= avgWin (DashboardView.rstats r)) /\
   (avgWin (DashboardView.rstats r) = 0 \/
    exists t, In t tt /\ 0 < pnl_or0 t /\ pnl_or0 t = avgWin (DashboardView.rstats r)) /\
   (forall t, In t tt -> pnl_or0 t <= 0 -> avgLoss (DashboardView.rstats r) <= pnl_or0 t) /\
   (avgLoss (DashboardView.rstats r) = 0 \/
    exists t, In t tt /\ pnl_or0 t <= 0 /\ pnl_or0 t = avgLoss (DashboardView.rstats r))).
Proof.
  unfold DashboardView.prepareDailyStats.
  destruct (Dashboard.dayTrades trades today) as [|t0 ts] eqn:Ed.
  - split; [tauto|discriminate].
  - split; [split; discriminate|].
    set (tt := t0 :: ts). intros r Hr.
    apply (f_equal (fun o => match o with Some v => v | None => r end)) in Hr.
    cbv beta iota zeta in Hr. subst r. cbv zeta.
    cbv beta iota delta [DashboardView.rstats totalTrades netPnL winRate avgWin avgLoss].
    split; [reflexivity|]. split; [reflexivity|]. split; [|split; [|split; [|split]]].
    + match goal with |- context [(0 <? ?n)%Z] =>
        replace (0 <? n)%Z with true by (symmetry; apply Z.ltb_lt; simpl; lia) end.
      apply rate_bounds; [apply filter_length_le|simpl; lia].
    + intros t Ht Hp.
      assert (Hin : In t (filter (fun t => Qltb 0 (pnl_or0 t)) tt))
        by (apply filter_In; split; [exact Ht|apply Qltb_iff, Hp]).
      destruct (filter _ tt) as [|w ws]; [contradiction|].
      apply (proj1 (Math_max_spec w ws)), Hin.
    + destruct (filter (fun t => Qltb 0 (pnl_or0 t)) tt) as [|w ws] eqn:Ef; [left; reflexivity|].
      right. destruct (proj2 (Math_max_spec w ws)) as (t & Ht & E).
      exists t. rewrite <- Ef in Ht. apply filter_In in Ht as [Ht Hp].
      split; [exact Ht|]. split; [apply Qltb_iff, Hp|exact E].
    + intros t Ht Hp.
      assert (Hin : In t (filter (fun t => Qle_bool (pnl_or0 t) 0) tt))
        by (apply filter_In; split; [exact Ht|apply Qle_bool_iff, Hp]).
      destruct (filter _ tt) as [|w ws]; [contradiction|].
      apply (proj1 (Math_min_spec w ws)), Hin.
    + destruct (filter (fun t => Qle_bool (pnl_or0 t) 0) tt) as [|w ws] eqn:Ef; [left; reflexivity|].
      right. destruct (proj2 (Math_min_spec w ws)) as (t & Ht & E).
      exists t. rewrite <- Ef in Ht. apply filter_In in Ht as [Ht Hp].
      split; [exact Ht|]. split; [apply Qle_bool_iff, Hp|exact E].
Qed.

Lemma list_ascii_of_string_app (a b : string) :
  list_ascii_of_string (a ++ b) = list_ascii_of_string a ++ list_ascii_of_string b.
Proof. induction a as [|c a IH]; simpl; [reflexivity|]. rewrite IH. reflexivity. Qed.

Lemma hashtags_aux_sound (s : string) (cur : option string) :
  (match cur with
   | Some w => exists w', w = String "#" w' /\
                          forallb DashboardView.is_word (list_ascii_of_string w') = true
   | None => True
   end) ->
  forall tag, In tag (DashboardView.hashtags_aux s cur) -> DashboardView.hashtag_like tag.
Proof.
  assert (Emit : forall w, (exists w', w = String "#" w' /\
                          forallb DashboardView.is_word (list_ascii_of_string w') = true) ->
            forall tag, In tag (if (1 <? String.length w)%nat then [w] else []) -> DashboardView.hashtag_like tag).
  { intros w (w' & -> & Hw) tag Hin.
    destruct (1 <? String.length (String "#" w'))%nat eqn:L; [|destruct Hin].
    destruct Hin as [<-|[]]. exists w'. split; [reflexivity|]. split; [|exact Hw].
    intros ->. discriminate. }
  revert cur. induction s as [|c s IH]; intros cur Hcur tag Hin; simpl in Hin.
  - destruct cur as [w|]; [exact (Emit w Hcur tag Hin)|destruct Hin].
  - assert (Fresh : forall tag, In tag (if Ascii.eqb c "#" then DashboardView.hashtags_aux s (Some "#"%string)
                                    else DashboardView.hashtags_aux s None) -> DashboardView.hashtag_like tag).
    { intros tg Htg. destruct (Ascii.eqb c "#").
      - apply (IH (Some "#"%string)); [|exact Htg]. exists EmptyString. auto.
      - apply (IH None); [exact I|exact Htg]. }
    destruct cur as [w|]; [|exact (Fresh tag Hin)].
    destruct (DashboardView.is_word c) eqn:Ec.
    + apply (IH (Some (w ++ String c EmptyString)%string)); [|exact Hin].
      destruct Hcur as (w' & -> & Hw). exists (w' ++ String c EmptyString)%string.
      split; [reflexivity|]. rewrite list_ascii_of_string_app, forallb_app, Hw. simpl.
      rewrite Ec. reflexivity.
    + apply in_app_iff in Hin as [Hin|Hin]; [exact (Emit w Hcur tag Hin)|exact (Fresh tag Hin)].
Qed.

Lemma dedup_spec (xs acc : list string) :
  NoDup acc ->
  NoDup (fold_left (fun acc x => if existsb (String.eqb x) acc then acc else acc ++ [x]) xs acc) /\
  (forall y, In y (fold_left (fun acc x => if existsb (String.eqb x) acc then acc else acc ++ [x]) xs acc)
             <-> In y acc \/ In y xs).
Proof.
  revert acc. induction xs as [|x xs IH]; intros acc Hn; simpl.
  - split; [exact Hn|]. tauto.
  - destruct (existsb (String.eqb x) acc) eqn:E.
    + destruct (IH acc Hn) as [H1 H2]. split; [exact H1|]. intros y. rewrite H2.
      apply existsb_exists in E as (z & Hz & Ez). apply String.eqb_eq in Ez. subst z.
      split; [tauto|]. intros [H|[<-|H]]; tauto.
    + assert (Hn' : NoDup (acc ++ [x])).
      { apply NoDup_app; [exact Hn|repeat constructor; easy|].
        intros z Hz [Hx|[]]. subst x. assert (existsb (String.eqb z) acc = true) as E'
          by (apply existsb_exists; exists z; split; [exact Hz|apply String.eqb_refl]).
        congruence. }
      destruct (IH (acc ++ [x]) Hn') as [H1 H2]. split; [exact H1|]. intros y. rewrite H2.
      rewrite in_app_iff. simpl. tauto.
Qed.

(** Extra: the psychology line of the daily report lists each hashtag of
    the notes of today's trades exactly once: every entry is "#" followed
    by one or more word characters (letters, digits, '_'), the entries are
    distinct, and they are exactly the hashtags found in those notes. *)
Theorem psychology_tags_spec (todaysTrades : list Trade) :
  NoDup (DashboardView.psychologyTags todaysTrades) /\
  (forall tag, In tag (DashboardView.psychologyTags todaysTrades) <->
     exists t, In t todaysTrades /\ In tag (DashboardView.hashtags (notes t))) /\
  (forall tag, In tag (DashboardView.psychologyTags todaysTrades) -> DashboardView.hashtag_like tag).
Proof.
  unfold DashboardView.psychologyTags, DashboardView.dedup.
  destruct (dedup_spec (flat_map (fun t => DashboardView.hashtags (notes t)) todaysTrades) []
              (NoDup_nil _)) as [H1 H2].
  split; [exact H1|]. split.
  - intros tag. rewrite H2, in_flat_map. simpl. tauto.
  - intros tag Hin. apply H2 in Hin as [[]|Hin].
    apply in_flat_map in Hin as (t & _ & Ht).
    apply (hashtags_aux_sound _ None I _ Ht).
Qed.

Lemma toFixed2_nonneg_floor (x : Q) :
  0 <= x -> TradeForm.toFixed2 x = inject_Z (Qfloor (x * 100 + (1 # 2))) / 100.
Proof.
  intros Hx. unfold TradeForm.toFixed2.
  replace (Qltb x 0) with false by (symmetry; apply Qltb_false, Hx).
  rewrite (Qfloor_comp _ _ (Qplus_comp _ _ (Qmult_comp _ _ (Qabs_pos _ Hx) _ _ (Qeq_refl 100)) _ _ (Qeq_refl (1 # 2)))).
  reflexivity.
Qed.

Lemma toFixed2_nonneg (x : Q) : 0 <= x -> 0 <= TradeForm.toFixed2 x.
Proof.
  intros Hx. rewrite toFixed2_nonneg_floor by exact Hx.
  apply Qle_shift_div_l; [reflexivity|]. rewrite Qmult_0_l.
  change 0 with (inject_Z 0). rewrite <- Zle_Qle.
  change 0%Z with (Qfloor 0). apply Qfloor_resp_le.
  apply Qle_trans with (x * 100); [apply Qmult_le_0_compat; [exact Hx|discriminate]|].
  rewrite <- (Qplus_0_r (x * 100)) at 1. apply Qplus_le_r. discriminate.
Qed.

Lemma toFixed2_mono (x y : Q) : x <= y -> TradeForm.toFixed2 x <= TradeForm.toFixed2 y.
Proof.
  intros Hxy.
  assert (Ex : TradeForm.toFixed2 x == - TradeForm.toFixed2 (- x))
    by (rewrite <- toFixed2_opp; apply toFixed2_comp; ring).
  destruct (Qlt_le_dec x 0) as [Hx|Hx]; destruct (Qlt_le_dec y 0) as [Hy|Hy].
  - assert (Ey : TradeForm.toFixed2 y == - TradeForm.toFixed2 (- y))
      by (rewrite <- toFixed2_opp; apply toFixed2_comp; ring).
    rewrite Ex, Ey. apply Qopp_le_compat.
    assert (Hx' : 0 <= - x) by (apply Qlt_le_weak in Hx; apply Qopp_le_compat in Hx; exact Hx).
    assert (Hy' : 0 <= - y) by (apply Qlt_le_weak in Hy; apply Qopp_le_compat in Hy; exact Hy).
    rewrite !toFixed2_nonneg_floor by assumption.
    apply Qmult_le_compat_r; [|discriminate]. rewrite <- Zle_Qle. apply Qfloor_resp_le.
    apply Qplus_le_l, Qmult_le_compat_r; [|discriminate]. apply Qopp_le_compat, Hxy.
  - apply Qle_trans with 0; [|apply toFixed2_nonneg, Hy].
    rewrite Ex. apply (Qopp_le_compat 0). apply toFixed2_nonneg.
    apply Qlt_le_weak in Hx. apply Qopp_le_compat in Hx. exact Hx.
  - exfalso. apply (Qlt_irrefl 0). apply Qle_lt_trans with x; [exact Hx|].
    apply Qle_lt_trans with y; assumption.
  - rewrite !toFixed2_nonneg_floor by assumption.
    apply Qmult_le_compat_r; [|discriminate]. rewrite <- Zle_Qle. apply Qfloor_resp_le.
    apply Qplus_le_l, Qmult_le_compat_r; [exact Hxy|discriminate].
Qed.

Lemma toFixed2_cents (n : Z) : (0 <= n)%Z -> TradeForm.toFixed2 (inject_Z n / 100) == inject_Z n / 100.
Proof.
  intros Hn. rewrite toFixed2_nonneg_floor.
  - assert (E : Qfloor (inject_Z n / 100 * 100 + (1 # 2)) = n).
    { rewrite (Qfloor_comp _ (inject_Z n + (1 # 2))) by (field; discriminate).
      apply Z.le_antisymm.
      - assert (H1 := Qfloor_le (inject_Z n + (1 # 2))).
        assert (H2 : inject_Z (Qfloor (inject_Z n + (1 # 2))) < inject_Z (n + 1)).
        { apply Qle_lt_trans with (inject_Z n + (1 # 2)); [exact H1|].
          rewrite inject_Z_plus. apply Qplus_lt_r. reflexivity. }
        rewrite <- Zlt_Qlt in H2. lia.
      - rewrite <- (Qfloor_Z n) at 1. apply Qfloor_resp_le.
        rewrite <- (Qplus_0_r (inject_Z n)) at 1. apply Qplus_le_r. discriminate. }
    rewrite E. reflexivity.
  - apply Qle_shift_div_l; [reflexivity|]. rewrite Qmult_0_l.
    change 0 with (inject_Z 0). rewrite <- Zle_Qle. exact Hn.
Qed.

Lemma scale_sides (e p : Q) : 0 <= e -> 0 <= p -> e * (1 - p / 100) <= e /\ e <= e * (1 + p / 100).
Proof.
  intros He Hp.
  assert (H : 0 <= e * (p / 100)).
  { apply Qmult_le_0_compat; [exact He|]. apply Qle_shift_div_l; [reflexivity|].
    rewrite Qmult_0_l. exact Hp. }
  split.
  - apply Qle_minus_iff.
    setoid_replace (e + - (e * (1 - p / 100))) with (e * (p / 100)) by ring. exact H.
  - apply Qle_minus_iff.
    setoid_replace (e * (1 + p / 100) + - e) with (e * (p / 100)) by ring. exact H.
Qed.

(** Extra: setting the stop-loss or target as a percentage of an entry
    price given in whole cents puts the new price, a whole number of
    cents, on the losing side of the entry for the stop-loss (at or below
    it for a long trade, at or above it for a short one) and on the
    winning side for the target. *)
Theorem percent_price_side (ty : TradeType) (kind : TradeFormActions.PercentField) (n : Z) (p : Q)
    (Hn : (0 < n)%Z) (Hp : 0 <= p) :
  exists np,
    TradeFormActions.handlePercentChange_price ty (Some (inject_Z n / 100)) kind (Some p) = Some np /\
    (match kind, ty with
     | TradeFormActions.PctSL, LONG | TradeFormActions.PctTP, SHORT => np <= inject_Z n / 100
     | _, _ => inject_Z n / 100 <= np
     end) /\
    exists c : Z, np == inject_Z c / 100.
Proof.
  set (e := inject_Z n / 100).
  assert (He : 0 < e).
  { unfold e. apply Qlt_shift_div_l; [reflexivity|]. rewrite Qmult_0_l.
    change 0 with (inject_Z 0). rewrite <- Zlt_Qlt. exact Hn. }
  assert (Hfe : TradeForm.toFixed2 e == e) by (apply toFixed2_cents; lia).
  destruct (scale_sides e p (Qlt_le_weak _ _ He) Hp) as [Hlo Hhi].
  unfold TradeFormActions.handlePercentChange_price.
  replace (Qeq_bool e 0) with false
    by (symmetry; apply not_true_iff_false; intros H; apply Qeq_bool_iff in H;
        rewrite H in He; exact (Qlt_irrefl 0 He)).
  eexists. split; [reflexivity|]. split; [|apply toFixed2_close].
  destruct kind, ty; cbv beta iota.
  - rewrite <- Hfe at 2. apply toFixed2_mono, Hlo.
  - rewrite <- Hfe at 1. apply toFixed2_mono, Hhi.
  - rewrite <- Hfe at 1. apply toFixed2_mono, Hhi.
  - rewrite <- Hfe at 2. apply toFixed2_mono, Hlo.
Qed.

Lemma percent_price_side_witness :
  (0 < 20000)%Z /\ 0 <= 2 /\
  exists np,
    TradeFormActions.handlePercentChange_price LONG (Some (inject_Z 20000 / 100)) TradeFormActions.PctSL (Some 2) = Some np /\
    np <= inject_Z 20000 / 100 /\
    exists c : Z, np == inject_Z c / 100.
Proof.
  split; [reflexivity|]. split; [discriminate|].
  apply (percent_price_side LONG TradeFormActions.PctSL 20000 2); [reflexivity|discriminate].
Defined.

Lemma equity_scan_steps (shortDate : string -> string) (r : Q) (l : list Trade) :
  (forall a post, Dashboard.equity_scan shortDate r l = a :: post ->
     Dashboard.equity a = r + match Dashboard.ppnl a with Some x => x | None => 0 end) /\
  (forall pre a b post, Dashboard.equity_scan shortDate r l = pre ++ a :: b :: post ->
     Dashboard.equity b = Dashboard.equity a + match Dashboard.ppnl b with Some x => x | None => 0 end).
Proof.
  revert r. induction l as [|t l IH]; intros r; split; simpl.
  - discriminate.
  - intros pre a b post H. destruct pre; discriminate.
  - intros a post H. injection H as <- _. reflexivity.
  - intros pre a b post H. destruct pre as [|x pre].
    + injection H as <- H. apply (proj1 (IH (r + pnl_or0 t)) b post H).
    + injection H as _ H. apply (proj2 (IH (r + pnl_or0 t)) pre a b post H).
Qed.

Lemma equity_scan_ppnl (shortDate : string -> string) (r : Q) (l : list Trade) :
  map Dashboard.ppnl (Dashboard.equity_scan shortDate r l) = map pnl l.
Proof.
  revert r. induction l as [|t l IH]; intros r; simpl; [reflexivity|]. rewrite IH. reflexivity.
Qed.

(** Extra: the equity curve has one point per closed trade, carrying that
    trade's P&L; the first point's equity is its own P&L and every later
    point adds its P&L (0 when absent) to the equity of the point before;
    the last point's equity is the total P&L of the closed trades, in
    whatever order they were given. *)
Theorem equity_curve_points (getTime : string -> Z) (shortDate : string -> string)
    (trades : list Trade) :
  let curve := Dashboard.equityCurveData getTime shortDate trades in
  Permutation (map Dashboard.ppnl curve) (map pnl (filter is_closed trades)) /\
  (forall a post, curve = a :: post ->
     Dashboard.equity a = 0 + match Dashboard.ppnl a with Some x => x | None => 0 end) /\
  (forall pre a b post, curve = pre ++ a :: b :: post ->
     Dashboard.equity b = Dashboard.equity a + match Dashboard.ppnl b with Some x => x | None => 0 end) /\
  Dashboard.equity (last curve (Dashboard.mkPoint EmptyString 0 None)) ==
    sum_pnl (filter is_closed trades).
Proof.
  intros curve. unfold curve, Dashboard.equityCurveData.
  split; [|split; [|split]].
  - rewrite equity_scan_ppnl. apply Permutation_map. unfold Dashboard.equity_sorted.
    apply sort_by_perm.
  - apply equity_scan_steps.
  - apply equity_scan_steps.
  - rewrite equity_scan_last. rewrite fold_left_add_shift, Qplus_0_l, sum_pnl_qsum.
    apply qsum_perm. unfold Dashboard.equity_sorted. apply sort_by_perm.
Qed.
